(** * TenderMY: the progressive learning loop, embedded in Rocq

    A shallow embedding of the TypeScript sources

    - [src/utils/validation.ts]: date, text, code and status helpers and
      the field similarity;
    - the Gemini extractor ([learning/gemini-extractor], class
      [GeminiExtractor]): response parsing and the record validator;
    - [src/learning/training-manager.ts], class [TrainingDataManager]:
      the example store and the accuracy figure;
    - the continuous trainer (class [ContinuousTrainer]): failure
      analysis and prompt refinement;

    followed by the properties of the learning loop that hold of them.

    Conventions of the embedding.

    - A JavaScript value is a [JsValue].  Numbers are the integers (the
      only numeric field of a tender is its item number); [String(n)] is
      the decimal numeral, as it is for integers below 10^21.  Strings
      are sequences of code units, written as Rocq strings.
    - A thrown exception is the [Throw] case of [Exc]; [try]/[catch] is
      [try_catch].
    - Coercing a value to a string can throw: an object read from JSON
      that has a property of its own named [toString] has no method of
      that name, and [String], a template literal and
      [RegExp.prototype.test] throw a [TypeError] on it.  The record
      validator receives whatever the response held, and its coercions
      are [coerce_string].  [ToString] is the text of a coercion that
      returns; the fields of stored tenders, which the validator or the
      operator's answers produced, are of that kind.
    - Confidences and percentages are exact rationals.  The sources
      compute them in binary floating point and round with [toFixed].
      Every mean the validator forms is a multiple of 1/140 and so at
      least 1/14000 away from a rounding tie of the third decimal: the
      rounded figure is the same.  For the accuracy percentage the two
      agree unless the exact quotient sits on a tie of the second
      decimal, which takes at least 160 examples. *)

From Stdlib Require Import ZArith QArith Qround Qminmax Lqa String Ascii List Lia DecimalString Sorted.
From stdpp Require Import gmap strings list.
Import ListNotations.

Local Open Scope string_scope.
Local Open Scope list_scope.

(** ** JavaScript values and exceptions *)

#[warnings="-register-all"]
Inductive JsValue : Type :=
| JUndefined
| JNull
| JBool (b : bool)
| JNum (n : Z)
| JStr (s : string)
| JArr (items : list JsValue)
| JObj (props : list (string * JsValue)).

Inductive JsError : Type :=
| TypeError
| SyntaxError
| ENOENT.

Inductive Exc (A : Type) : Type :=
| Ok (a : A)
| Throw (e : JsError).

Arguments Ok {A} a.
Arguments Throw {A} e.

Definition exc_bind {A B : Type} (m : Exc A) (k : A -> Exc B) : Exc B :=
  match m with
  | Ok a => k a
  | Throw e => Throw e
  end.

Notation "'let*' x ':=' m 'in' k" := (exc_bind m (fun x => k))
  (at level 10, x name, m at level 100, k at level 200).

(** [try { body } catch (error) { handler }] *)
Definition try_catch {A : Type} (body : Exc A) (handler : JsError -> Exc A) : Exc A :=
  match body with
  | Ok a => Ok a
  | Throw e => handler e
  end.

Fixpoint exc_map {A B : Type} (f : A -> Exc B) (l : list A) : Exc (list B) :=
  match l with
  | [] => Ok []
  | x :: rest =>
      let* y := f x in
      let* ys := exc_map f rest in
      Ok (y :: ys)
  end.

(** [typeof v] *)
Definition typeof (v : JsValue) : string :=
  match v with
  | JUndefined => "undefined"
  | JNull => "object"
  | JBool _ => "boolean"
  | JNum _ => "number"
  | JStr _ => "string"
  | JArr _ => "object"
  | JObj _ => "object"
  end.

(** Truthiness, as used by [if (v)], [v && ...] and [v || ...]. *)
Definition truthy (v : JsValue) : bool :=
  match v with
  | JUndefined => false
  | JNull => false
  | JBool b => b
  | JNum n => negb (n =? 0)%Z
  | JStr s => negb (String.eqb s "")
  | JArr _ => true
  | JObj _ => true
  end.

(** [a === b].  Arrays and objects compare by reference; the values
    compared in this program are read back from separate JSON documents,
    so two of them are never the same reference. *)
Definition strict_eq (a b : JsValue) : bool :=
  match a, b with
  | JUndefined, JUndefined => true
  | JNull, JNull => true
  | JBool x, JBool y => Bool.eqb x y
  | JNum x, JNum y => (x =? y)%Z
  | JStr x, JStr y => String.eqb x y
  | _, _ => false
  end.

Definition string_of_Z (n : Z) : string :=
  NilZero.string_of_int (Z.to_int n).

Fixpoint join_with (sep : string) (parts : list string) : string :=
  match parts with
  | [] => ""
  | [p] => p
  | p :: rest => p +:+ sep +:+ join_with sep rest
  end.

(** The text [String(v)] yields when the coercion returns (see
    [coercible] below). *)
Fixpoint ToString (v : JsValue) : string :=
  match v with
  | JUndefined => "undefined"
  | JNull => "null"
  | JBool true => "true"
  | JBool false => "false"
  | JNum n => string_of_Z n
  | JStr s => s
  | JArr items =>
      join_with ","
        (map (fun x => match x with
                       | JUndefined | JNull => ""
                       | _ => ToString x
                       end) items)
  | JObj _ => "[object Object]"
  end.

(** Whether [String(v)] returns.  The coercion of an object calls its
    [toString] and, failing that, its [valueOf].  An own property named
    [toString] of an object read from JSON is never a function, and
    [valueOf], own or inherited, yields no primitive value: the coercion
    throws.  Without such a property the inherited [toString] answers.
    An array joins the coercions of its elements other than [null] and
    [undefined]. *)
Fixpoint coercible (v : JsValue) : bool :=
  match v with
  | JArr items => forallb coercible items
  | JObj props => negb (existsb (fun p => String.eqb (fst p) "toString") props)
  | _ => true
  end.

(** [String(v)], also the coercion a template literal and
    [RegExp.prototype.test] apply to a value of any kind. *)
Definition coerce_string (v : JsValue) : Exc string :=
  if coercible v then Ok (ToString v) else Throw TypeError.

Fixpoint lookup_prop (k : string) (props : list (string * JsValue)) : JsValue :=
  match props with
  | [] => JUndefined
  | (k', v) :: rest => if String.eqb k k' then v else lookup_prop k rest
  end.

(** [data.k] for one of the tender's field names: reading a property of
    [null] or [undefined] throws, every other value without the property
    yields [undefined]. *)
Definition get_prop (data : JsValue) (k : string) : Exc JsValue :=
  match data with
  | JUndefined | JNull => Throw TypeError
  | JObj props => Ok (lookup_prop k props)
  | _ => Ok JUndefined
  end.

(** ** Characters and regular-expression classes *)

Definition is_digit (c : ascii) : bool :=
  let n := nat_of_ascii c in ((48 <=? n) && (n <=? 57))%nat.

(** [\s] and the characters [trim] removes, among code units below 256. *)
Definition is_space (c : ascii) : bool :=
  let n := nat_of_ascii c in
  (((9 <=? n) && (n <=? 13)) || (n =? 32) || (n =? 160))%nat.

Definition lower_char (c : ascii) : ascii :=
  let n := nat_of_ascii c in
  if (((65 <=? n) && (n <=? 90))
      || ((192 <=? n) && (n <=? 222) && negb (n =? 215)))%nat
  then ascii_of_nat (n + 32) else c.

Fixpoint toLowerCase (s : string) : string :=
  match s with
  | EmptyString => EmptyString
  | String c rest => String (lower_char c) (toLowerCase rest)
  end.

Definition chars (s : string) : list ascii := list_ascii_of_string s.
Definition of_chars (l : list ascii) : string := string_of_list_ascii l.

(** ** src/utils/validation.ts *)

(** [/^(\d{2})SEP(\d{2})SEP(\d{4})$/], returning the three groups. *)
Definition match_dd_mm_yyyy (sep : ascii) (s : string)
  : option (string * string * string) :=
  match chars s with
  | [d1; d2; s1; m1; m2; s2; y1; y2; y3; y4] =>
      if forallb is_digit [d1; d2; m1; m2; y1; y2; y3; y4]
         && Ascii.eqb s1 sep && Ascii.eqb s2 sep
      then Some (of_chars [d1; d2], of_chars [m1; m2], of_chars [y1; y2; y3; y4])
      else None
  | _ => None
  end.

(** [/^\d{4}-\d{2}-\d{2}$/] *)
Definition match_yyyy_mm_dd (s : string) : bool :=
  match chars s with
  | [y1; y2; y3; y4; s1; m1; m2; s2; d1; d2] =>
      forallb is_digit [y1; y2; y3; y4; m1; m2; d1; d2]
      && Ascii.eqb s1 "-" && Ascii.eqb s2 "-"
  | _ => false
  end.

(** The three attempts of [normalizeDate] on a string. *)
Definition normalizeDate_string (dateStr : string) : option string :=
  match match_dd_mm_yyyy "/" dateStr with
  | Some (day, month, year) => Some (year +:+ "-" +:+ month +:+ "-" +:+ day)
  | None =>
      match match_dd_mm_yyyy "-" dateStr with
      | Some (day, month, year) => Some (year +:+ "-" +:+ month +:+ "-" +:+ day)
      | None =>
          if match_yyyy_mm_dd dateStr then Some dateStr else None
      end
  end.

(** [normalizeDate].  The extractor passes whatever the response held:
    a value that is not a string has no [match] method, the call throws
    inside the [try] and the [catch] returns [null]. *)
Definition normalizeDate (dateStr : JsValue) : option string :=
  match dateStr with
  | JStr s => normalizeDate_string s
  | _ => None
  end.

Fixpoint drop_spaces (l : list ascii) : list ascii :=
  match l with
  | [] => []
  | c :: rest => if is_space c then drop_spaces rest else l
  end.

(** [String.prototype.trim] *)
Definition trim (s : string) : string :=
  of_chars (rev (drop_spaces (rev (drop_spaces (chars s))))).

(** [.replace(/\s+/g, ' ')]: every maximal run of white space becomes
    one blank; [in_run] says that the previous character was white
    space. *)
Fixpoint collapse_spaces (in_run : bool) (l : list ascii) : list ascii :=
  match l with
  | [] => []
  | c :: rest =>
      if is_space c
      then (if in_run then collapse_spaces true rest
            else " "%char :: collapse_spaces true rest)
      else c :: collapse_spaces false rest
  end.

Definition CR : ascii := ascii_of_nat 13.
Definition LF : ascii := ascii_of_nat 10.

(** [.replace(/\r\n/g, ' ')] *)
Fixpoint replace_crlf (l : list ascii) : list ascii :=
  match l with
  | [] => []
  | c :: rest =>
      match rest with
      | d :: rest' =>
          if Ascii.eqb c CR && Ascii.eqb d LF
          then " "%char :: replace_crlf rest'
          else c :: replace_crlf rest
      | [] => [c]
      end
  end.

(** [.replace(/\n/g, ' ')] *)
Definition replace_lf (l : list ascii) : list ascii :=
  map (fun c => if Ascii.eqb c LF then " "%char else c) l.

Definition cleanText (text : string) : string :=
  of_chars (replace_lf (replace_crlf (collapse_spaces false (chars (trim text))))).

(** [/^\d{6}$/] *)
Definition match_six_digits (s : string) : bool :=
  match chars s with
  | [c1; c2; c3; c4; c5; c6] => forallb is_digit [c1; c2; c3; c4; c5; c6]
  | _ => false
  end.

(** [isValidKodBidang]: [test] coerces its argument to a string. *)
Definition isValidKodBidang (kod : JsValue) : Exc bool :=
  let* text := coerce_string kod in
  Ok (match_six_digits text).

(** [isValidStatus]: [includes] compares with the two canonical
    strings. *)
Definition isValidStatus (status : JsValue) : bool :=
  existsb (fun s => strict_eq s status) [JStr "Aktif"; JStr "Tidak Aktif"].

(** One row of the edit-distance matrix from the row above it: the
    entry in column 0 is the row number, the entry in column [j] is taken
    from the row above ([diag], [up]) and from the entry just written
    ([left]). *)
Fixpoint levenshtein_row (bc : ascii) (a : list ascii)
    (prev : list nat) (left : nat) : list nat :=
  match a, prev with
  | ac :: a', diag :: ((up :: _) as prev') =>
      let cell :=
        if Ascii.eqb bc ac then diag
        else Nat.min (diag + 1) (Nat.min (left + 1) (up + 1)) in
      cell :: levenshtein_row bc a' prev' cell
  | _, _ => []
  end.

Fixpoint levenshtein_rows (a : list ascii) (b : list ascii)
    (prev : list nat) (i : nat) : list nat :=
  match b with
  | [] => prev
  | bc :: b' =>
      levenshtein_rows a b' (i :: levenshtein_row bc a prev i) (S i)
  end.

(** [levenshteinDistance]: the last entry of the last row. *)
Definition levenshteinDistance (a b : string) : nat :=
  List.last (levenshtein_rows (chars a) (chars b) (seq 0 (S (String.length a))) 1) 0%nat.

Definition Q_of_nat (n : nat) : Q := inject_Z (Z.of_nat n).

(** [calculateFieldConfidence].  One and the same array or object on
    both sides would pass [===]; here it reaches the comparison of the
    two texts, which are then equal, with the same result 1. *)
Definition calculateFieldConfidence (extracted validated : JsValue) : Q :=
  if strict_eq extracted JNull || strict_eq validated JNull then 0%Q
  else if strict_eq extracted validated then 1%Q
  else
    let str1 := toLowerCase (ToString extracted) in
    let str2 := toLowerCase (ToString validated) in
    if String.eqb str1 str2 then 1%Q
    else
      let similarity :=
        (1 - Q_of_nat (levenshteinDistance str1 str2)
             / Q_of_nat (Nat.max (String.length str1) (String.length str2)))%Q in
      Qmax 0 similarity.

(** ** src/types/index.ts *)

(** A tender as the program holds it at run time: an object with the
    seven properties, any of which may be absent ([JUndefined]), as in
    [Partial<Tender>]. *)
Record Tender : Type := mkTender {
  bil : JsValue;
  tarikh : JsValue;
  daftar : JsValue;
  bidang : JsValue;
  kod_bidang : JsValue;
  keterangan : JsValue;
  status : JsValue
}.

Definition empty_tender : Tender :=
  mkTender JUndefined JUndefined JUndefined JUndefined JUndefined JUndefined JUndefined.

Record Confidence : Type := mkConfidence {
  overall : Q;
  per_field : list (string * Q)
}.

(** [ExtractionResult]; the optional [raw_gemini_response], the JSON
    text of the candidate, takes no part in what follows and is not
    carried. *)
Record ExtractionResult : Type := mkExtractionResult {
  tender : Tender;
  confidence : Confidence;
  warnings : list string;
  errors : list string
}.

(** ** The Gemini extractor *)

(** [obj[k] = v] on a [Record<string, number>]: a new key goes last, an
    existing key keeps its place. *)
Fixpoint set_key (k : string) (v : Q) (obj : list (string * Q)) : list (string * Q) :=
  match obj with
  | [] => [(k, v)]
  | (k', v') :: rest =>
      if String.eqb k k' then (k, v) :: rest else (k', v') :: set_key k v rest
  end.

(** [Object.values(obj)] *)
Definition Object_values (obj : list (string * Q)) : list Q := map snd obj.

(** [a || b] *)
Definition js_or (a b : JsValue) : JsValue := if truthy a then a else b.

(** [x.toFixed(digits)] read back with [parseFloat]: the nearest
    multiple of [10^-digits], a tie going away from zero. *)
Definition toFixed (digits : nat) (x : Q) : Q :=
  let scale := (10 ^ Z.of_nat digits)%Z in
  let half_up (y : Q) := Qfloor (y * inject_Z scale + (1 # 2)) in
  if Qle_bool 0 x
  then Qmake (half_up x) (Z.to_pos scale)
  else Qmake (- half_up (- x)) (Z.to_pos scale).

(** [values.reduce((a, b) => a + b) / values.length].  The caller tests
    [values.length > 0] first, so the empty case is never reached. *)
Definition mean_or_zero (values : list Q) : Q :=
  match values with
  | [] => 0
  | v :: vs => fold_left Qplus vs v / Q_of_nat (List.length values)
  end.

(** The working variables of [validateAndScoreTender]. *)
Record Scoring : Type := mkScoring {
  extraction : Tender;
  perFieldConfidence : list (string * Q);
  sc_errors : list string
}.

Definition accept (field : string) (conf : Q) (upd : Tender -> Tender)
    (st : Scoring) : Scoring :=
  mkScoring (upd (extraction st))
            (set_key field conf (perFieldConfidence st))
            (sc_errors st).

Definition reject (field : string) (msg : string) (st : Scoring) : Scoring :=
  mkScoring (extraction st)
            (set_key field 0 (perFieldConfidence st))
            (sc_errors st ++ [msg]).

(** The [else] branch of a field whose error message quotes the
    value: [perFieldConfidence.field = 0] and
    [errors.push(`prefix${value}`)], the template literal coercing the
    value. *)
Definition reject_value (field prefix : string) (value : JsValue) (st : Scoring)
  : Exc Scoring :=
  let* text := coerce_string value in
  Ok (reject field (prefix +:+ text) st).

Definition is_string (v : JsValue) : bool := String.eqb (typeof v) "string".

Definition string_length (v : JsValue) : nat :=
  match v with
  | JStr s => String.length s
  | _ => 0
  end.

Definition string_of (v : JsValue) : string :=
  match v with
  | JStr s => s
  | _ => ""
  end.

Definition validateAndScoreTender (data : JsValue) : Exc ExtractionResult :=
  let st := mkScoring empty_tender [] [] in
  (* Validate BIL *)
  let* d_bil := get_prop data "bil" in
  let st :=
    if String.eqb (typeof d_bil) "number"
       && match d_bil with JNum n => (0 <? n)%Z | _ => false end
    then accept "bil" 1 (fun t => mkTender d_bil (tarikh t) (daftar t) (bidang t)
                                   (kod_bidang t) (keterangan t) (status t)) st
    else reject "bil" "Invalid BIL" st in
  (* Validate TARIKH *)
  let* d_tarikh := get_prop data "tarikh" in
  let* st :=
    match normalizeDate (js_or d_tarikh (JStr "")) with
    | Some normalizedDate =>
        if truthy (JStr normalizedDate)
        then Ok (accept "tarikh" 1
                   (fun t => mkTender (bil t) (JStr normalizedDate) (daftar t) (bidang t)
                               (kod_bidang t) (keterangan t) (status t)) st)
        else reject_value "tarikh" "Invalid date format: " d_tarikh st
    | None => reject_value "tarikh" "Invalid date format: " d_tarikh st
    end in
  (* Validate DAFTAR *)
  let* d_daftar := get_prop data "daftar" in
  let st :=
    if truthy d_daftar && is_string d_daftar
    then accept "daftar" (9 # 10)
           (fun t => mkTender (bil t) (tarikh t) (JStr (cleanText (string_of d_daftar)))
                       (bidang t) (kod_bidang t) (keterangan t) (status t)) st
    else reject "daftar" "Missing DAFTAR" st in
  (* Validate BIDANG *)
  let* d_bidang := get_prop data "bidang" in
  let st :=
    if truthy d_bidang && is_string d_bidang && (5 <? string_length d_bidang)%nat
    then accept "bidang" (95 # 100)
           (fun t => mkTender (bil t) (tarikh t) (daftar t)
                       (JStr (cleanText (string_of d_bidang)))
                       (kod_bidang t) (keterangan t) (status t)) st
    else reject "bidang" "Invalid BIDANG" st in
  (* Validate KOD BIDANG *)
  let* d_kod := get_prop data "kod_bidang" in
  let* valid := isValidKodBidang d_kod in
  let* st :=
    if valid
    then Ok (accept "kod_bidang" 1
               (fun t => mkTender (bil t) (tarikh t) (daftar t) (bidang t)
                           d_kod (keterangan t) (status t)) st)
    else reject_value "kod_bidang" "Invalid KOD BIDANG format: " d_kod st in
  (* Validate KETERANGAN *)
  let* d_ket := get_prop data "keterangan" in
  let st :=
    if truthy d_ket && is_string d_ket && (5 <? string_length d_ket)%nat
    then accept "keterangan" (9 # 10)
           (fun t => mkTender (bil t) (tarikh t) (daftar t) (bidang t)
                       (kod_bidang t) (JStr (cleanText (string_of d_ket))) (status t)) st
    else reject "keterangan" "Invalid KETERANGAN" st in
  (* Validate STATUS *)
  let* d_status := get_prop data "status" in
  let* st :=
    if isValidStatus d_status
    then Ok (accept "status" 1
               (fun t => mkTender (bil t) (tarikh t) (daftar t) (bidang t)
                           (kod_bidang t) (keterangan t) d_status) st)
    else reject_value "status" "Invalid STATUS: " d_status st in
  (* Calculate overall confidence *)
  let confidenceValues := Object_values (perFieldConfidence st) in
  let overallConfidence :=
    if (0 <? List.length confidenceValues)%nat
    then mean_or_zero confidenceValues
    else 0%Q in
  let warnings :=
    if (0 <? List.length (sc_errors st))%nat
    then ["Extraction had "
            +:+ string_of_Z (Z.of_nat (List.length (sc_errors st)))
            +:+ " validation errors"]
    else [] in
  Ok (mkExtractionResult
        (extraction st)
        (mkConfidence (toFixed 3 overallConfidence) (perFieldConfidence st))
        warnings
        (sc_errors st)).

(** [responseText.match(/\[[\s\S]*\]/)]: from the first opening bracket
    to the last closing bracket after it. *)
Fixpoint upto_last_close (l : list ascii) : option (list ascii) :=
  match l with
  | [] => None
  | c :: rest =>
      match upto_last_close rest with
      | Some r => Some (c :: r)
      | None => if Ascii.eqb c "]" then Some [c] else None
      end
  end.

Fixpoint match_json_array_chars (l : list ascii) : option (list ascii) :=
  match l with
  | [] => None
  | c :: rest =>
      if Ascii.eqb c "["
      then match upto_last_close rest with
           | Some r => Some (c :: r)
           | None => None
           end
      else match_json_array_chars rest
  end.

Definition match_json_array (responseText : string) : option string :=
  option_map of_chars (match_json_array_chars (chars responseText)).

Section ResponseParser.

(** [JSON.parse], the platform's parser: it yields a value or throws a
    [SyntaxError]. *)
Variable JSON_parse : string -> Exc JsValue.

(** The body of the [try] block of [parseGeminiResponse]. *)
Definition parseGeminiResponse_try (responseText : string)
  : Exc (list ExtractionResult) :=
  match match_json_array responseText with
  | None => Ok []
  | Some jsonMatch =>
      let* parsed := JSON_parse jsonMatch in
      match parsed with
      | JArr items => exc_map validateAndScoreTender items
      | _ => Ok []
      end
  end.

Definition parseGeminiResponse (responseText : string)
  : Exc (list ExtractionResult) :=
  try_catch (parseGeminiResponse_try responseText) (fun _ => Ok []).

End ResponseParser.

(** ** src/learning/training-manager.ts *)

Record TrainingExample : Type := mkTrainingExample {
  id : string;
  pdf_url : string;
  pdf_path : string;
  gemini_extraction : ExtractionResult;
  manual_validation : option Tender;
  confidence_score : Q;
  is_validated : bool;
  created_at : Z;
  improved_at : option Z;
  learning_iteration : Z
}.

(** The training directory: [examples/<id>.json] and
    [validations/<id>_validation.json], each keyed by the example id.
    Writing a file replaces what the name held.  The file system itself
    is taken to work: the only failure modelled is reading a file that
    does not exist. *)
Record Store : Type := mkStore {
  examples : gmap string TrainingExample;
  validations : gmap string Tender
}.

Definition empty_store : Store := mkStore ∅ ∅.

(** The loop of [saveTrainingExample] from index [i] on: [uuidv4 i] is
    the identifier drawn and [clock i] the time read in round [i]. *)
Fixpoint saveTrainingExample_loop (uuidv4 : nat -> string) (clock : nat -> Z)
    (pdfPath pdfUrl : string) (iteration : Z)
    (i : nat) (extraction : list ExtractionResult)
    (st : Store) (saved : list TrainingExample) : Store * list TrainingExample :=
  match extraction with
  | [] => (st, saved)
  | e :: rest =>
      let exampleId := uuidv4 i in
      let example :=
        {| id := exampleId;
           pdf_url := pdfUrl;
           pdf_path := pdfPath;
           gemini_extraction := e;
           manual_validation := None;
           confidence_score := overall (confidence e);
           is_validated := false;
           created_at := clock i;
           improved_at := None;
           learning_iteration := iteration |} in
      let st' := mkStore (<[exampleId := example]> (examples st)) (validations st) in
      saveTrainingExample_loop uuidv4 clock pdfPath pdfUrl iteration
        (S i) rest st' (saved ++ [example])
  end.

Definition saveTrainingExample (uuidv4 : nat -> string) (clock : nat -> Z)
    (pdfPath pdfUrl : string) (extraction : list ExtractionResult)
    (iteration : Z) (st : Store) : Store * list TrainingExample :=
  saveTrainingExample_loop uuidv4 clock pdfPath pdfUrl iteration 0 extraction st [].

(** [validateExample]: the store afterwards and what the call returns.
    Reading the example file of an unknown id throws and leaves the
    store as it was. *)
Definition validateExample (now : Z) (exampleId : string) (validatedTender : Tender)
    (st : Store) : Store * Exc TrainingExample :=
  match examples st !! exampleId with
  | None => (st, Throw ENOENT)
  | Some example =>
      let example' :=
        {| id := id example;
           pdf_url := pdf_url example;
           pdf_path := pdf_path example;
           gemini_extraction := gemini_extraction example;
           manual_validation := Some validatedTender;
           confidence_score := confidence_score example;
           is_validated := true;
           created_at := created_at example;
           improved_at := Some now;
           learning_iteration := learning_iteration example |} in
      (mkStore (<[exampleId := example']> (examples st))
               (<[exampleId := validatedTender]> (validations st)),
       Ok example')
  end.

(** [examples.sort((a, b) => a.learning_iteration - b.learning_iteration)]:
    the sort is stable, so an example goes before the later ones of the
    same iteration. *)
Fixpoint insert_by_iteration (x : TrainingExample) (l : list TrainingExample)
  : list TrainingExample :=
  match l with
  | [] => [x]
  | y :: rest =>
      if (learning_iteration x <=? learning_iteration y)%Z
      then x :: l
      else y :: insert_by_iteration x rest
  end.

Definition sort_by_iteration (l : list TrainingExample) : list TrainingExample :=
  fold_right insert_by_iteration [] l.

(** [!iteration || example.learning_iteration === iteration] for the
    optional argument. *)
Definition iteration_filter (iteration : option Z) (example : TrainingExample) : bool :=
  match iteration with
  | None => true
  | Some n => (n =? 0)%Z || (learning_iteration example =? n)%Z
  end.

(** [getValidatedExamples]: the directory listing is the map's listing
    of its bindings. *)
Definition getValidatedExamples (iteration : option Z) (st : Store)
  : list TrainingExample :=
  sort_by_iteration
    (List.filter (fun example => is_validated example && iteration_filter iteration example)
                 (map snd (map_to_list (examples st)))).

Definition getUnvalidatedExamples (st : Store) : list TrainingExample :=
  List.filter (fun example => negb (is_validated example))
              (map snd (map_to_list (examples st))).

(** [fieldsMatch] in [calculateAccuracy] *)
Definition fieldsMatch (extracted validated_ : Tender) : bool :=
  strict_eq (bil extracted) (bil validated_)
  && strict_eq (tarikh extracted) (tarikh validated_)
  && strict_eq (kod_bidang extracted) (kod_bidang validated_)
  && strict_eq (status extracted) (status validated_).

(** The loop of [calculateAccuracy]. *)
Fixpoint correctCount (validated : list TrainingExample) : nat :=
  match validated with
  | [] => 0
  | example :: rest =>
      match manual_validation example with
      | None => correctCount rest
      | Some validated_ =>
          if fieldsMatch (tender (gemini_extraction example)) validated_
          then S (correctCount rest)
          else correctCount rest
      end
  end.

(** [calculateAccuracy] on the list [getValidatedExamples()] returned. *)
Definition calculateAccuracy_on (validated : list TrainingExample) : Q :=
  if (List.length validated =? 0)%nat then 0%Q
  else
    let accuracy :=
      (Q_of_nat (correctCount validated) / Q_of_nat (List.length validated) * 100)%Q in
    toFixed 2 accuracy.

Definition calculateAccuracy (st : Store) : Q :=
  calculateAccuracy_on (getValidatedExamples None st).

(** ** The continuous trainer *)

(** A failure: the example spread into a new object, with the object
    literal [field_mismatches] of five properties. *)
Record Failure : Type := mkFailure {
  failed_example : TrainingExample;
  field_mismatches : list (string * bool)
}.

Definition strict_ne (a b : JsValue) : bool := negb (strict_eq a b).

Fixpoint analyzeFailures (validated : list TrainingExample) : list Failure :=
  match validated with
  | [] => []
  | example :: rest =>
      match manual_validation example with
      | None => analyzeFailures rest
      | Some validated_ =>
          let extracted := tender (gemini_extraction example) in
          let criticalFieldsMismatch :=
            strict_ne (bil extracted) (bil validated_)
            || strict_ne (kod_bidang extracted) (kod_bidang validated_)
            || strict_ne (status extracted) (status validated_) in
          if criticalFieldsMismatch
          then
            mkFailure example
              [("bil", strict_ne (bil extracted) (bil validated_));
               ("kod_bidang", strict_ne (kod_bidang extracted) (kod_bidang validated_));
               ("status", strict_ne (status extracted) (status validated_));
               ("tarikh", strict_ne (tarikh extracted) (tarikh validated_));
               ("bidang", strict_ne (bidang extracted) (bidang validated_))]
            :: analyzeFailures rest
          else analyzeFailures rest
      end
  end.

(** [if (mismatches.k)]: a property the object does not have reads as
    [undefined], which is falsy. *)
Fixpoint mismatch (k : string) (mismatches : list (string * bool)) : bool :=
  match mismatches with
  | [] => false
  | (k', b) :: rest => if String.eqb k k' then b else mismatch k rest
  end.

(** [Set.prototype.add] on a set kept in insertion order. *)
Definition set_add (x : string) (patterns : list string) : list string :=
  if existsb (String.eqb x) patterns then patterns else patterns ++ [x].

Definition add_if (cond : bool) (x : string) (patterns : list string) : list string :=
  if cond then set_add x patterns else patterns.

(** [identifyFailurePatterns]: the loop over the failures, then
    [Array.from(patterns)]. *)
Fixpoint identifyFailurePatterns_loop (failures : list Failure)
    (patterns : list string) : list string :=
  match failures with
  | [] => patterns
  | failure :: rest =>
      let mismatches := field_mismatches failure in
      let patterns := add_if (mismatch "kod_bidang" mismatches) "code_format" patterns in
      let patterns := add_if (mismatch "status" mismatches) "status_format" patterns in
      let patterns :=
        add_if (mismatch "bidang" mismatches || mismatch "keterangan" mismatches)
               "text_content" patterns in
      let patterns := add_if (mismatch "tarikh" mismatches) "date_format" patterns in
      identifyFailurePatterns_loop rest patterns
  end.

Definition identifyFailurePatterns (failures : list Failure) : list string :=
  identifyFailurePatterns_loop failures [].

(** [Array.prototype.includes] on strings *)
Definition includes (l : list string) (x : string) : bool :=
  existsb (String.eqb x) l.

(** The double quote character. *)
Definition dq : string := String (ascii_of_nat 34) EmptyString.

(** The template literals of [generateImprovedPrompt], in order. *)
Definition prompt_base : string :=
  "Extract tender information from this Malaysian government website screenshot/PDF.

REQUIRED FIELDS (extract exactly as shown):
1. BIL - Item number (integer, e.g., 1, 2, 3)
2. TARIKH - Date in DD/MM/YYYY format (e.g., 03/07/2024)
3. DAFTAR - Registration/Reference code
4. BIDANG - Category/Field description (FULL TEXT - preserve all details)
5. KOD BIDANG - Code (exactly 6 digits, e.g., 010302)
6. KETERANGAN - Description (FULL TEXT - include all details)
7. STATUS - Status (must be exactly " +:+ dq +:+ "Aktif" +:+ dq +:+ " or " +:+ dq +:+ "Tidak Aktif" +:+ dq +:+ ")

CRITICAL RULES:
".

Definition clause_code_format : string :=
  "
- KOD BIDANG MUST be exactly 6 numeric digits. Verify twice.
- Do not include spaces, dashes, or special characters in codes.".

Definition clause_status_format : string :=
  "
- STATUS field is critical: Must be EXACTLY " +:+ dq +:+ "Aktif" +:+ dq +:+ " or " +:+ dq +:+ "Tidak Aktif" +:+ dq +:+ " (case-sensitive).
- Do not include extra text, numbers, or symbols.".

Definition clause_text_content : string :=
  "
- BIDANG and KETERANGAN contain full Malay descriptions.
- Preserve all text exactly as shown, including all special characters.
- Do not shorten or modify descriptions.".

Definition clause_date_format : string :=
  "
- TARIKH (date) must be in DD/MM/YYYY format (e.g., 03/07/2024).
- Convert from any other format if needed.".

Definition prompt_output_format : string :=
  "

OUTPUT FORMAT:
Return ONLY valid JSON array. NO other text.
[
  {
    " +:+ dq +:+ "bil" +:+ dq +:+ ": 1,
    " +:+ dq +:+ "tarikh" +:+ dq +:+ ": " +:+ dq +:+ "03/07/2024" +:+ dq +:+ ",
    " +:+ dq +:+ "daftar" +:+ dq +:+ ": " +:+ dq +:+ "code" +:+ dq +:+ ",
    " +:+ dq +:+ "bidang" +:+ dq +:+ ": " +:+ dq +:+ "Full description text" +:+ dq +:+ ",
    " +:+ dq +:+ "kod_bidang" +:+ dq +:+ ": " +:+ dq +:+ "010302" +:+ dq +:+ ",
    " +:+ dq +:+ "keterangan" +:+ dq +:+ ": " +:+ dq +:+ "Full description text" +:+ dq +:+ ",
    " +:+ dq +:+ "status" +:+ dq +:+ ": " +:+ dq +:+ "Aktif" +:+ dq +:+ "
  }
]

If NO data found or extraction fails: return []
".

Definition generateImprovedPrompt (failures : list Failure) : string :=
  let failurePatterns := identifyFailurePatterns failures in
  let improvedPrompt := prompt_base in
  let improvedPrompt :=
    if includes failurePatterns "code_format"
    then improvedPrompt +:+ clause_code_format else improvedPrompt in
  let improvedPrompt :=
    if includes failurePatterns "status_format"
    then improvedPrompt +:+ clause_status_format else improvedPrompt in
  let improvedPrompt :=
    if includes failurePatterns "text_content"
    then improvedPrompt +:+ clause_text_content else improvedPrompt in
  let improvedPrompt :=
    if includes failurePatterns "date_format"
    then improvedPrompt +:+ clause_date_format else improvedPrompt in
  improvedPrompt +:+ prompt_output_format.

(** The extractor's mutable fields, and [updatePrompt]. *)
Record Extractor : Type := mkExtractor {
  extractionPrompt : string;
  iteration_count : nat
}.

Definition updatePrompt (newPrompt : string) (ex : Extractor) : Extractor :=
  mkExtractor newPrompt (S (iteration_count ex)).

(** ** Notions used in the statements *)

(** The seven field names, as listed in [refineWithValidation]. *)
Definition tender_fields : list string :=
  ["bil"; "tarikh"; "daftar"; "bidang"; "kod_bidang"; "keterangan"; "status"].

(** [t[k]] *)
Definition tender_field (k : string) (t : Tender) : JsValue :=
  if String.eqb k "bil" then bil t
  else if String.eqb k "tarikh" then tarikh t
  else if String.eqb k "daftar" then daftar t
  else if String.eqb k "bidang" then bidang t
  else if String.eqb k "kod_bidang" then kod_bidang t
  else if String.eqb k "keterangan" then keterangan t
  else if String.eqb k "status" then status t
  else JUndefined.

Definition Qsum (l : list Q) : Q := fold_right Qplus 0%Q l.

(** [data[k]] on a candidate that is neither [null] nor [undefined]. *)
Definition candidate_field (data : JsValue) (k : string) : JsValue :=
  match data with
  | JObj props => lookup_prop k props
  | _ => JUndefined
  end.

(** The candidates the validator can score: those with properties to
    read whose date, code and status, the three values it coerces to a
    string, can be coerced. *)
Definition scorable (data : JsValue) : bool :=
  match data with
  | JUndefined | JNull => false
  | _ =>
      forallb (fun k => coercible (candidate_field data k))
              ["tarikh"; "kod_bidang"; "status"]
  end.

Definition matched {A : Type} (groups : option A) : bool :=
  match groups with
  | Some _ => true
  | None => false
  end.

(** What the value of a field has to be for the field to be valid: a
    positive item number; a date, as a string in one of the three
    formats; a non-empty reference code; a category and a description
    of more than five characters; a code that reads as six digits; one
    of the two canonical statuses. *)
Definition valid_field (k : string) (d : JsValue) : bool :=
  if String.eqb k "bil"
  then match d with JNum n => (0 <? n)%Z | _ => false end
  else if String.eqb k "tarikh"
  then match d with
       | JStr s => matched (match_dd_mm_yyyy "/" s) || matched (match_dd_mm_yyyy "-" s)
                   || match_yyyy_mm_dd s
       | _ => false
       end
  else if String.eqb k "daftar"
  then match d with JStr s => negb (String.eqb s "") | _ => false end
  else if String.eqb k "bidang" || String.eqb k "keterangan"
  then match d with JStr s => (5 <? String.length s)%nat | _ => false end
  else if String.eqb k "kod_bidang"
  then coercible d && match_six_digits (ToString d)
  else if String.eqb k "status"
  then match d with
       | JStr s => String.eqb s "Aktif" || String.eqb s "Tidak Aktif"
       | _ => false
       end
  else false.

(** The three ways a response fails to hold a JSON array: no bracketed
    span, a span the parser rejects, a span that parses to something
    else. *)
Definition not_a_json_array (JSON_parse : string -> Exc JsValue)
    (responseText : string) : Prop :=
  match_json_array responseText = None
  \/ (exists m e, match_json_array responseText = Some m /\ JSON_parse m = Throw e)
  \/ (exists m v, match_json_array responseText = Some m
                  /\ JSON_parse m = Ok v
                  /\ forall items, v <> JArr items).

(** The vocabulary of failure patterns and the clause each one adds. *)
Definition failure_tags : list string :=
  ["code_format"; "status_format"; "text_content"; "date_format"].

Definition clause_of (tag : string) : string :=
  if String.eqb tag "code_format" then clause_code_format
  else if String.eqb tag "status_format" then clause_status_format
  else if String.eqb tag "text_content" then clause_text_content
  else if String.eqb tag "date_format" then clause_date_format
  else "".

(** Number of positions of [text] at which [piece] occurs. *)
Fixpoint count_occurrences (piece text : string) : nat :=
  match text with
  | EmptyString => 0
  | String _ rest =>
      (if String.prefix piece text then 1 else 0) + count_occurrences piece rest
  end.

(** The mismatches [identifyFailurePatterns] looks at. *)
Definition tagged_mismatch (mismatches : list (string * bool)) : bool :=
  mismatch "kod_bidang" mismatches
  || mismatch "status" mismatches
  || mismatch "bidang" mismatches
  || mismatch "keterangan" mismatches
  || mismatch "tarikh" mismatches.

(** The three critical fields named by the project's documentation:
    BIL, KOD BIDANG, STATUS. *)
Definition critical_fields_match (extracted validated_ : Tender) : bool :=
  strict_eq (bil extracted) (bil validated_)
  && strict_eq (kod_bidang extracted) (kod_bidang validated_)
  && strict_eq (status extracted) (status validated_).

(** What [calculateAccuracy] does count: the examples whose extraction
    satisfies its own four-field test. *)
Definition counted (example : TrainingExample) : bool :=
  match manual_validation example with
  | Some validated_ => fieldsMatch (tender (gemini_extraction example)) validated_
  | None => false
  end.

(** The store's operations, with what each call draws from outside:
    identifiers and clock readings. *)
Inductive StoreOp : Type :=
| OpSave (uuidv4 : nat -> string) (clock : nat -> Z)
         (pdfPath pdfUrl : string) (extraction : list ExtractionResult)
         (iteration : Z)
| OpValidate (now : Z) (exampleId : string) (validatedTender : Tender).

Definition run_op (st : Store) (op : StoreOp) : Store :=
  match op with
  | OpSave uuidv4 clock pdfPath pdfUrl extraction iteration =>
      fst (saveTrainingExample uuidv4 clock pdfPath pdfUrl extraction iteration st)
  | OpValidate now exampleId validatedTender =>
      fst (validateExample now exampleId validatedTender st)
  end.

Definition run_ops (ops : list StoreOp) (st : Store) : Store :=
  fold_left run_op ops st.

(** [validated == true] iff a ground truth is attached. *)
Definition consistent (example : TrainingExample) : Prop :=
  is_validated example = true <-> manual_validation example <> None.

Definition store_consistent (st : Store) : Prop :=
  forall k example, examples st !! k = Some example -> consistent example.

(** ** Sample inputs *)

(** The record of Scenario A: item number, date, six-digit code, status,
    category text and description.  It carries no reference code. *)
Definition scenarioA : JsValue :=
  JObj [("bil", JNum 1);
        ("tarikh", JStr "03/07/2024");
        ("kod_bidang", JStr "010302");
        ("status", JStr "Aktif");
        ("bidang", JStr "PENERBITAN DAN PENYIARAN");
        ("keterangan", JStr "A full description over ten chars")].

(** The record of Scenario A with a reference code added. *)
Definition scenarioA_with_daftar (code : string) : JsValue :=
  JObj [("bil", JNum 1);
        ("tarikh", JStr "03/07/2024");
        ("daftar", JStr code);
        ("kod_bidang", JStr "010302");
        ("status", JStr "Aktif");
        ("bidang", JStr "PENERBITAN DAN PENYIARAN");
        ("keterangan", JStr "A full description over ten chars")].

(** A candidate whose status the service reported as [null]. *)
Definition scenario_null_status : JsValue :=
  JObj [("bil", JNum 1);
        ("tarikh", JStr "03/07/2024");
        ("daftar", JStr "PKK/2024/17");
        ("kod_bidang", JStr "010302");
        ("status", JNull);
        ("bidang", JStr "PENERBITAN DAN PENYIARAN");
        ("keterangan", JStr "A full description over ten chars")].

(** A candidate whose code is an object with a property named
    [toString], as [JSON.parse] reads it from
    [{"bil": 1, "kod_bidang": {"toString": 1}}]. *)
Definition scenario_code_object : JsValue :=
  JObj [("bil", JNum 1);
        ("kod_bidang", JObj [("toString", JNum 1)])].

(** A parser that rejects every text, to exercise the error path. *)
Definition rejecting_parser (text : string) : Exc JsValue := Throw SyntaxError.

(** A tender as extracted, and examples validated against a ground
    truth that differs from it in one field or in none. *)
Definition sample_tender : Tender :=
  {| bil := JNum 1;
     tarikh := JStr "2024-07-03";
     daftar := JStr "PKK/2024/17";
     bidang := JStr "PENERBITAN DAN PENYIARAN";
     kod_bidang := JStr "010302";
     keterangan := JStr "A full description over ten chars";
     status := JStr "Aktif" |}.

Definition sample_extraction : ExtractionResult :=
  {| tender := sample_tender;
     confidence :=
       {| overall := (964 # 1000)%Q;
          per_field := [("bil", 1%Q); ("tarikh", 1%Q); ("daftar", (9 # 10)%Q);
                        ("bidang", (95 # 100)%Q); ("kod_bidang", 1%Q);
                        ("keterangan", (9 # 10)%Q); ("status", 1%Q)] |};
     warnings := [];
     errors := [] |}.

Definition validated_sample (name : string) (truth : Tender) : TrainingExample :=
  {| id := name;
     pdf_url := "https://example.gov.my/page/1";
     pdf_path := "pdfs/page-1.pdf";
     gemini_extraction := sample_extraction;
     manual_validation := Some truth;
     confidence_score := (964 # 1000)%Q;
     is_validated := true;
     created_at := 1720000000%Z;
     improved_at := Some 1720000600%Z;
     learning_iteration := 1%Z |}.

Definition example_exact : TrainingExample :=
  validated_sample "example-exact" sample_tender.

(** Ground truth with another date; item number, code and status agree. *)
Definition truth_other_date : Tender :=
  {| bil := JNum 1;
     tarikh := JStr "2024-07-30";
     daftar := JStr "PKK/2024/17";
     bidang := JStr "PENERBITAN DAN PENYIARAN";
     kod_bidang := JStr "010302";
     keterangan := JStr "A full description over ten chars";
     status := JStr "Aktif" |}.

Definition example_date_differs : TrainingExample :=
  validated_sample "example-date" truth_other_date.

(** Ground truth with another item number; every other field agrees. *)
Definition truth_other_bil : Tender :=
  {| bil := JNum 7;
     tarikh := JStr "2024-07-03";
     daftar := JStr "PKK/2024/17";
     bidang := JStr "PENERBITAN DAN PENYIARAN";
     kod_bidang := JStr "010302";
     keterangan := JStr "A full description over ten chars";
     status := JStr "Aktif" |}.

Definition example_bil_differs : TrainingExample :=
  validated_sample "example-bil" truth_other_bil.

(** Ground truth with another code. *)
Definition truth_other_code : Tender :=
  {| bil := JNum 1;
     tarikh := JStr "2024-07-03";
     daftar := JStr "PKK/2024/17";
     bidang := JStr "PENERBITAN DAN PENYIARAN";
     kod_bidang := JStr "010303";
     keterangan := JStr "A full description over ten chars";
     status := JStr "Aktif" |}.

Definition example_code_differs : TrainingExample :=
  validated_sample "example-code" truth_other_code.

(** Ground truth with another status and another date. *)
Definition truth_other_status_date : Tender :=
  {| bil := JNum 1;
     tarikh := JStr "2024-07-30";
     daftar := JStr "PKK/2024/17";
     bidang := JStr "PENERBITAN DAN PENYIARAN";
     kod_bidang := JStr "010302";
     keterangan := JStr "A full description over ten chars";
     status := JStr "Tidak Aktif" |}.

Definition example_status_date_differ : TrainingExample :=
  validated_sample "example-status" truth_other_status_date.

(** Two rounds' worth of failures with the same patterns, met in a
    different order and a different number of times. *)
Definition failures_round1 : list Failure :=
  analyzeFailures [example_code_differs; example_status_date_differ].

Definition failures_round2 : list Failure :=
  analyzeFailures [example_status_date_differ; example_bil_differs;
                   example_code_differs; example_code_differs].

(** Identifiers and clock readings for the sample runs. *)
Definition sample_uuid (i : nat) : string :=
  "example-" +:+ string_of_Z (Z.of_nat i).

Definition sample_clock (i : nat) : Z := (1720000000 + Z.of_nat i)%Z.

Definition sample_ops : list StoreOp :=
  [OpSave sample_uuid sample_clock "pdfs/page-1.pdf" "https://example.gov.my/page/1"
          [sample_extraction; sample_extraction] 1%Z;
   OpValidate 1720000600%Z "example-1" truth_other_date;
   OpValidate 1720000700%Z "example-9" sample_tender].

(** ** Further notions used in the statements *)

(** [tidy after_blank l]: every white-space character of [l] is a
    blank, no blank follows a blank (or comes first when [after_blank]),
    and [l] does not end in a blank. *)
Fixpoint tidy (after_blank : bool) (l : list ascii) : bool :=
  match l with
  | [] => negb after_blank
  | c :: rest =>
      if is_space c
      then Ascii.eqb c " " && negb after_blank && tidy true rest
      else tidy false rest
  end.

(** A text in cleaned form: empty, or free of white space other than
    single blanks between its words. *)
Definition cleaned (s : string) : bool :=
  match chars s with
  | [] => true
  | l => tidy true l
  end.

(** Whether [l] ends in white space; [b] answers for the empty list. *)
Fixpoint last_is_space (b : bool) (l : list ascii) : bool :=
  match l with
  | [] => b
  | c :: rest => last_is_space (is_space c) rest
  end.

(** [bounded i j row]: the entries of [row], taken as columns [j],
    [j+1], ... of matrix row [i], are at most [max i j], [max i (j+1)],
    ... *)
Fixpoint bounded (i j : nat) (row : list nat) : Prop :=
  match row with
  | [] => True
  | x :: rest => (x <= Nat.max i j)%nat /\ bounded i (S j) rest
  end.

(** The recurrence of the edit-distance matrix, written as a recursion
    on the two texts read from their last characters backwards ([x] and
    [y] are the reversed texts): the reference the matrix is checked
    against. *)
Fixpoint lev_reference (x : list ascii) : list ascii -> nat :=
  fix lev_x (y : list ascii) : nat :=
    match x with
    | [] => List.length y
    | c :: x' =>
        match y with
        | [] => List.length x
        | d :: y' =>
            if Ascii.eqb c d then lev_reference x' y'
            else S (Nat.min (lev_reference x' y') (Nat.min (lev_x y') (lev_reference x' y)))
        end
    end.

(** [extensions pa ra]: [pa] extended, one character at a time, by the
    characters of [ra], each extension read backwards. *)
Fixpoint extensions (pa ra : list ascii) : list (list ascii) :=
  pa :: match ra with
        | [] => []
        | c :: ra' => extensions (c :: pa) ra'
        end.

Definition is_undefined (v : JsValue) : bool :=
  match v with
  | JUndefined => true
  | _ => false
  end.

(** The fields of a tender, in the order of [tender_fields]. *)
Definition tender_values (t : Tender) : list JsValue :=
  [bil t; tarikh t; daftar t; bidang t; kod_bidang t; keterangan t; status t].

(** Number of fields a tender lacks. *)
Definition count_absent (t : Tender) : nat :=
  List.length (List.filter is_undefined (tender_values t)).

(** Number of entries of a confidence map that are 0. *)
Definition count_zero (per_field : list (string * Q)) : nat :=
  List.length (List.filter (fun kv => Qeq_bool (snd kv) 0) per_field).

(** The two counters of the metrics snapshot in the learning run
    ([learn.ts]): extractions above the confidence threshold 0.85 and
    extractions at or below it. *)
Definition successfully_extracted (allExtractions : list ExtractionResult) : nat :=
  List.length
    (List.filter (fun e => negb (Qle_bool (overall (confidence e)) (85 # 100)))
                 allExtractions).

Definition failed_extractions (allExtractions : list ExtractionResult) : nat :=
  List.length
    (List.filter (fun e => Qle_bool (overall (confidence e)) (85 # 100))
                 allExtractions).

(** A parser that knows one response text, for the sample run: the
    text of an array of the Scenario A record followed by a record whose
    code is an object with a property named [toString]. *)
Definition sample_response : string := "Here is the table: [{...}, {...}] as requested".

Definition sample_parser (text : string) : Exc JsValue :=
  if String.eqb text "[{...}, {...}]" then Ok (JArr [scenarioA; scenario_code_object])
  else Throw SyntaxError.

(** ** The Gemini extractor, continued *)

(** [refineWithValidation]: the similarity of each field of the
    extraction to the validated tender, and its mean.  The field list is
    the constant one of seven names, so the mean is never taken of an
    empty list. *)
Definition refineWithValidation (originalExtraction : ExtractionResult)
    (validatedData : Tender) : Q * list (string * Q) :=
  let improvements :=
    fold_left
      (fun improvements field =>
         let extractedValue := tender_field field (tender originalExtraction) in
         let validatedValue := tender_field field validatedData in
         set_key field (calculateFieldConfidence extractedValue validatedValue)
                 improvements)
      tender_fields [] in
  let avgImprovement := mean_or_zero (Object_values improvements) in
  (avgImprovement, improvements).

(** ** src/learning/training-manager.ts, continued *)

Record LearningIteration : Type := mkLearningIteration {
  iteration_number : Z;
  examples_processed : nat;
  accuracy_before : Q;
  accuracy_after : Q;
  improvements : list string;
  timestamp : Z
}.

Record LearningSession : Type := mkLearningSession {
  session_id : string;
  started_at : Z;
  examples_collected : nat;
  validation_accuracy : Q;
  session_status : string;
  iterations : list LearningIteration
}.

Record ScrapingMetrics : Type := mkScrapingMetrics {
  total_tenders_found : nat;
  m_successfully_extracted : nat;
  m_failed_extractions : nat;
  average_confidence : Q;
  extraction_accuracy : Q;
  processing_time_ms : Z;
  m_timestamp : Z
}.

(** [throw new Error(message)] or a returned value. *)
Inductive Outcome (A : Type) : Type :=
| Done (a : A)
| Raised (message : string).

Arguments Done {A} a.
Arguments Raised {A} message.

(** The sessions file is a list of sessions; [getSessions] reads it, and
    reads a file that is missing as the empty list.

    [createSession]: the file afterwards and the session returned. *)
Definition createSession (uuid : string) (now : Z) (sessions : list LearningSession)
  : list LearningSession * LearningSession :=
  let session :=
    {| session_id := uuid;
       started_at := now;
       examples_collected := 0;
       validation_accuracy := 0%Q;
       session_status := "in_progress";
       iterations := [] |} in
  (sessions ++ [session], session).

(** [session.iterations.push(iteration)] and the update of
    [validation_accuracy] on one session. *)
Definition push_iteration (iteration : LearningIteration) (session : LearningSession)
  : LearningSession :=
  {| session_id := session_id session;
     started_at := started_at session;
     examples_collected := examples_collected session;
     validation_accuracy := accuracy_after iteration;
     session_status := session_status session;
     iterations := iterations session ++ [iteration] |}.

(** [sessions.find((s) => s.id === sessionId)] followed by the update in
    place of the session found: the list afterwards and that session. *)
Fixpoint update_found (sessionId : string) (iteration : LearningIteration)
    (sessions : list LearningSession)
  : option (list LearningSession * LearningSession) :=
  match sessions with
  | [] => None
  | s :: rest =>
      if String.eqb (session_id s) sessionId
      then Some (push_iteration iteration s :: rest, push_iteration iteration s)
      else match update_found sessionId iteration rest with
           | Some (rest', found) => Some (s :: rest', found)
           | None => None
           end
  end.

(** [addIteration]: the file afterwards and the outcome of the call. *)
Definition addIteration (sessionId : string) (iteration : LearningIteration)
    (sessions : list LearningSession)
  : list LearningSession * Outcome LearningSession :=
  match update_found sessionId iteration sessions with
  | None => (sessions, Raised ("Session not found: " +:+ sessionId))
  | Some (sessions', session) => (sessions', Done session)
  end.

(** [saveMetrics] on the metrics file, a list of snapshots: the new one
    is pushed and all but the last 100 are spliced out. *)
Definition saveMetrics (metrics : ScrapingMetrics) (allMetrics : list ScrapingMetrics)
  : list ScrapingMetrics :=
  let allMetrics := allMetrics ++ [metrics] in
  if (100 <? List.length allMetrics)%nat
  then skipn (List.length allMetrics - 100) allMetrics
  else allMetrics.

(** The report of [generateReport]; [average_confidence] is the number
    its three-decimal text denotes. *)
Record Report : Type := mkReport {
  total_examples : nat;
  validated_examples : nat;
  unvalidated_examples : nat;
  extraction_accuracy_percentage : Q;
  learning_sessions : nat;
  latest_session : option LearningSession;
  latest_metrics : option ScrapingMetrics;
  report_average_confidence : Q
}.

(** [list[list.length - 1] || null] *)
Definition last_or_null {A : Type} (l : list A) : option A :=
  match rev l with
  | [] => None
  | x :: _ => Some x
  end.

Definition generateReport (st : Store) (sessions : list LearningSession)
    (metrics : list ScrapingMetrics) : Report :=
  let validated := getValidatedExamples None st in
  let unvalidated := getUnvalidatedExamples st in
  let accuracy := calculateAccuracy st in
  {| total_examples := List.length validated + List.length unvalidated;
     validated_examples := List.length validated;
     unvalidated_examples := List.length unvalidated;
     extraction_accuracy_percentage := accuracy;
     learning_sessions := List.length sessions;
     latest_session := last_or_null sessions;
     latest_metrics := last_or_null metrics;
     report_average_confidence :=
       if (0 <? List.length validated)%nat
       then toFixed 3 (fold_left (fun sum ex => (sum + confidence_score ex)%Q) validated 0%Q
                       / Q_of_nat (List.length validated))
       else 0%Q |}.

(** The operations on the sessions file. *)
Inductive SessionOp : Type :=
| OpCreateSession (uuid : string) (now : Z)
| OpAddIteration (sessionId : string) (iteration : LearningIteration).

Definition run_session_op (sessions : list LearningSession) (op : SessionOp)
  : list LearningSession :=
  match op with
  | OpCreateSession uuid now => fst (createSession uuid now sessions)
  | OpAddIteration sessionId iteration => fst (addIteration sessionId iteration sessions)
  end.

Definition run_session_ops (ops : list SessionOp) (sessions : list LearningSession)
  : list LearningSession :=
  fold_left run_session_op ops sessions.

(** The order [getValidatedExamples] sorts by. *)
Definition by_iteration (a b : TrainingExample) : Prop :=
  (learning_iteration a <= learning_iteration b)%Z.

(** A sample history of the sessions file. *)
Definition sample_iteration (n : Z) : LearningIteration :=
  {| iteration_number := n;
     examples_processed := 2;
     accuracy_before := 50%Q;
     accuracy_after := 50%Q;
     improvements := ["Improved prompt based on 1 failures"];
     timestamp := (1720001000 + n)%Z |}.

Definition sample_sessions : list LearningSession :=
  run_session_ops [OpCreateSession "session-a" 1720000000%Z;
                   OpAddIteration "session-a" (sample_iteration 1)] [].

Definition sample_session_ops : list SessionOp :=
  [OpCreateSession "session-b" 1720002000%Z;
   OpAddIteration "session-a" (sample_iteration 2);
   OpAddIteration "session-c" (sample_iteration 3);
   OpAddIteration "session-b" (sample_iteration 3)].

(** ** The validation analyzer ([ValidationAnalyzer.analyzeValidations]) *)

(** [fieldErrors[field]++] on a record that has the key. *)
Definition bump (field : string) (counts : list (string * nat)) : list (string * nat) :=
  map (fun kv => if String.eqb (fst kv) field then (fst kv, S (snd kv)) else kv) counts.

(** [errorDetails[field].push(detail)] *)
Definition push_detail (field detail : string) (details : list (string * list string))
  : list (string * list string) :=
  map (fun kv => if String.eqb (fst kv) field then (fst kv, snd kv ++ [detail]) else kv)
      details.

(** The three accumulators of the analysis. *)
Record Analysis : Type := mkAnalysis {
  fieldErrors : list (string * nat);
  errorDetails : list (string * list string);
  perfectExtractions : nat
}.

Definition initial_analysis : Analysis :=
  {| fieldErrors := map (fun field => (field, 0%nat)) tender_fields;
     errorDetails := map (fun field => (field, [])) tender_fields;
     perfectExtractions := 0 |}.

Definition error_detail (field : string) (extracted validated_ : Tender) : string :=
  "Expected: " +:+ ToString (tender_field field validated_)
  +:+ ", Got: " +:+ ToString (tender_field field extracted).

(** One round of the inner loop over the field names; the flag is
    [fieldsMismatched]. *)
Definition check_field (extracted validated_ : Tender)
    (acc : Analysis * bool) (field : string) : Analysis * bool :=
  if strict_ne (tender_field field extracted) (tender_field field validated_)
  then ({| fieldErrors := bump field (fieldErrors (fst acc));
           errorDetails :=
             push_detail field (error_detail field extracted validated_)
                         (errorDetails (fst acc));
           perfectExtractions := perfectExtractions (fst acc) |},
        true)
  else acc.

(** One round of the outer loop. *)
Definition analyze_example (a : Analysis) (example : TrainingExample) : Analysis :=
  match manual_validation example with
  | None => a
  | Some validated_ =>
      let extracted := tender (gemini_extraction example) in
      let checked := fold_left (check_field extracted validated_) tender_fields (a, false) in
      if snd checked then fst checked
      else {| fieldErrors := fieldErrors (fst checked);
              errorDetails := errorDetails (fst checked);
              perfectExtractions := S (perfectExtractions (fst checked)) |}
  end.

(** The counters [analyzeValidations] has built when it starts to
    print. *)
Definition analyzeValidations (validated : list TrainingExample) : Analysis :=
  fold_left analyze_example validated initial_analysis.

(** [fieldErrors[field]] *)
Fixpoint field_count (field : string) (counts : list (string * nat)) : nat :=
  match counts with
  | [] => 0
  | (k, n) :: rest => if String.eqb field k then n else field_count field rest
  end.

(** The error rate printed for a field:
    [((errors / validated.length) * 100).toFixed(2)]. *)
Definition errorRate (field : string) (validated : list TrainingExample) : Q :=
  toFixed 2 (Q_of_nat (field_count field (fieldErrors (analyzeValidations validated)))
             / Q_of_nat (List.length validated) * 100).

(** An example with a ground truth that differs from the extraction in
    the given field. *)
Definition mismatches_on (field : string) (example : TrainingExample) : bool :=
  match manual_validation example with
  | Some validated_ =>
      strict_ne (tender_field field (tender (gemini_extraction example)))
                (tender_field field validated_)
  | None => false
  end.

(** An example with a ground truth that equals the extraction in all
    seven fields. *)
Definition perfect (example : TrainingExample) : bool :=
  match manual_validation example with
  | Some _ => forallb (fun field => negb (mismatches_on field example)) tender_fields
  | None => false
  end.

(** ** The continuous trainer, continued *)

(** What makes [identifyFailurePatterns] add a tag. *)
Definition raises (tag : string) (mismatches : list (string * bool)) : bool :=
  if String.eqb tag "code_format" then mismatch "kod_bidang" mismatches
  else if String.eqb tag "status_format" then mismatch "status" mismatches
  else if String.eqb tag "text_content"
       then mismatch "bidang" mismatches || mismatch "keterangan" mismatches
  else if String.eqb tag "date_format" then mismatch "tarikh" mismatches
  else false.

(** An example the failure analysis lists: one with a ground truth that
    differs in the item number, the code or the status. *)
Definition failed (example : TrainingExample) : bool :=
  mismatches_on "bil" example || mismatches_on "kod_bidang" example
  || mismatches_on "status" example.

(** [Math.max(...validated.map((e) => e.learning_iteration), 0) + 1] *)
Definition next_iteration (validated : list TrainingExample) : Z :=
  (fold_right Z.max 0 (map learning_iteration validated) + 1)%Z.

(** The loop of [train] over [failures.slice(0, 10)], from call number
    [i] on: the pair of [reprocessedCount] and [improvementCount].
    [extract i path] is what the [i]-th call of [extractFromPDF]
    yields; a call that throws is logged and skipped. *)
Fixpoint reprocess (extract : nat -> string -> Exc (list ExtractionResult))
    (i : nat) (failures : list Failure) (counts : nat * nat) : nat * nat :=
  match failures with
  | [] => counts
  | failedExample :: rest =>
      let counts' :=
        match extract i (pdf_path (failed_example failedExample)) with
        | Throw _ => counts
        | Ok [] => counts
        | Ok (first :: _) =>
            let newConfidence := overall (confidence first) in
            let oldConfidence := confidence_score (failed_example failedExample) in
            let improvementCount :=
              if negb (Qle_bool newConfidence oldConfidence)
              then S (snd counts) else snd counts in
            (S (fst counts), improvementCount)
        end in
      reprocess extract (S i) rest counts'
  end.

(** What a round of [train] leaves behind: the sessions file, the
    extractor and, unless the round stopped early, the iteration record
    it built. *)
Record TrainResult : Type := mkTrainResult {
  sessions_after : list LearningSession;
  extractor_after : Extractor;
  iteration_record : option LearningIteration
}.

Definition train (extract : string -> nat -> string -> Exc (list ExtractionResult))
    (now : Z) (st : Store) (sessions : list LearningSession) (extractor : Extractor)
  : TrainResult :=
  let currentAccuracy := calculateAccuracy st in
  let validated := getValidatedExamples None st in
  if (List.length validated =? 0)%nat
  then mkTrainResult sessions extractor None
  else
    let iteration := next_iteration validated in
    let failures := analyzeFailures validated in
    if (List.length failures =? 0)%nat
    then mkTrainResult sessions extractor None
    else
      let improvedPrompt := generateImprovedPrompt failures in
      let extractor := updatePrompt improvedPrompt extractor in
      let counts :=
        reprocess (extract (extractionPrompt extractor)) 0 (firstn 10 failures)
                  (0%nat, 0%nat) in
      let iterationRecord :=
        {| iteration_number := iteration;
           examples_processed := List.length validated;
           accuracy_before := currentAccuracy;
           accuracy_after := calculateAccuracy st;
           improvements :=
             ["Improved prompt based on "
                +:+ string_of_Z (Z.of_nat (List.length failures)) +:+ " failures";
              "Reprocessed " +:+ string_of_Z (Z.of_nat (fst counts))
                +:+ " examples with " +:+ string_of_Z (Z.of_nat (snd counts))
                +:+ " showing improvement"];
           timestamp := now |} in
      let sessions :=
        match last_or_null sessions with
        | Some lastSession =>
            fst (addIteration (session_id lastSession) iterationRecord sessions)
        | None => sessions
        end in
      mkTrainResult sessions extractor (Some iterationRecord).

(** A store with one failed and one exact validated example, and an
    extraction service that answers the first call and fails on the
    later ones. *)
Definition sample_training_store : Store :=
  run_ops [OpSave sample_uuid sample_clock "pdfs/page-1.pdf"
                  "https://example.gov.my/page/1"
                  [sample_extraction; sample_extraction] 3%Z;
           OpValidate 1720000600%Z "example-0" truth_other_code;
           OpValidate 1720000700%Z "example-1" sample_tender] empty_store.

Definition sample_extract (prompt : string) (i : nat) (path : string)
  : Exc (list ExtractionResult) :=
  match i with
  | O => Ok [sample_extraction]
  | S _ => Throw ENOENT
  end.

Definition sample_round : TrainResult :=
  train sample_extract 1720003000%Z sample_training_store sample_sessions
        (mkExtractor prompt_base 0).

(** ** learn.ts: the manual validation loop *)

(** [tender[key] = v] on the [Partial<Tender>] being filled in. *)
Definition set_field (key : string) (v : JsValue) (t : Tender) : Tender :=
  if String.eqb key "bil"
  then mkTender v (tarikh t) (daftar t) (bidang t) (kod_bidang t) (keterangan t) (status t)
  else if String.eqb key "tarikh"
  then mkTender (bil t) v (daftar t) (bidang t) (kod_bidang t) (keterangan t) (status t)
  else if String.eqb key "daftar"
  then mkTender (bil t) (tarikh t) v (bidang t) (kod_bidang t) (keterangan t) (status t)
  else if String.eqb key "bidang"
  then mkTender (bil t) (tarikh t) (daftar t) v (kod_bidang t) (keterangan t) (status t)
  else if String.eqb key "kod_bidang"
  then mkTender (bil t) (tarikh t) (daftar t) (bidang t) v (keterangan t) (status t)
  else if String.eqb key "keterangan"
  then mkTender (bil t) (tarikh t) (daftar t) (bidang t) (kod_bidang t) v (status t)
  else if String.eqb key "status"
  then mkTender (bil t) (tarikh t) (daftar t) (bidang t) (kod_bidang t) (keterangan t) v
  else t.

Definition edit_keys : list string :=
  ["bil"; "tarikh"; "daftar"; "bidang"; "kod_bidang"; "keterangan"; "status"].

Section ManualValidation.

(** [parseInt], whose result (a number or [NaN]) is left open, and the
    terminal: [question n] is the line typed in answer to the [n]-th
    question asked. *)
Variable parseInt : string -> JsValue.
Variable question : nat -> string.

(** The callback of [rl.question] in [promptForManualEdit]. *)
Definition answer_field (key answer : string) (tender : Tender) : Tender :=
  if truthy (JStr (trim answer))
  then
    if String.eqb key "bil"
    then set_field key (parseInt answer) tender
    else set_field key (JStr (trim answer)) tender
  else tender.

(** [askNext], asking for the keys left from question [index] on: the
    tender resolved and the number of the next question. *)
Fixpoint askNext (keys : list string) (index : nat) (tender : Tender) : Tender * nat :=
  match keys with
  | [] => (tender, index)
  | key :: rest => askNext rest (S index) (answer_field key (question index) tender)
  end.

Definition promptForManualEdit (index : nat) : Tender * nat :=
  askNext edit_keys index empty_tender.

(** [promptForValidation]: [None] is the [null] it resolves to. *)
Definition promptForValidation (index : nat) : option Tender * nat :=
  let answer := question index in
  if String.eqb (toLowerCase answer) "y" then (None, S index)
  else if String.eqb (toLowerCase answer) "edit"
  then let (edited, index') := promptForManualEdit (S index) in (Some edited, index')
  else (None, S index).

(** The loop of [manualValidationLoop] over the examples left, [i]
    being the loop index and [index] the number of the next question; a
    [validateExample] that throws is logged and the loop goes on. *)
Fixpoint manualValidationLoop_loop (clock : nat -> Z) (unvalidated : list TrainingExample)
    (i index : nat) (st : Store) : Store :=
  match unvalidated with
  | [] => st
  | example :: rest =>
      let (validated, index') := promptForValidation index in
      let st' :=
        match validated with
        | Some validatedTender =>
            fst (validateExample (clock i) (id example) validatedTender st)
        | None => st
        end in
      manualValidationLoop_loop clock rest (S i) index' st'
  end.

Definition manualValidationLoop (clock : nat -> Z) (st : Store) : Store :=
  manualValidationLoop_loop clock (firstn 5 (getUnvalidatedExamples st)) 0 0 st.

End ManualValidation.

(** A terminal session that edits the first example and approves the
    second. *)
Definition sample_answers (n : nat) : string :=
  match n with
  | 0 => "EDIT"
  | 1 => "7"
  | 2 => " 2024-07-03 "
  | 3 => ""
  | 4 => "PENERBITAN"
  | 5 => "010302"
  | 6 => "   "
  | 7 => "Aktif"
  | _ => "y"
  end%nat.

Definition sample_parseInt (s : string) : JsValue :=
  if String.eqb s "7" then JNum 7 else JUndefined.

Definition sample_unvalidated_store : Store :=
  run_ops [OpSave sample_uuid sample_clock "pdfs/page-1.pdf"
                  "https://example.gov.my/page/1"
                  [sample_extraction; sample_extraction; sample_extraction] 1%Z]
          empty_store.

(** Every example file holds the example of that name, and a ground
    truth it carries is also on file among the validations. *)
Definition store_indexed (st : Store) : Prop :=
  forall k example,
    examples st !! k = Some example ->
    id example = k
    /\ forall truth, manual_validation example = Some truth ->
                     validations st !! k = Some truth.

(** The second example of the sample run, once validated. *)
Definition sample_example_validated : TrainingExample :=
  {| id := "example-1";
      pdf_url := "https://example.gov.my/page/1";
      pdf_path := "pdfs/page-1.pdf";
      gemini_extraction := sample_extraction;
      manual_validation := Some truth_other_date;
      confidence_score := (964 # 1000)%Q;
      is_validated := true;
      created_at := 1720000001%Z;
      improved_at := Some 1720000600%Z;
      learning_iteration := 1%Z |}.

(** * Properties *)

(** ** Dates *)

Lemma digit_is_no_separator (c : ascii) :
  is_digit c = true -> Ascii.eqb c "/" = false /\ Ascii.eqb c "-" = false.
Proof.
  destruct c as [[] [] [] [] [] [] [] []]; vm_compute; intuition discriminate.
Qed.

(** A string of the canonical shape is matched by neither of the two
    day-first patterns: its third character is a digit, theirs is a
    separator. *)
Lemma canonical_not_day_first (s : string) :
  match_yyyy_mm_dd s = true ->
  match_dd_mm_yyyy "/" s = None /\ match_dd_mm_yyyy "-" s = None.
Proof.
  unfold match_yyyy_mm_dd, match_dd_mm_yyyy.
  destruct (chars s) as [|c1 [|c2 [|c3 [|c4 [|c5 [|c6 [|c7 [|c8 [|c9 [|c10 [|c11 l]]]]]]]]]]];
    try discriminate.
  intros H.
  apply andb_prop in H as [H _]. apply andb_prop in H as [H _].
  simpl in H.
  apply andb_prop in H as [_ H]. apply andb_prop in H as [_ H].
  apply andb_prop in H as [H3 _].
  destruct (digit_is_no_separator c3 H3) as [Hslash Hdash].
  rewrite Hslash, Hdash.
  rewrite !andb_false_r. simpl. split; reflexivity.
Qed.

(** C9. A date already in the canonical YYYY-MM-DD form is returned
    unchanged, and the day-first date 03/07/2024 normalizes to
    2024-07-03. *)
Theorem normalizeDate_round_trip (s : string) (Hcanonical : match_yyyy_mm_dd s = true) :
  normalizeDate (JStr s) = Some s
  /\ normalizeDate (JStr "03/07/2024") = Some "2024-07-03".
Proof.
  split; [| reflexivity].
  simpl. unfold normalizeDate_string.
  destruct (canonical_not_day_first s Hcanonical) as [-> ->].
  rewrite Hcanonical. reflexivity.
Qed.

Lemma normalizeDate_round_trip_witness :
  match_yyyy_mm_dd "2024-07-03" = true
  /\ normalizeDate (JStr "2024-07-03") = Some "2024-07-03"
  /\ normalizeDate (JStr "03/07/2024") = Some "2024-07-03".
Proof.
  split; [reflexivity |].
  apply (normalizeDate_round_trip "2024-07-03"). reflexivity.
Defined.

(** ** Field similarity *)

(** A [null] on either side scores 0, whatever the other side is. *)
Lemma calculateFieldConfidence_null (v : JsValue) :
  calculateFieldConfidence JNull v = 0%Q
  /\ calculateFieldConfidence v JNull = 0%Q.
Proof.
  split; unfold calculateFieldConfidence; simpl; [reflexivity |].
  destruct v; reflexivity.
Qed.

(** Two strictly equal values, not [null], score 1. *)
Lemma calculateFieldConfidence_exact (a b : JsValue) :
  strict_eq a b = true -> a <> JNull ->
  calculateFieldConfidence a b = 1%Q.
Proof.
  intros Heq Hnn. unfold calculateFieldConfidence. rewrite Heq.
  destruct a, b; try discriminate; try reflexivity.
  contradiction.
Qed.

Lemma Q_of_nat_nonneg (n : nat) : (0 <= Q_of_nat n)%Q.
Proof.
  unfold Q_of_nat. change 0%Q with (inject_Z 0).
  rewrite <- Zle_Qle. lia.
Qed.

(** The score always lies between 0 and 1. *)
Lemma calculateFieldConfidence_range (a b : JsValue) :
  (0 <= calculateFieldConfidence a b)%Q /\ (calculateFieldConfidence a b <= 1)%Q.
Proof.
  unfold calculateFieldConfidence.
  destruct (strict_eq a JNull || strict_eq b JNull); [split; discriminate |].
  destruct (strict_eq a b); [split; discriminate |].
  destruct (String.eqb _ _); [split; discriminate |].
  split.
  - apply Q.le_max_l.
  - apply Q.max_lub; [discriminate |].
    set (d := Q_of_nat (levenshteinDistance _ _)).
    set (m := Q_of_nat (Nat.max _ _)).
    assert (Hd : (0 <= d / m)%Q).
    { unfold Qdiv. apply Qmult_le_0_compat.
      - apply Q_of_nat_nonneg.
      - apply Qinv_le_0_compat, Q_of_nat_nonneg. }
    generalize dependent (d / m)%Q. intros x Hx. lra.
Qed.

(** C6. The guard for missing values tests for [null] only.  A field the
    validator left out of the extraction reads as [undefined]: against
    the ground truth "Aktif" it is compared as the text "undefined" and
    scores 1/9, and against another missing field it scores 1.  That is
    the value the validator leaves for a status the service reported as
    [null]. *)
Theorem calculateFieldConfidence_undefined_not_zero :
  calculateFieldConfidence JUndefined (JStr "Aktif") = (1 # 9)%Q
  /\ calculateFieldConfidence JUndefined JUndefined = 1%Q
  /\ ~ (calculateFieldConfidence JUndefined (JStr "Aktif") == 0)%Q
  /\ exists r, validateAndScoreTender scenario_null_status = Ok r
                /\ status (tender r) = JUndefined
                /\ calculateFieldConfidence (status (tender r)) (JStr "Aktif")
                   = (1 # 9)%Q.
Proof.
  split; [reflexivity |]. split; [reflexivity |].
  split; [vm_compute; discriminate |].
  eexists. split; [vm_compute; reflexivity |].
  split; reflexivity.
Qed.

(** ** The record validator *)

(** C2, as stated, fails: on the Scenario A record the validator does
    not reach confidence 1 with no errors. *)
Lemma scenarioA_not_fully_confident :
  exists r, validateAndScoreTender scenarioA = Ok r
            /\ ~ ((overall (confidence r) == 1)%Q /\ errors r = []).
Proof.
  eexists. split; [vm_compute; reflexivity |].
  cbn [errors]. intros [_ H]. discriminate.
Qed.

(** C2 (amended). On the Scenario A record the validator returns overall
    confidence 0.836 and the single error "Missing DAFTAR"; with a
    non-empty reference code added it returns overall confidence 0.964
    and no error. *)
Theorem scenarioA_scores (c : ascii) (code : string) :
  (exists r, validateAndScoreTender scenarioA = Ok r
             /\ overall (confidence r) = (836 # 1000)%Q
             /\ errors r = ["Missing DAFTAR"])
  /\ (exists r, validateAndScoreTender (scenarioA_with_daftar (String c code)) = Ok r
                /\ overall (confidence r) = (964 # 1000)%Q
                /\ errors r = []).
Proof.
  split; eexists; (split; [lazy -[cleanText]; reflexivity |]); split; reflexivity.
Qed.

(** A value that cannot be coerced is an array or an object: it is no
    date and no status. *)
Lemma not_coercible_rejected (d : JsValue) :
  coercible d = false ->
  normalizeDate (js_or d (JStr "")) = None /\ isValidStatus d = false.
Proof. destruct d; try discriminate; intros _; split; reflexivity. Qed.

Lemma normalizeDate_string_nonempty (s out : string) :
  normalizeDate_string s = Some out -> truthy (JStr out) = true.
Proof.
  unfold normalizeDate_string.
  destruct (match_dd_mm_yyyy "/" s) as [[[day month] year] |].
  { intros [= <-]. destruct year; reflexivity. }
  destruct (match_dd_mm_yyyy "-" s) as [[[day month] year] |].
  { intros [= <-]. destruct year; reflexivity. }
  destruct (match_yyyy_mm_dd s) eqn:E; [| discriminate].
  intros [= <-]. destruct s; [discriminate E | reflexivity].
Qed.

(** What the validator tests on each field is the field's validity. *)
Lemma bil_test_valid (d : JsValue) :
  String.eqb (typeof d) "number"
  && match d with JNum n => (0 <? n)%Z | _ => false end
  = valid_field "bil" d.
Proof. destruct d; reflexivity. Qed.

Lemma tarikh_test_valid (d : JsValue) :
  match normalizeDate (js_or d (JStr "")) with
  | Some normalizedDate => truthy (JStr normalizedDate)
  | None => false
  end = valid_field "tarikh" d.
Proof.
  assert (Hs : forall s,
             match normalizeDate_string s with
             | Some normalizedDate => truthy (JStr normalizedDate)
             | None => false
             end
             = matched (match_dd_mm_yyyy "/" s) || matched (match_dd_mm_yyyy "-" s)
               || match_yyyy_mm_dd s).
  { intros s. destruct (normalizeDate_string s) as [out |] eqn:E.
    - rewrite (normalizeDate_string_nonempty _ _ E). revert E.
      unfold normalizeDate_string.
      destruct (match_dd_mm_yyyy "/" s) as [[[day month] year] |]; [reflexivity |].
      destruct (match_dd_mm_yyyy "-" s) as [[[day month] year] |]; [reflexivity |].
      destruct (match_yyyy_mm_dd s); [reflexivity | discriminate].
    - revert E. unfold normalizeDate_string.
      destruct (match_dd_mm_yyyy "/" s) as [[[day month] year] |]; [discriminate |].
      destruct (match_dd_mm_yyyy "-" s) as [[[day month] year] |]; [discriminate |].
      destruct (match_yyyy_mm_dd s); [discriminate | reflexivity]. }
  destruct d as [| | [|] | n | s | items | props]; try reflexivity.
  - destruct (n =? 0)%Z eqn:E; unfold js_or; cbn [truthy]; rewrite E; reflexivity.
  - unfold js_or. cbn [truthy]. destruct (String.eqb s "") eqn:E; cbn [negb].
    + apply String.eqb_eq in E. subst s. reflexivity.
    + apply Hs.
Qed.

Lemma daftar_test_valid (d : JsValue) :
  truthy d && is_string d = valid_field "daftar" d.
Proof.
  destruct d as [| | [|] | n | s | items | props]; try reflexivity.
  - cbn. apply andb_false_r.
  - cbn. apply andb_true_r.
Qed.

Lemma text_test_valid (k : string) (d : JsValue) :
  k = "bidang" \/ k = "keterangan" ->
  truthy d && is_string d && (5 <? string_length d)%nat = valid_field k d.
Proof.
  intros [-> | ->]; (destruct d as [| | [|] | n | s | items | props]; try reflexivity).
  1,3: cbn; rewrite andb_false_r; reflexivity.
  all: cbn; rewrite andb_true_r; destruct s; reflexivity.
Qed.

Lemma kod_test_valid (d : JsValue) :
  isValidKodBidang d
  = if coercible d then Ok (valid_field "kod_bidang" d) else Throw TypeError.
Proof.
  unfold isValidKodBidang, coerce_string, valid_field. cbn [String.eqb Ascii.eqb Bool.eqb orb].
  destruct (coercible d); reflexivity.
Qed.

Lemma status_test_valid (d : JsValue) : isValidStatus d = valid_field "status" d.
Proof.
  destruct d; try reflexivity.
  change (valid_field "status" (JStr s))
    with (String.eqb s "Aktif" || String.eqb s "Tidak Aktif").
  unfold isValidStatus. cbn [existsb strict_eq]. rewrite orb_false_r.
  rewrite (String.eqb_sym "Aktif"), (String.eqb_sym "Tidak Aktif"). reflexivity.
Qed.

Ltac each_entry Hin tac :=
  cbn [In] in Hin;
  repeat (destruct Hin as [Hin | Hin];
          [injection Hin as <- <-; tac |]);
  try contradiction.

(** One step of the case analysis: reduce what the last case decided,
    and drop the case if the validator has thrown. *)
Ltac settle Hok := cbv beta iota in Hok; try discriminate Hok.

Ltac split_coercion Hok d :=
  try match type of Hok with
      | context [coercible d] => destruct (coercible d) eqn:?; settle Hok
      end.

(** From [validateAndScoreTender data = Ok r] to one goal for each way
    the seven tests can turn out, with [r] written out and the outcome
    of each test recorded as the validity of the field. *)
Ltac split_validator Hok :=
  match type of Hok with
  | validateAndScoreTender ?data = Ok ?r =>
      destruct data as [| | ?b | ?n | ?s | ?items | ?props];
      [ discriminate Hok | discriminate Hok | | | | | ];
      [ vm_compute in Hok; injection Hok as <-
      | vm_compute in Hok; injection Hok as <-
      | vm_compute in Hok; injection Hok as <-
      | vm_compute in Hok; injection Hok as <-
      | cbv beta iota delta [validateAndScoreTender exc_bind get_prop
                             reject_value coerce_string] in Hok;
        remember (lookup_prop "bil" props) as d1 eqn:E1;
        remember (lookup_prop "tarikh" props) as d2 eqn:E2;
        remember (lookup_prop "daftar" props) as d3 eqn:E3;
        remember (lookup_prop "bidang" props) as d4 eqn:E4;
        remember (lookup_prop "kod_bidang" props) as d5 eqn:E5;
        remember (lookup_prop "keterangan" props) as d6 eqn:E6;
        remember (lookup_prop "status" props) as d7 eqn:E7;
        rewrite (kod_test_valid d5) in Hok;
        match type of Hok with
        | context [if ?c then accept "bil" _ _ _ else _] =>
            destruct c eqn:Hbil; rewrite bil_test_valid in Hbil
        end;
        pose proof (tarikh_test_valid d2) as Htarikh;
        (destruct (normalizeDate (js_or d2 (JStr ""))) as [nd |] eqn:Hdate;
         [ destruct (truthy (JStr nd)) eqn:Htruthy | ]);
        symmetry in Htarikh; settle Hok;
        split_coercion Hok d2;
        match type of Hok with
        | context [if ?c then accept "daftar" _ _ _ else _] =>
            destruct c eqn:Hdaftar; rewrite daftar_test_valid in Hdaftar
        end;
        match type of Hok with
        | context [if ?c then accept "bidang" _ _ _ else _] =>
            destruct c eqn:Hbidang;
            rewrite (text_test_valid "bidang") in Hbidang by (left; reflexivity)
        end;
        destruct (coercible d5) eqn:Hc5; settle Hok;
        destruct (valid_field "kod_bidang" d5) eqn:Hkod; settle Hok;
        match type of Hok with
        | context [if ?c then accept "keterangan" _ _ _ else _] =>
            destruct c eqn:Hket;
            rewrite (text_test_valid "keterangan") in Hket by (right; reflexivity)
        end;
        pose proof (status_test_valid d7) as Hstatus;
        destruct (isValidStatus d7) eqn:Hvalid; symmetry in Hstatus; settle Hok;
        split_coercion Hok d7;
        lazy -[cleanText ToString string_of] in Hok;
        injection Hok as <- ]
  end.

(** The validator returns exactly on the candidates it can score, and
    throws a [TypeError] on the others. *)
Lemma validateAndScoreTender_returns (data : JsValue) :
  if scorable data
  then exists r, validateAndScoreTender data = Ok r
  else validateAndScoreTender data = Throw TypeError.
Proof.
  destruct data as [| | b | n | s | items | props];
    try reflexivity; try (eexists; vm_compute; reflexivity).
  unfold scorable. cbn [forallb candidate_field]. rewrite andb_true_r.
  cbv beta iota delta [validateAndScoreTender exc_bind get_prop
                       reject_value coerce_string].
  generalize (lookup_prop "bil" props) (lookup_prop "tarikh" props)
    (lookup_prop "daftar" props) (lookup_prop "bidang" props)
    (lookup_prop "kod_bidang" props) (lookup_prop "keterangan" props)
    (lookup_prop "status" props).
  intros d1 d2 d3 d4 d5 d6 d7.
  rewrite (kod_test_valid d5).
  destruct (coercible d2) eqn:Hc2.
  - destruct (normalizeDate (js_or d2 (JStr ""))) as [nd |];
      [destruct (truthy (JStr nd)) |]; cbv beta iota.
    all: destruct (coercible d5); cbn [andb]; cbv beta iota; [| reflexivity].
    all: destruct (valid_field "kod_bidang" d5); cbv beta iota.
    all: destruct (coercible d7) eqn:Hc7;
      [ destruct (isValidStatus d7); cbv beta iota; eexists; reflexivity
      | rewrite (proj2 (not_coercible_rejected d7 Hc7)); reflexivity ].
  - rewrite (proj1 (not_coercible_rejected d2 Hc2)). reflexivity.
Qed.

(** C10, as stated, fails: a candidate that is [null] makes the first
    property read throw, and no result is returned; nor is one returned
    for a candidate whose code is an object with a property named
    [toString], on which the coercion of the code throws. *)
Lemma validateAndScoreTender_null_throws :
  validateAndScoreTender JNull = Throw TypeError
  /\ ~ (exists r, validateAndScoreTender JNull = Ok r)
  /\ validateAndScoreTender scenario_code_object = Throw TypeError
  /\ ~ (exists r, validateAndScoreTender scenario_code_object = Ok r).
Proof.
  split; [reflexivity |]. split; [intros [r H]; discriminate H |].
  split; [reflexivity |]. intros [r H]. discriminate H.
Qed.

(** A field whose value is [undefined] cannot have passed its test. *)
Ltac refute_with Hd :=
  match goal with
  | H : valid_field _ _ = true |- _ => rewrite Hd in H; vm_compute in H; discriminate H
  end.

Ltac field_scored :=
  match goal with
  | |- _ <-> valid_field ?k (candidate_field (JObj _) ?k) = false =>
      cbn [candidate_field];
      repeat match goal with
             | E : _ = lookup_prop k _ |- _ => rewrite <- E
             end;
      match goal with
      | H : valid_field k _ = _ |- _ => rewrite H
      end;
      split; intros; first [reflexivity | discriminate]
  | |- _ <-> valid_field ?k (candidate_field _ ?k) = false =>
      split; intros; reflexivity
  end.

(** C10 (amended). The validator returns a result exactly for the
    candidates it can score, those other than [null] and [undefined]
    whose date, code and status can be coerced to a string, and throws a
    [TypeError] on every other candidate.  The per-field map of the
    result has exactly the seven tender fields, in order; a field has
    confidence 0 in it exactly when its value in the candidate is not
    valid, as for a field absent from the candidate, and whenever the
    field is left out of the extracted tender; the map therefore always
    has seven values (the fallback for an empty map is never taken) and
    the overall confidence is their mean rounded to three decimals. *)
Theorem validateAndScoreTender_seven_fields (data : JsValue) :
  (scorable data = false -> validateAndScoreTender data = Throw TypeError)
  /\ (scorable data = true ->
      exists r,
        validateAndScoreTender data = Ok r
        /\ map fst (per_field (confidence r)) = tender_fields
        /\ (forall k v, In (k, v) (per_field (confidence r)) ->
                        (v = 0%Q <-> valid_field k (candidate_field data k) = false))
        /\ (forall k v, In (k, v) (per_field (confidence r)) ->
                        tender_field k (tender r) = JUndefined -> v = 0%Q)
        /\ (forall k v, In (k, v) (per_field (confidence r)) ->
                        get_prop data k = Ok JUndefined -> v = 0%Q)
        /\ List.length (Object_values (per_field (confidence r))) = 7%nat
        /\ overall (confidence r)
           = toFixed 3 (Qsum (Object_values (per_field (confidence r))) / 7)).
Proof.
  pose proof (validateAndScoreTender_returns data) as Hreturns.
  split; intros Hscorable; rewrite Hscorable in Hreturns; [exact Hreturns |].
  destruct Hreturns as [r Hok]. exists r. split; [exact Hok |].
  clear Hscorable. split_validator Hok.
  all: cbn [confidence per_field tender overall].
  all: split; [reflexivity |].
  all: split; [| split; [| split; [| split; [reflexivity | vm_compute; reflexivity]]]].
  all: intros k v Hin.
  all: try (each_entry Hin ltac:(idtac; field_scored)).
  all: intros Hd.
  all: try (each_entry Hin ltac:(try reflexivity; cbn in Hd; try discriminate Hd;
                                 refute_with Hd)).
  all: each_entry Hin ltac:(try reflexivity; injection Hd as Hd;
                            match goal with
                            | E : _ = lookup_prop _ _ |- _ => rewrite <- E in Hd
                            end;
                            refute_with Hd).
Qed.

Lemma validateAndScoreTender_seven_fields_witness :
  scorable scenarioA = true
  /\ scorable scenario_code_object = false
  /\ validateAndScoreTender scenario_code_object = Throw TypeError
  /\ exists r,
       validateAndScoreTender scenarioA = Ok r
       /\ map fst (per_field (confidence r)) = tender_fields
       /\ (forall k v, In (k, v) (per_field (confidence r)) ->
                       (v = 0%Q <-> valid_field k (candidate_field scenarioA k) = false))
       /\ (forall k v, In (k, v) (per_field (confidence r)) ->
                       tender_field k (tender r) = JUndefined -> v = 0%Q)
       /\ (forall k v, In (k, v) (per_field (confidence r)) ->
                       get_prop scenarioA k = Ok JUndefined -> v = 0%Q)
       /\ List.length (Object_values (per_field (confidence r))) = 7%nat
       /\ overall (confidence r)
          = toFixed 3 (Qsum (Object_values (per_field (confidence r))) / 7).
Proof.
  split; [reflexivity |]. split; [reflexivity |].
  split.
  - apply (validateAndScoreTender_seven_fields scenario_code_object). reflexivity.
  - apply (validateAndScoreTender_seven_fields scenarioA). reflexivity.
Defined.

(** ** The response parser *)

Section ResponseParserFacts.

Variable JSON_parse : string -> Exc JsValue.

(** Whatever the [try] block does, the function returns a list. *)
Lemma parseGeminiResponse_returns (responseText : string) :
  exists results, parseGeminiResponse JSON_parse responseText = Ok results.
Proof.
  unfold parseGeminiResponse, try_catch.
  destruct (parseGeminiResponse_try JSON_parse responseText); eauto.
Qed.

(** A candidate the validator throws on empties the whole result. *)
Lemma parseGeminiResponse_item_throws (responseText m : string)
    (items : list JsValue) (e : JsError) :
  match_json_array responseText = Some m ->
  JSON_parse m = Ok (JArr items) ->
  exc_map validateAndScoreTender items = Throw e ->
  parseGeminiResponse JSON_parse responseText = Ok [].
Proof.
  intros Hm Hp Hmap. unfold parseGeminiResponse, parseGeminiResponse_try.
  rewrite Hm. cbn [exc_bind]. rewrite Hp. cbn [exc_bind]. rewrite Hmap. reflexivity.
Qed.

End ResponseParserFacts.

(** C8. The response parser never throws, and a response with no JSON
    array in it, with a span that does not parse, or with a span that
    parses to a value that is not an array, yields the empty list. *)
Theorem parseGeminiResponse_degrades (JSON_parse : string -> Exc JsValue)
    (responseText : string) (Hbad : not_a_json_array JSON_parse responseText) :
  parseGeminiResponse JSON_parse responseText = Ok []
  /\ forall text, exists results, parseGeminiResponse JSON_parse text = Ok results.
Proof.
  split; [| apply parseGeminiResponse_returns].
  unfold parseGeminiResponse, parseGeminiResponse_try.
  destruct Hbad as [Hnone | [(m & e & Hm & Hthrow) | (m & v & Hm & Hok & Hshape)]].
  - rewrite Hnone. reflexivity.
  - rewrite Hm. cbn [exc_bind]. rewrite Hthrow. reflexivity.
  - rewrite Hm. cbn [exc_bind]. rewrite Hok. cbn [exc_bind].
    destruct v; try reflexivity.
    exfalso. eapply Hshape. reflexivity.
Qed.

Lemma parseGeminiResponse_degrades_witness :
  not_a_json_array rejecting_parser "Here it is: [oops] (sorry)"
  /\ parseGeminiResponse rejecting_parser "Here it is: [oops] (sorry)" = Ok []
  /\ forall text, exists results, parseGeminiResponse rejecting_parser text = Ok results.
Proof.
  assert (H : not_a_json_array rejecting_parser "Here it is: [oops] (sorry)").
  { right. left. exists "[oops]", SyntaxError. split; reflexivity. }
  split; [exact H |].
  apply (parseGeminiResponse_degrades rejecting_parser "Here it is: [oops] (sorry)" H).
Defined.

(** ** Failure patterns *)

Lemma set_add_not_nil (x : string) (patterns : list string) :
  set_add x patterns <> [].
Proof.
  unfold set_add. destruct (existsb (String.eqb x) patterns) eqn:Hex.
  - destruct patterns; [discriminate | discriminate].
  - destruct patterns; discriminate.
Qed.

Lemma add_if_nil (cond : bool) (x : string) (patterns : list string) :
  add_if cond x patterns = [] <-> cond = false /\ patterns = [].
Proof.
  unfold add_if. destruct cond.
  - split; [intros H; destruct (set_add_not_nil _ _ H) | intros [H _]; discriminate].
  - split; [auto | intros [_ H]; exact H].
Qed.

Lemma identifyFailurePatterns_loop_nil (failures : list Failure) :
  forall patterns,
    identifyFailurePatterns_loop failures patterns = []
    <-> patterns = []
        /\ forall f, In f failures -> tagged_mismatch (field_mismatches f) = false.
Proof.
  induction failures as [| f rest IH]; intros patterns; cbn [identifyFailurePatterns_loop].
  - split; [intros ->; split; [reflexivity | intros f []] | intros [H _]; exact H].
  - rewrite IH. rewrite !add_if_nil. unfold tagged_mismatch. split.
    + intros [(Hd & Ht & Hs & Hk & Hp) Hrest].
      split; [exact Hp |].
      intros g [<- | Hg]; [| apply Hrest, Hg].
      apply orb_false_elim in Ht as [Hb Hke].
      rewrite Hk, Hs, Hb, Hke, Hd. reflexivity.
    + intros [Hp Hall].
      pose proof (Hall f (or_introl eq_refl)) as Hf.
      apply orb_false_elim in Hf as [Hf Hd].
      apply orb_false_elim in Hf as [Hf Hke].
      apply orb_false_elim in Hf as [Hf Hb].
      apply orb_false_elim in Hf as [Hk Hs].
      split.
      * repeat split; try assumption. rewrite Hb, Hke. reflexivity.
      * intros g Hg. apply Hall. right. exact Hg.
Qed.

Lemma set_add_in (x y : string) (patterns : list string) :
  In y (set_add x patterns) -> y = x \/ In y patterns.
Proof.
  unfold set_add. destruct (existsb (String.eqb x) patterns); [auto |].
  intros H. apply in_app_or in H as [H | [H | []]]; auto.
Qed.

Lemma add_if_in (cond : bool) (x y : string) (patterns : list string) :
  In y (add_if cond x patterns) -> y = x \/ In y patterns.
Proof.
  unfold add_if. destruct cond; [apply set_add_in | auto].
Qed.

Lemma identifyFailurePatterns_loop_vocabulary (failures : list Failure) :
  forall patterns t,
    In t (identifyFailurePatterns_loop failures patterns) ->
    In t failure_tags \/ In t patterns.
Proof.
  induction failures as [| f rest IH]; intros patterns t; cbn [identifyFailurePatterns_loop].
  - auto.
  - intros H. apply IH in H as [H | H]; [auto |].
    repeat (apply add_if_in in H as [-> | H]; [left; cbn; tauto |]).
    auto.
Qed.

(** C5, as stated, fails: with the item number as the only mismatch,
    the example is a failure whose recorded mismatches include [bil],
    and no tag is emitted. *)
Lemma bil_mismatch_gets_no_tag :
  exists f,
    analyzeFailures [example_bil_differs] = [f]
    /\ mismatch "bil" (field_mismatches f) = true
    /\ identifyFailurePatterns [f] = [].
Proof.
  eexists. split; [vm_compute; reflexivity |].
  split; reflexivity.
Qed.

(** C5 (amended). The classifier returns no tag iff no input failure
    records a mismatch on the code, the status, the category text, the
    description or the date; a mismatch recorded on the item number
    alone emits nothing.  Every tag it returns is one of code_format,
    status_format, text_content, date_format. *)
Theorem identifyFailurePatterns_empty_iff (failures : list Failure) :
  (identifyFailurePatterns failures = []
   <-> forall f, In f failures -> tagged_mismatch (field_mismatches f) = false)
  /\ (forall t, In t (identifyFailurePatterns failures) -> In t failure_tags).
Proof.
  unfold identifyFailurePatterns. split.
  - rewrite identifyFailurePatterns_loop_nil. tauto.
  - intros t H.
    apply identifyFailurePatterns_loop_vocabulary in H as [H | []]. exact H.
Qed.

Lemma identifyFailurePatterns_empty_iff_witness :
  identifyFailurePatterns (analyzeFailures [example_bil_differs]) = []
  /\ In "date_format" failure_tags.
Proof.
  split.
  - apply (proj1 (identifyFailurePatterns_empty_iff
                    (analyzeFailures [example_bil_differs]))).
    intros f [<- | []]. reflexivity.
  - apply (proj2 (identifyFailurePatterns_empty_iff failures_round1)).
    vm_compute. tauto.
Defined.

(** ** Accuracy *)

(** C1. [calculateAccuracy] also requires the date to match: an example
    whose item number, code and status all equal the ground truth, and
    which the failure analysis does not list, is not counted as correct
    when only its date differs.  The same holds of the store reached by
    saving two extractions and validating one of them against a ground
    truth with another date. *)
Theorem calculateAccuracy_counts_date :
  critical_fields_match (tender (gemini_extraction example_date_differs))
                        truth_other_date = true
  /\ manual_validation example_date_differs = Some truth_other_date
  /\ analyzeFailures [example_date_differs] = []
  /\ correctCount [example_date_differs] = 0%nat
  /\ (calculateAccuracy_on [example_date_differs] == 0)%Q
  /\ analyzeFailures (getValidatedExamples None (run_ops sample_ops empty_store)) = []
  /\ (calculateAccuracy (run_ops sample_ops empty_store) == 0)%Q.
Proof.
  repeat split; vm_compute; reflexivity.
Qed.

(** No validated example: 0, also for the empty store. *)
Lemma calculateAccuracy_on_nil :
  calculateAccuracy_on [] = 0%Q /\ calculateAccuracy empty_store = 0%Q.
Proof. split; reflexivity. Qed.

(** Whatever the other fields do, a date that differs from the ground
    truth keeps an example from being counted. *)
Lemma date_mismatch_not_counted (example : TrainingExample) (truth : Tender) :
  manual_validation example = Some truth ->
  strict_eq (tarikh (tender (gemini_extraction example))) (tarikh truth) = false ->
  counted example = false.
Proof.
  intros Hv Hd. unfold counted, fieldsMatch. rewrite Hv, Hd.
  rewrite andb_false_r. reflexivity.
Qed.

Lemma correctCount_app (l : list TrainingExample) (example : TrainingExample) :
  correctCount (l ++ [example])
  = (correctCount l + (if counted example then 1 else 0))%nat.
Proof.
  induction l as [| x l IH]; cbn [correctCount app].
  - unfold counted. destruct (manual_validation example) as [v |]; [| reflexivity].
    destruct (fieldsMatch _ _); reflexivity.
  - rewrite IH. destruct (manual_validation x) as [v |]; [| reflexivity].
    destruct (fieldsMatch _ _); reflexivity.
Qed.

Lemma correctCount_le_length (l : list TrainingExample) :
  (correctCount l <= List.length l)%nat.
Proof.
  induction l as [| x l IH]; cbn [correctCount List.length]; [lia |].
  destruct (manual_validation x) as [v |]; [destruct (fieldsMatch _ _) |]; lia.
Qed.

Lemma Q_of_nat_ratio (a b : nat) :
  (0 < b)%nat ->
  (Q_of_nat a / Q_of_nat b == Z.of_nat a # Pos.of_nat b)%Q.
Proof.
  intros Hb. unfold Q_of_nat, Qdiv, Qmult, Qinv, inject_Z, Qeq. cbn [Qnum Qden].
  destruct b as [| b]; [lia |].
  rewrite <- (positive_nat_Z (Pos.of_nat (S b))).
  rewrite Nat2Pos.id by lia.
  destruct (Z.of_nat (S b)) eqn:Hz; try lia.
  cbn [Qnum Qden]. lia.
Qed.

Lemma toFixed_nonneg_mono (digits : nat) (x y : Q) :
  (0 <= x)%Q -> (x <= y)%Q -> (toFixed digits x <= toFixed digits y)%Q.
Proof.
  intros H0 Hxy. unfold toFixed.
  assert (H0y : (0 <= y)%Q) by (eapply Qle_trans; eassumption).
  apply Qle_bool_iff in H0. apply Qle_bool_iff in H0y. rewrite H0, H0y.
  unfold Qle. cbn [Qnum Qden].
  apply Z.mul_le_mono_nonneg_r; [lia |].
  apply Qfloor_resp_le.
  apply Qplus_le_l. apply Qmult_le_compat_r; [exact Hxy |].
  change 0%Q with (inject_Z 0). rewrite <- Zle_Qle. lia.
Qed.

Lemma accuracy_ratio_nonneg (c n : nat) :
  (0 <= Q_of_nat c / Q_of_nat n * 100)%Q.
Proof.
  apply Qmult_le_0_compat; [| discriminate].
  unfold Qdiv. apply Qmult_le_0_compat; [apply Q_of_nat_nonneg |].
  apply Qinv_le_0_compat, Q_of_nat_nonneg.
Qed.

Lemma toFixed_nonneg (digits : nat) (x : Q) : (0 <= x)%Q -> (0 <= toFixed digits x)%Q.
Proof.
  intros H.
  apply Qle_trans with (toFixed digits 0);
    [| apply toFixed_nonneg_mono; [apply Qle_refl | exact H]].
  unfold toFixed. cbn [Qle_bool Qnum Qden Z.leb Z.mul Z.compare].
  assert (E : (0 * inject_Z (10 ^ Z.of_nat digits) + (1 # 2) == 1 # 2)%Q) by ring.
  rewrite E. discriminate.
Qed.

(** With the test [calculateAccuracy] itself applies, the percentage is
    monotone: one more counted example does not lower it, one more
    example that is not counted does not raise it. *)
Lemma calculateAccuracy_on_monotone (l : list TrainingExample)
    (example : TrainingExample) :
  (counted example = true ->
   (calculateAccuracy_on l <= calculateAccuracy_on (l ++ [example]))%Q)
  /\ (counted example = false ->
      (calculateAccuracy_on (l ++ [example]) <= calculateAccuracy_on l)%Q).
Proof.
  unfold calculateAccuracy_on.
  rewrite correctCount_app, length_app. cbn [List.length].
  pose proof (correctCount_le_length l) as Hle.
  set (c := correctCount l) in *. set (n := List.length l) in *.
  replace (n + 1 =? 0)%nat with false by (symmetry; apply Nat.eqb_neq; lia).
  split; intros ->.
  - destruct (n =? 0)%nat eqn:Hn.
    + apply toFixed_nonneg, accuracy_ratio_nonneg.
    + apply Nat.eqb_neq in Hn.
      apply toFixed_nonneg_mono; [apply accuracy_ratio_nonneg |].
      apply Qmult_le_compat_r; [| discriminate].
      rewrite !Q_of_nat_ratio by lia.
      unfold Qle. cbn [Qnum Qden].
      rewrite <- !positive_nat_Z, !Nat2Pos.id by lia. nia.
  - rewrite Nat.add_0_r.
    destruct (n =? 0)%nat eqn:Hn.
    + apply Nat.eqb_eq in Hn. assert (c = 0)%nat as -> by lia.
      rewrite Hn. vm_compute. discriminate.
    + apply Nat.eqb_neq in Hn.
      apply toFixed_nonneg_mono; [apply accuracy_ratio_nonneg |].
      apply Qmult_le_compat_r; [| discriminate].
      rewrite !Q_of_nat_ratio by lia.
      unfold Qle. cbn [Qnum Qden].
      rewrite <- !positive_nat_Z, !Nat2Pos.id by lia. nia.
Qed.

(** An example that fails the three-field test is not counted. *)
Lemma critical_mismatch_not_counted (example : TrainingExample) (truth : Tender) :
  manual_validation example = Some truth ->
  critical_fields_match (tender (gemini_extraction example)) truth = false ->
  counted example = false.
Proof.
  intros Hv Hc. unfold counted. rewrite Hv.
  unfold critical_fields_match in Hc. unfold fieldsMatch.
  destruct (strict_eq (bil _) _), (strict_eq (kod_bidang _) _),
    (strict_eq (status _) _), (strict_eq (tarikh _) _);
    try reflexivity; discriminate.
Qed.

(** C4. Appending an example whose three critical fields all match its
    ground truth lowers the percentage from 100 to 50 when its date
    differs. *)
Theorem calculateAccuracy_drops_on_date :
  critical_fields_match (tender (gemini_extraction example_date_differs))
                        truth_other_date = true
  /\ (calculateAccuracy_on [example_exact] == 100)%Q
  /\ (calculateAccuracy_on ([example_exact] ++ [example_date_differs]) == 50)%Q
  /\ (calculateAccuracy_on ([example_exact] ++ [example_date_differs])
      < calculateAccuracy_on [example_exact])%Q.
Proof.
  repeat split; vm_compute; reflexivity.
Qed.

(** ** The example store *)

Lemma saveTrainingExample_loop_saved (uuidv4 : nat -> string) (clock : nat -> Z)
    (pdfPath pdfUrl : string) (iteration : Z) (results : list ExtractionResult) :
  forall i st saved,
    (forall example, In example saved ->
                     is_validated example = false /\ manual_validation example = None) ->
    forall example,
      In example (snd (saveTrainingExample_loop uuidv4 clock pdfPath pdfUrl iteration
                         i results st saved)) ->
      is_validated example = false /\ manual_validation example = None.
Proof.
  induction results as [| e rest IH]; intros i st saved Hsaved;
    cbn [saveTrainingExample_loop].
  - exact Hsaved.
  - apply IH.
    intros example Hin. apply in_app_or in Hin as [Hin | [<- | []]].
    + apply Hsaved, Hin.
    + split; reflexivity.
Qed.

Lemma saveTrainingExample_loop_consistent (uuidv4 : nat -> string) (clock : nat -> Z)
    (pdfPath pdfUrl : string) (iteration : Z) (results : list ExtractionResult) :
  forall i st saved,
    store_consistent st ->
    store_consistent (fst (saveTrainingExample_loop uuidv4 clock pdfPath pdfUrl
                             iteration i results st saved)).
Proof.
  induction results as [| e rest IH]; intros i st saved Hst;
    cbn [saveTrainingExample_loop].
  - exact Hst.
  - apply IH.
    intros k example. cbn [examples].
    destruct (decide (uuidv4 i = k)) as [-> | Hne].
    + rewrite lookup_insert_eq. intros [= <-]. unfold consistent. cbn.
      split; [discriminate | congruence].
    + rewrite lookup_insert_ne by exact Hne. apply Hst.
Qed.

Lemma validateExample_spec (now : Z) (exampleId : string) (validatedTender : Tender)
    (st : Store) :
  store_consistent st ->
  store_consistent (fst (validateExample now exampleId validatedTender st))
  /\ forall example,
       snd (validateExample now exampleId validatedTender st) = Ok example ->
       is_validated example = true
       /\ manual_validation example = Some validatedTender.
Proof.
  intros Hst. unfold validateExample.
  destruct (examples st !! exampleId) as [old |] eqn:Hold; cbn [fst snd].
  - split.
    + intros k example. cbn [examples].
      destruct (decide (exampleId = k)) as [-> | Hne].
      * rewrite lookup_insert_eq. intros [= <-]. unfold consistent. cbn.
        split; [discriminate | reflexivity].
      * rewrite lookup_insert_ne by exact Hne. apply Hst.
    + intros example [= <-]. split; reflexivity.
  - split; [exact Hst | discriminate].
Qed.

Lemma run_ops_consistent (ops : list StoreOp) :
  forall st, store_consistent st -> store_consistent (run_ops ops st).
Proof.
  induction ops as [| op ops IH]; intros st Hst; cbn [run_ops fold_left].
  - exact Hst.
  - apply IH. destruct op; cbn [run_op].
    + apply saveTrainingExample_loop_consistent, Hst.
    + apply validateExample_spec, Hst.
Qed.

(** C3. After any sequence of saves and validations, starting from the
    empty store, every stored example is validated iff it carries a
    ground truth; a save returns examples that are unvalidated and carry
    none, and a validation that succeeds returns the example with both
    set. *)
Theorem validated_iff_ground_truth (ops : list StoreOp) (k : string)
    (example : TrainingExample)
    (Hstored : examples (run_ops ops empty_store) !! k = Some example) :
  (is_validated example = true <-> manual_validation example <> None)
  /\ (forall uuidv4 clock pdfPath pdfUrl extraction iteration st saved,
        In saved (snd (saveTrainingExample uuidv4 clock pdfPath pdfUrl
                         extraction iteration st)) ->
        is_validated saved = false /\ manual_validation saved = None)
  /\ (forall now exampleId validatedTender st updated,
        snd (validateExample now exampleId validatedTender st) = Ok updated ->
        is_validated updated = true
        /\ manual_validation updated = Some validatedTender
        /\ examples (fst (validateExample now exampleId validatedTender st))
             !! exampleId = Some updated).
Proof.
  split; [| split].
  - assert (Hempty : store_consistent empty_store).
    { intros k' example'. cbn [examples empty_store].
      rewrite lookup_empty. discriminate. }
    exact (run_ops_consistent ops empty_store Hempty k example Hstored).
  - intros uuidv4 clock pdfPath pdfUrl results iteration st saved.
    apply saveTrainingExample_loop_saved. intros other [].
  - intros now exampleId validatedTender st updated Hok.
    unfold validateExample in *.
    destruct (examples st !! exampleId) as [old |]; cbn [fst snd] in *; [| discriminate].
    injection Hok as <-. cbn [examples is_validated manual_validation].
    rewrite lookup_insert_eq. repeat split.
Qed.

Lemma validated_iff_ground_truth_witness :
  exists example,
    examples (run_ops sample_ops empty_store) !! "example-1" = Some example
    /\ is_validated example = true
    /\ manual_validation example = Some truth_other_date
    /\ (is_validated example = true <-> manual_validation example <> None).
Proof.
  eexists. split; [vm_compute; reflexivity |].
  split; [reflexivity |]. split; [reflexivity |].
  apply (validated_iff_ground_truth sample_ops "example-1").
  vm_compute. reflexivity.
Defined.


(** ** Prompt refinement *)

Lemma includes_In (l : list string) (x : string) :
  includes l x = true <-> In x l.
Proof.
  unfold includes. rewrite existsb_exists. split.
  - intros (y & Hy & Heq). apply String.eqb_eq in Heq. subst. exact Hy.
  - intros H. exists x. split; [exact H | apply String.eqb_refl].
Qed.

Lemma includes_ext (l1 l2 : list string) :
  (forall t, In t l1 <-> In t l2) -> forall x, includes l1 x = includes l2 x.
Proof.
  intros H x.
  destruct (includes l1 x) eqn:H1, (includes l2 x) eqn:H2; try reflexivity.
  - apply includes_In, H, includes_In in H1. congruence.
  - apply includes_In, H, includes_In in H2. congruence.
Qed.

(** C7. Refining with the same set of failure patterns gives the same
    instruction document, character for character, however the failures
    are listed; installing it a second time leaves the extractor's
    prompt as it was after the first; and the document holds the clause
    of each pattern of the vocabulary once if the pattern is present,
    and not at all otherwise. *)
Theorem generateImprovedPrompt_idempotent (failures1 failures2 : list Failure)
    (Hsame : forall t, In t (identifyFailurePatterns failures1)
                       <-> In t (identifyFailurePatterns failures2)) :
  generateImprovedPrompt failures1 = generateImprovedPrompt failures2
  /\ (forall ex,
        extractionPrompt
          (updatePrompt (generateImprovedPrompt failures2)
             (updatePrompt (generateImprovedPrompt failures1) ex))
        = extractionPrompt (updatePrompt (generateImprovedPrompt failures1) ex))
  /\ (forall tag, In tag failure_tags ->
        count_occurrences (clause_of tag) (generateImprovedPrompt failures1)
        = if includes (identifyFailurePatterns failures1) tag then 1%nat else 0%nat).
Proof.
  assert (Heq : generateImprovedPrompt failures1 = generateImprovedPrompt failures2).
  { unfold generateImprovedPrompt. cbv zeta.
    rewrite !(includes_ext _ _ Hsame). reflexivity. }
  split; [exact Heq |]. split.
  - intros ex. cbn [updatePrompt extractionPrompt]. symmetry. exact Heq.
  - intros tag Htag. unfold generateImprovedPrompt. cbv zeta.
    destruct (includes (identifyFailurePatterns failures1) "code_format") eqn:Hc,
      (includes (identifyFailurePatterns failures1) "status_format") eqn:Hs,
      (includes (identifyFailurePatterns failures1) "text_content") eqn:Ht,
      (includes (identifyFailurePatterns failures1) "date_format") eqn:Hd.
    all: cbn [failure_tags In] in Htag.
    all: destruct Htag as [<- | [<- | [<- | [<- | []]]]].
    all: rewrite ?Hc, ?Hs, ?Ht, ?Hd; vm_compute; reflexivity.
Qed.

Lemma generateImprovedPrompt_idempotent_witness :
  identifyFailurePatterns failures_round1
    = ["code_format"; "status_format"; "date_format"]
  /\ identifyFailurePatterns failures_round2
      = ["status_format"; "date_format"; "code_format"]
  /\ generateImprovedPrompt failures_round1 = generateImprovedPrompt failures_round2.
Proof.
  split; [vm_compute; reflexivity |]. split; [vm_compute; reflexivity |].
  apply (generateImprovedPrompt_idempotent failures_round1 failures_round2).
  intros t. vm_compute. tauto.
Defined.

(** * Further properties of the code *)

(** ** Dates, continued *)

Lemma match_dd_mm_yyyy_canonical (sep : ascii) (s day month year : string) :
  match_dd_mm_yyyy sep s = Some (day, month, year) ->
  match_yyyy_mm_dd (year +:+ "-" +:+ month +:+ "-" +:+ day) = true.
Proof.
  unfold match_dd_mm_yyyy.
  destruct (chars s) as [|c1 [|c2 [|c3 [|c4 [|c5 [|c6 [|c7 [|c8 [|c9 [|c10 [|c11 l]]]]]]]]]]];
    try discriminate.
  destruct (forallb _ _ && _ && _) eqn:Hc; [| discriminate].
  intros [= <- <- <-].
  apply andb_prop in Hc as [Hc _]. apply andb_prop in Hc as [Hc _].
  cbn [forallb] in Hc.
  repeat (apply andb_prop in Hc as [? Hc]).
  unfold match_yyyy_mm_dd, chars, of_chars. simpl.
  repeat match goal with H : is_digit _ = true |- _ => rewrite H; clear H end.
  reflexivity.
Qed.

Lemma normalizeDate_string_canonical (s out : string) :
  normalizeDate_string s = Some out -> match_yyyy_mm_dd out = true.
Proof.
  unfold normalizeDate_string.
  destruct (match_dd_mm_yyyy "/" s) as [[[day month] year] |] eqn:H1.
  - intros [= <-]. eapply match_dd_mm_yyyy_canonical, H1.
  - destruct (match_dd_mm_yyyy "-" s) as [[[day month] year] |] eqn:H2.
    + intros [= <-]. eapply match_dd_mm_yyyy_canonical, H2.
    + destruct (match_yyyy_mm_dd s) eqn:H3; [intros [= <-]; exact H3 | discriminate].
Qed.

Lemma normalizeDate_string_fixed (s : string) :
  match_yyyy_mm_dd s = true -> normalizeDate_string s = Some s.
Proof.
  intros H. unfold normalizeDate_string.
  destruct (canonical_not_day_first s H) as [-> ->]. rewrite H. reflexivity.
Qed.

(** X1. Whatever [normalizeDate] accepts, a string or not, in any of
    the three formats, its result has the canonical shape and is left
    unchanged by a second normalization. *)
Theorem normalizeDate_idempotent (v : JsValue) (out : string)
    (Hsome : normalizeDate v = Some out) :
  match_yyyy_mm_dd out = true /\ normalizeDate (JStr out) = Some out.
Proof.
  destruct v; try discriminate. cbn [normalizeDate] in *.
  pose proof (normalizeDate_string_canonical _ _ Hsome) as Hc.
  split; [exact Hc | apply normalizeDate_string_fixed, Hc].
Qed.

Lemma normalizeDate_idempotent_witness :
  normalizeDate (JStr "03-07-2024") = Some "2024-07-03"
  /\ match_yyyy_mm_dd "2024-07-03" = true
  /\ normalizeDate (JStr "2024-07-03") = Some "2024-07-03".
Proof.
  split; [reflexivity |].
  apply (normalizeDate_idempotent (JStr "03-07-2024")). reflexivity.
Defined.

(** ** Text cleaning *)

Lemma chars_of_chars (l : list ascii) : chars (of_chars l) = l.
Proof. apply list_ascii_of_string_of_list_ascii. Qed.

Lemma of_chars_chars (s : string) : of_chars (chars s) = s.
Proof. apply string_of_list_ascii_of_string. Qed.

Lemma tidy_weaken (l : list ascii) : tidy true l = true -> tidy false l = true.
Proof.
  destruct l as [| c rest]; cbn [tidy]; [discriminate |].
  destruct (is_space c); [| auto].
  rewrite andb_false_r. discriminate.
Qed.

Lemma tidy_only_blanks (l : list ascii) :
  forall b, tidy b l = true ->
            forall c, In c l -> is_space c = true -> c = " "%char.
Proof.
  induction l as [| x rest IH]; intros b Ht c Hin Hsp; [destruct Hin |].
  cbn [tidy] in Ht. destruct Hin as [-> | Hin].
  - rewrite Hsp in Ht. apply andb_prop in Ht as [Ht _].
    apply andb_prop in Ht as [Ht _]. apply Ascii.eqb_eq in Ht. exact Ht.
  - destruct (is_space x).
    + apply andb_prop in Ht as [_ Ht]. eapply IH; eassumption.
    + eapply IH; eassumption.
Qed.

Lemma tidy_no_double_blank (pre post : list ascii) :
  forall b l, tidy b l = true -> l <> pre ++ " "%char :: " "%char :: post.
Proof.
  induction pre as [| x pre IH]; intros b l Ht ->; cbn [app tidy] in Ht.
  - change (is_space " ") with true in Ht. cbn in Ht.
    rewrite andb_false_r in Ht. destruct b; discriminate.
  - destruct (is_space x).
    + apply andb_prop in Ht as [_ Ht]. eapply IH; [exact Ht | reflexivity].
    + eapply IH; [exact Ht | reflexivity].
Qed.

Lemma tidy_last_is_space (l : list ascii) :
  forall b, tidy b l = true -> last_is_space b l = false.
Proof.
  induction l as [| x rest IH]; intros b Ht; cbn [tidy last_is_space] in *.
  - destruct b; [discriminate | reflexivity].
  - destruct (is_space x).
    + apply andb_prop in Ht as [_ Ht]. apply IH, Ht.
    + apply IH, Ht.
Qed.

Lemma last_is_space_snoc (l : list ascii) (c : ascii) :
  forall b, last_is_space b (l ++ [c]) = is_space c.
Proof.
  induction l as [| x rest IH]; intros b; cbn [app last_is_space]; [reflexivity | apply IH].
Qed.

Lemma tidy_no_trailing_blank (rest : list ascii) :
  forall b l, tidy b l = true -> l <> rest ++ [" "%char].
Proof.
  intros b l Ht ->. apply tidy_last_is_space in Ht.
  rewrite last_is_space_snoc in Ht. discriminate.
Qed.

Lemma collapse_spaces_tidy (l : list ascii) :
  forall b, last_is_space b l = false -> tidy b (collapse_spaces b l) = true.
Proof.
  induction l as [| c rest IH]; intros b Hl; cbn [collapse_spaces last_is_space] in *.
  - cbn. rewrite Hl. reflexivity.
  - destruct (is_space c) eqn:Hc.
    + destruct b.
      * apply IH, Hl.
      * cbn [tidy]. change (is_space " ") with true. cbn.
        apply IH, Hl.
    + cbn [tidy]. rewrite Hc. apply IH, Hl.
Qed.

Lemma collapse_spaces_fixed (l : list ascii) :
  forall b, tidy b l = true -> collapse_spaces b l = l.
Proof.
  induction l as [| c rest IH]; intros b Ht; cbn [collapse_spaces tidy] in *;
    [reflexivity |].
  destruct (is_space c).
  - apply andb_prop in Ht as [Ht Hrest]. apply andb_prop in Ht as [Hc Hb].
    apply Ascii.eqb_eq in Hc. subst c. destruct b; [discriminate |].
    f_equal. apply IH, Hrest.
  - f_equal. apply IH, Ht.
Qed.

Lemma drop_spaces_split (l : list ascii) :
  exists sp, l = sp ++ drop_spaces l /\ Forall (fun c => is_space c = true) sp.
Proof.
  induction l as [| c rest (sp & Heq & Hsp)]; cbn [drop_spaces].
  - exists []. split; [reflexivity | constructor].
  - destruct (is_space c) eqn:Hc.
    + exists (c :: sp). split; [cbn; f_equal; exact Heq | constructor; assumption].
    + exists []. split; [reflexivity | constructor].
Qed.

Lemma drop_spaces_head (l : list ascii) :
  match drop_spaces l with
  | [] => True
  | c :: _ => is_space c = false
  end.
Proof.
  induction l as [| c rest IH]; cbn [drop_spaces]; [exact I |].
  destruct (is_space c) eqn:Hc; [exact IH | exact Hc].
Qed.

(** The characters [trim] keeps: none, or a run that starts and ends
    outside white space. *)
Lemma trim_chars_shape (l : list ascii) :
  match rev (drop_spaces (rev (drop_spaces l))) with
  | [] => True
  | c :: rest => is_space c = false /\ last_is_space false rest = false
  end.
Proof.
  set (y := drop_spaces l).
  pose proof (drop_spaces_head l) as Hy. fold y in Hy.
  destruct (drop_spaces_split (rev y)) as (sp & Heq & Hsp).
  pose proof (drop_spaces_head (rev y)) as Hz.
  set (z := drop_spaces (rev y)) in *.
  assert (Hyz : y = rev z ++ rev sp).
  { rewrite <- (rev_involutive y), Heq, rev_app_distr. reflexivity. }
  destruct z as [| x z']; [exact I |].
  cbn [rev] in *.
  assert (Hlast : forall b, last_is_space b (rev z' ++ [x]) = false)
    by (intros b; rewrite last_is_space_snoc; exact Hz).
  destruct (rev z' ++ [x]) as [| c rest] eqn:Ht.
  - destruct (rev z'); discriminate.
  - split.
    + rewrite Hyz in Hy. cbn in Hy. exact Hy.
    + specialize (Hlast false). cbn [last_is_space] in Hlast.
      destruct (is_space c) eqn:Hc; [| exact Hlast].
      rewrite Hyz in Hy. cbn in Hy. congruence.
Qed.

Lemma replace_lf_fixed (l : list ascii) :
  (forall c, In c l -> c <> LF) -> replace_lf l = l.
Proof.
  intros H. unfold replace_lf. rewrite <- (map_id l) at 2.
  apply map_ext_in. intros c Hc.
  destruct (Ascii.eqb c LF) eqn:E; [| reflexivity].
  apply Ascii.eqb_eq in E. destruct (H c Hc E).
Qed.

Lemma replace_crlf_fixed (l : list ascii) :
  (forall c, In c l -> c <> LF) -> replace_crlf l = l.
Proof.
  induction l as [| c rest IH]; intros H; [reflexivity |].
  cbn [replace_crlf]. destruct rest as [| d rest']; [reflexivity |].
  destruct (Ascii.eqb d LF) eqn:E.
  - apply Ascii.eqb_eq in E. destruct (H d (or_intror (or_introl eq_refl)) E).
  - rewrite andb_false_r. f_equal. apply IH. intros x Hx. apply H. right. exact Hx.
Qed.

Lemma tidy_no_LF (l : list ascii) (b : bool) :
  tidy b l = true -> forall c, In c l -> c <> LF.
Proof.
  intros Ht c Hin ->.
  pose proof (tidy_only_blanks l b Ht LF Hin eq_refl) as H. discriminate H.
Qed.

(** After [trim] and the collapse of white-space runs nothing is left
    for the two line-break replacements to do. *)
Lemma cleanText_chars (text : string) :
  chars (cleanText text) = collapse_spaces false (chars (trim text))
  /\ match chars (cleanText text) with
     | [] => True
     | l => tidy true l = true
     end.
Proof.
  unfold cleanText, trim. rewrite !chars_of_chars.
  pose proof (trim_chars_shape (chars text)) as Hshape.
  set (t := rev (drop_spaces (rev (drop_spaces (chars text))))) in *.
  assert (Ht : match collapse_spaces false t with
               | [] => True
               | l => tidy true l = true
               end).
  { destruct t as [| c rest]; [exact I |].
    destruct Hshape as [Hc Hlast].
    cbn [collapse_spaces]. rewrite Hc. cbn [tidy]. rewrite Hc.
    apply collapse_spaces_tidy, Hlast. }
  assert (Hlf : forall c, In c (collapse_spaces false t) -> c <> LF).
  { destruct (collapse_spaces false t) as [| c rest] eqn:E; [intros c [] |].
    eapply tidy_no_LF, Ht. }
  rewrite (replace_crlf_fixed _ Hlf), (replace_lf_fixed _ Hlf).
  split; [reflexivity | exact Ht].
Qed.

Lemma cleanText_fixed (s : string) : cleaned s = true -> cleanText s = s.
Proof.
  unfold cleaned. intros Hc.
  rewrite <- (of_chars_chars s) at 2.
  unfold cleanText, trim. rewrite chars_of_chars.
  destruct (chars s) as [| c rest] eqn:E; [reflexivity |].
  assert (Hhead : is_space c = false).
  { cbn [tidy] in Hc. destruct (is_space c); [| reflexivity].
    rewrite andb_false_r in Hc. discriminate. }
  assert (Hd1 : drop_spaces (c :: rest) = c :: rest)
    by (cbn [drop_spaces]; rewrite Hhead; reflexivity).
  rewrite Hd1.
  assert (Hd2 : drop_spaces (rev (c :: rest)) = rev (c :: rest)).
  { pose proof (tidy_last_is_space _ _ Hc) as Hl.
    rewrite <- (rev_involutive (c :: rest)) in Hl.
    destruct (rev (c :: rest)) as [| x r] eqn:Er.
    - reflexivity.
    - cbn [rev] in Hl. rewrite last_is_space_snoc in Hl.
      cbn [drop_spaces]. rewrite Hl. reflexivity. }
  rewrite Hd2, rev_involutive.
  rewrite (collapse_spaces_fixed _ false (tidy_weaken _ Hc)).
  pose proof (tidy_no_LF _ _ Hc) as Hlf.
  rewrite (replace_crlf_fixed _ Hlf), (replace_lf_fixed _ Hlf). reflexivity.
Qed.

Lemma cleanText_is_cleaned (text : string) : cleaned (cleanText text) = true.
Proof.
  unfold cleaned. destruct (cleanText_chars text) as [_ H].
  destruct (chars (cleanText text)); [reflexivity | exact H].
Qed.

(** X2. The cleaned text holds no white space but single blanks between
    words: every white-space character in it is a blank, no two blanks
    are adjacent, and it neither starts nor ends with one.  Cleaning it
    again changes nothing. *)
Theorem cleanText_normal_form (text : string) :
  (forall c, In c (chars (cleanText text)) -> is_space c = true -> c = " "%char)
  /\ (forall pre post, chars (cleanText text) <> pre ++ " "%char :: " "%char :: post)
  /\ (forall rest, chars (cleanText text) <> " "%char :: rest)
  /\ (forall rest, chars (cleanText text) <> rest ++ [" "%char])
  /\ cleanText (cleanText text) = cleanText text.
Proof.
  destruct (cleanText_chars text) as [_ H].
  destruct (chars (cleanText text)) as [| c l] eqn:E.
  - repeat split.
    + intros c [].
    + intros pre post Hp. destruct pre; discriminate.
    + discriminate.
    + intros rest Hr. destruct rest; discriminate.
    + apply cleanText_fixed, cleanText_is_cleaned.
  - repeat split.
    + eapply tidy_only_blanks, H.
    + intros pre post. eapply tidy_no_double_blank, H.
    + intros rest [= -> ->]. cbn in H. discriminate.
    + intros rest. eapply tidy_no_trailing_blank, H.
    + apply cleanText_fixed, cleanText_is_cleaned.
Qed.

(** ** Edit distance *)

Lemma levenshtein_row_bounded (bc : ascii) (a : list ascii) :
  forall prev left i j,
    List.length prev = S (List.length a) ->
    bounded i j prev ->
    (left <= Nat.max (S i) j)%nat ->
    List.length (levenshtein_row bc a prev left) = List.length a
    /\ bounded (S i) (S j) (levenshtein_row bc a prev left).
Proof.
  induction a as [| ac a IH]; intros prev left i j Hlen Hprev Hleft.
  - destruct prev as [| d [| u p]]; split; cbn; auto.
  - destruct prev as [| diag [| up prev']]; [discriminate | discriminate |].
    cbn [levenshtein_row]. cbn [bounded] in Hprev.
    destruct Hprev as [Hdiag [Hup Hrest]].
    set (cell := if Ascii.eqb bc ac then diag
                 else Nat.min (diag + 1) (Nat.min (left + 1) (up + 1))).
    assert (Hcell : (cell <= Nat.max (S i) (S j))%nat).
    { unfold cell. destruct (Ascii.eqb bc ac); lia. }
    destruct (IH (up :: prev') cell i (S j)) as [Hl Hb].
    + cbn [List.length] in *. lia.
    + cbn [bounded]. split; assumption.
    + lia.
    + split; [cbn [List.length]; rewrite Hl; reflexivity |].
      cbn [bounded]. split; assumption.
Qed.

Lemma levenshtein_rows_bounded (a : list ascii) (b : list ascii) :
  forall prev i,
    List.length prev = S (List.length a) ->
    bounded i 0 prev ->
    List.length (levenshtein_rows a b prev (S i)) = S (List.length a)
    /\ bounded (i + List.length b) 0 (levenshtein_rows a b prev (S i)).
Proof.
  induction b as [| bc b IH]; intros prev i Hlen Hprev; cbn [levenshtein_rows].
  - rewrite Nat.add_0_r. split; assumption.
  - destruct (levenshtein_row_bounded bc a prev (S i) i 0 Hlen Hprev) as [Hl Hb];
      [lia |].
    destruct (IH (S i :: levenshtein_row bc a prev (S i)) (S i)) as [Hl' Hb'].
    + cbn [List.length]. rewrite Hl. reflexivity.
    + cbn [bounded]. split; [lia | exact Hb].
    + split; [exact Hl' |].
      cbn [List.length]. replace (i + S (List.length b))%nat
        with (S i + List.length b)%nat by lia. exact Hb'.
Qed.

Lemma bounded_seq (n j : nat) : bounded 0 j (seq j n).
Proof.
  revert j. induction n as [| n IH]; intros j; cbn [seq bounded]; [exact I |].
  split; [lia | apply IH].
Qed.

Lemma bounded_last (row : list nat) :
  forall i j, row <> [] -> bounded i j row ->
              (List.last row 0 <= Nat.max i (j + List.length row - 1))%nat.
Proof.
  induction row as [| x rest IH]; intros i j Hne Hb; [contradiction |].
  cbn [bounded] in Hb. destruct Hb as [Hx Hrest].
  destruct rest as [| y rest'].
  - cbn. lia.
  - change (List.last (x :: y :: rest') 0%nat) with (List.last (y :: rest') 0%nat).
    pose proof (IH i (S j) ltac:(discriminate) Hrest) as H.
    cbn [List.length] in *. lia.
Qed.

Lemma chars_length (s : string) : List.length (chars s) = String.length s.
Proof.
  induction s as [| c s IH]; cbn; [reflexivity | f_equal; exact IH].
Qed.

Lemma levenshtein_rows_no_columns (b : list ascii) :
  forall i, levenshtein_rows [] b [i] (S i) = [(i + List.length b)%nat].
Proof.
  induction b as [| bc b IH]; intros i; cbn [levenshtein_rows levenshtein_row List.length].
  - rewrite Nat.add_0_r. reflexivity.
  - rewrite IH. f_equal. lia.
Qed.

(** X3. The edit distance of two strings is at most the length of the
    longer one, so the similarity [1 - distance / longer] is never
    negative; against the empty string the distance is the length of
    the other string. *)
Theorem levenshteinDistance_bounds (a b : string) :
  (levenshteinDistance a b <= Nat.max (String.length a) (String.length b))%nat
  /\ levenshteinDistance a "" = String.length a
  /\ levenshteinDistance "" b = String.length b.
Proof.
  unfold levenshteinDistance. split; [| split].
  - destruct (levenshtein_rows_bounded (chars a) (chars b)
                (seq 0 (S (String.length a))) 0) as [Hl Hb].
    + rewrite length_seq, chars_length. reflexivity.
    + apply bounded_seq.
    + set (row := levenshtein_rows _ _ _ _) in *.
      assert (Hne : row <> []) by (intros E; rewrite E in Hl; discriminate).
      pose proof (bounded_last row _ _ Hne Hb) as H.
      rewrite Hl, !chars_length in H. cbn in H. lia.
  - cbn [chars list_ascii_of_string levenshtein_rows].
    rewrite seq_S, last_last. reflexivity.
  - cbn [chars list_ascii_of_string String.length seq].
    rewrite levenshtein_rows_no_columns, <- chars_length. reflexivity.
Qed.

Lemma lev_reference_nil_r (x : list ascii) : lev_reference x [] = List.length x.
Proof. destruct x; reflexivity. Qed.

Lemma levenshtein_row_reference (bc : ascii) (xb : list ascii) (ra : list ascii) :
  forall pa,
    levenshtein_row bc ra (map (lev_reference xb) (extensions pa ra))
      (lev_reference (bc :: xb) pa)
    = map (lev_reference (bc :: xb)) (List.tl (extensions pa ra)).
Proof.
  induction ra as [| rc ra IH]; intros pa; [reflexivity |].
  cbn [extensions map List.tl].
  pose proof (IH (rc :: pa)) as IH'.
  destruct (extensions (rc :: pa) ra) as [| e es] eqn:E;
    [destruct ra; discriminate |].
  assert (He : e = rc :: pa) by (destruct ra; cbn in E; congruence).
  subst e. cbn [map levenshtein_row List.tl] in *.
  set (cell := if Ascii.eqb bc rc then _ else _).
  assert (Hcell : cell = lev_reference (bc :: xb) (rc :: pa)).
  { unfold cell. cbn [lev_reference].
    destruct (Ascii.eqb bc rc); [reflexivity | lia]. }
  rewrite Hcell. f_equal. exact IH'.
Qed.

Lemma levenshtein_rows_reference (a : list ascii) (b : list ascii) :
  forall xb,
    levenshtein_rows a b (map (lev_reference xb) (extensions [] a))
      (S (List.length xb))
    = map (lev_reference (rev b ++ xb)) (extensions [] a).
Proof.
  induction b as [| bc b IH]; intros xb; cbn [levenshtein_rows]; [reflexivity |].
  replace (S (List.length xb) :: _)
    with (map (lev_reference (bc :: xb)) (extensions [] a)).
  - pose proof (IH (bc :: xb)) as H. cbn [List.length] in H. rewrite H.
    cbn [rev]. rewrite <- app_assoc. reflexivity.
  - destruct a as [| ac a']; cbn [extensions map].
    + rewrite lev_reference_nil_r. reflexivity.
    + rewrite !lev_reference_nil_r. f_equal.
      pose proof (levenshtein_row_reference bc xb (ac :: a') []) as H.
      cbn [extensions map List.tl] in H.
      rewrite !lev_reference_nil_r in H. cbn [List.length] in H.
      symmetry. exact H.
Qed.

Lemma lev_reference_nil_l (y : list ascii) : lev_reference [] y = List.length y.
Proof. destruct y; reflexivity. Qed.

Lemma extensions_lengths (ra : list ascii) :
  forall pa, map (lev_reference []) (extensions pa ra)
             = seq (List.length pa) (S (List.length ra)).
Proof.
  induction ra as [| c ra IH]; intros pa; cbn [extensions map seq List.length];
    rewrite lev_reference_nil_l.
  - reflexivity.
  - f_equal. rewrite IH. reflexivity.
Qed.

Lemma extensions_last (ra : list ascii) :
  forall pa d, List.last (extensions pa ra) d = rev ra ++ pa.
Proof.
  induction ra as [| c ra IH]; intros pa d; [reflexivity |].
  change (extensions pa (c :: ra)) with (pa :: extensions (c :: pa) ra).
  assert (Hne : extensions (c :: pa) ra <> []) by (destruct ra; discriminate).
  destruct (extensions (c :: pa) ra) as [| e es] eqn:E; [contradiction |].
  change (List.last (pa :: e :: es) d) with (List.last (e :: es) d).
  rewrite <- E, IH. cbn [rev]. rewrite <- app_assoc. reflexivity.
Qed.

Lemma last_map_nonempty {A B : Type} (f : A -> B) (l : list A) (d : B) (d' : A) :
  l <> [] -> List.last (map f l) d = f (List.last l d').
Proof.
  induction l as [| x rest IH]; intros Hne; [contradiction |].
  destruct rest as [| y rest']; [reflexivity |].
  change (List.last (map f (x :: y :: rest')) d)
    with (List.last (map f (y :: rest')) d).
  change (List.last (x :: y :: rest') d') with (List.last (y :: rest') d').
  apply IH. discriminate.
Qed.

(** The matrix computes the reference recursion on the reversed texts. *)
Lemma levenshteinDistance_reference (a b : string) :
  levenshteinDistance a b = lev_reference (rev (chars b)) (rev (chars a)).
Proof.
  unfold levenshteinDistance.
  pose proof (extensions_lengths (chars a) []) as Hseq.
  cbn [List.length] in Hseq. rewrite chars_length in Hseq. rewrite <- Hseq.
  pose proof (levenshtein_rows_reference (chars a) (chars b) []) as H.
  cbn [List.length] in H. rewrite H, app_nil_r.
  rewrite (last_map_nonempty _ _ _ []) by (destruct (chars a); discriminate).
  rewrite extensions_last, app_nil_r. reflexivity.
Qed.

Lemma lev_reference_cons (c d : ascii) (x y : list ascii) :
  lev_reference (c :: x) (d :: y)
  = if Ascii.eqb c d then lev_reference x y
    else S (Nat.min (lev_reference x y)
              (Nat.min (lev_reference (c :: x) y) (lev_reference x (d :: y)))).
Proof. reflexivity. Qed.

Lemma lev_reference_sym (x : list ascii) :
  forall y, lev_reference x y = lev_reference y x.
Proof.
  induction x as [| c x IHx]; intros y.
  - rewrite lev_reference_nil_l, lev_reference_nil_r. reflexivity.
  - induction y as [| d y IHy].
    + rewrite lev_reference_nil_l, lev_reference_nil_r. reflexivity.
    + rewrite !lev_reference_cons, (Ascii.eqb_sym d c).
      destruct (Ascii.eqb c d); [apply IHx |].
      rewrite IHy, (IHx y), (IHx (d :: y)). lia.
Qed.

Lemma lev_reference_zero (x : list ascii) :
  forall y, lev_reference x y = 0%nat <-> x = y.
Proof.
  induction x as [| c x IH]; intros y.
  - rewrite lev_reference_nil_l. destruct y; cbn; split; congruence.
  - destruct y as [| d y]; [cbn; split; congruence |].
    rewrite lev_reference_cons. destruct (Ascii.eqb c d) eqn:E.
    + apply Ascii.eqb_eq in E. subst d. rewrite IH. split; congruence.
    + apply Ascii.eqb_neq in E. split; [discriminate | congruence].
Qed.

Lemma chars_inj (s t : string) : chars s = chars t -> s = t.
Proof.
  intros H. rewrite <- (string_of_list_ascii_of_string s),
    <- (string_of_list_ascii_of_string t). unfold chars in H. rewrite H. reflexivity.
Qed.

(** X4. The edit distance does not depend on the order of its two
    arguments, and it is 0 exactly when the two strings are equal. *)
Theorem levenshteinDistance_symmetric (a b : string) :
  levenshteinDistance a b = levenshteinDistance b a
  /\ (levenshteinDistance a b = 0%nat <-> a = b).
Proof.
  rewrite !levenshteinDistance_reference. split.
  - apply lev_reference_sym.
  - rewrite lev_reference_zero. split.
    + intros H. apply chars_inj.
      rewrite <- (rev_involutive (chars a)), <- (rev_involutive (chars b)), H.
      reflexivity.
    + intros ->. reflexivity.
Qed.

(** X5. The similarity of two values does not depend on which of them
    is the extraction and which the ground truth. *)
Theorem calculateFieldConfidence_symmetric (a b : JsValue) :
  calculateFieldConfidence a b = calculateFieldConfidence b a.
Proof.
  unfold calculateFieldConfidence.
  rewrite (orb_comm (strict_eq b JNull)).
  destruct (strict_eq a JNull || strict_eq b JNull); [reflexivity |].
  assert (Hs : strict_eq a b = strict_eq b a).
  { destruct a as [| | x | x | x | x | x], b as [| | y | y | y | y | y];
      cbn; try reflexivity.
    - destruct x, y; reflexivity.
    - apply Z.eqb_sym.
    - apply String.eqb_sym. }
  rewrite Hs. destruct (strict_eq b a); [reflexivity |].
  rewrite (String.eqb_sym (toLowerCase (ToString b))).
  destruct (String.eqb _ _); [reflexivity |].
  rewrite !levenshteinDistance_reference, (lev_reference_sym (rev (chars (toLowerCase (ToString b))))).
  rewrite (Nat.max_comm (String.length (toLowerCase (ToString b)))).
  reflexivity.
Qed.

(** ** The record validator, continued *)

Lemma bil_test_sound (d : JsValue) :
  valid_field "bil" d = true -> exists n, d = JNum n /\ (0 < n)%Z.
Proof.
  destruct d; try discriminate. cbn. intros H.
  eexists. split; [reflexivity | apply Z.ltb_lt, H].
Qed.


Lemma isValidStatus_sound (d : JsValue) :
  isValidStatus d = true -> d = JStr "Aktif" \/ d = JStr "Tidak Aktif".
Proof.
  unfold isValidStatus. cbn [existsb]. rewrite orb_false_r.
  intros H. apply orb_prop in H as [H | H]; destruct d; try discriminate;
    cbn [strict_eq] in H; apply String.eqb_eq in H; subst; auto.
Qed.

Lemma isValidKodBidang_defined (d : JsValue) :
  valid_field "kod_bidang" d = true -> is_undefined d = false.
Proof. destruct d; try reflexivity. discriminate. Qed.





Ltac know_defined :=
  repeat match goal with
         | H : valid_field "bil" ?d = true |- _ =>
             apply bil_test_sound in H as (? & -> & ?)
         | H : isValidStatus ?d = true |- _ =>
             apply isValidStatus_sound in H as [-> | ->]
         | H : valid_field "kod_bidang" ?d = true |- _ =>
             apply isValidKodBidang_defined in H
         end.

(** X7. The validator reports one error for each field it rejects: the
    number of errors, the number of zero entries of the confidence map
    and the number of fields missing from the extracted tender are the
    same, and a warning (a single one, giving that number) is issued
    exactly when there is an error. *)
Theorem validateAndScoreTender_error_count (data : JsValue) (r : ExtractionResult)
    (Hok : validateAndScoreTender data = Ok r) :
  List.length (errors r) = count_zero (per_field (confidence r))
  /\ List.length (errors r) = count_absent (tender r)
  /\ warnings r
     = match errors r with
       | [] => []
       | _ => ["Extraction had "
                 +:+ string_of_Z (Z.of_nat (List.length (errors r)))
                 +:+ " validation errors"]
       end.
Proof.
  split_validator Hok.
  all: cbn [tender confidence per_field errors warnings].
  all: know_defined.
  all: unfold count_absent, tender_values;
    cbn [bil tarikh daftar bidang kod_bidang keterangan status List.filter is_undefined];
    rewrite ?Hkod.
  all: split; [reflexivity | split; reflexivity].
Qed.

Lemma validateAndScoreTender_error_count_witness :
  exists r, validateAndScoreTender scenarioA = Ok r
            /\ List.length (errors r) = 1%nat
            /\ count_absent (tender r) = 1%nat
            /\ warnings r = ["Extraction had 1 validation errors"].
Proof.
  eexists. split; [vm_compute; reflexivity |].
  split; [reflexivity |].
  destruct (validateAndScoreTender_error_count scenarioA _ ltac:(vm_compute; reflexivity))
    as (_ & Habsent & Hwarn).
  split; [symmetry; exact Habsent | exact Hwarn].
Defined.

Lemma validateAndScoreTender_overall (data : JsValue) (r : ExtractionResult) :
  validateAndScoreTender data = Ok r ->
  (0 <= overall (confidence r) <= 964 # 1000)%Q
  /\ (errors r = [] <-> overall (confidence r) = (964 # 1000)%Q)
  /\ (errors r = [] <-> (85 # 100 < overall (confidence r))%Q)
  /\ (errors r <> [] -> (overall (confidence r) <= 836 # 1000)%Q).
Proof.
  intros Hok. split_validator Hok.
  all: cbn [confidence overall errors].
  all: repeat split;
    try (intros H; first [reflexivity | discriminate H | contradiction
                         | (vm_compute in H; discriminate H)]);
    try (vm_compute; first [reflexivity | discriminate]).
Qed.

(** X8. The overall confidence lies between 0 and 0.964.  It is 0.964
    exactly when the validator reports no error, and every result with
    an error is at most 0.836, below the 0.85 threshold of the learning
    run: an extraction is above the threshold iff it has no error. *)
Theorem validateAndScoreTender_overall_threshold (data : JsValue) (r : ExtractionResult)
    (Hok : validateAndScoreTender data = Ok r) :
  (0 <= overall (confidence r) <= 964 # 1000)%Q
  /\ (errors r = [] <-> overall (confidence r) = (964 # 1000)%Q)
  /\ (errors r = [] <-> (85 # 100 < overall (confidence r))%Q)
  /\ (errors r <> [] -> (overall (confidence r) <= 836 # 1000)%Q).
Proof. exact (validateAndScoreTender_overall data r Hok). Qed.

Lemma validateAndScoreTender_overall_threshold_witness :
  exists r, validateAndScoreTender scenarioA = Ok r
            /\ errors r <> []
            /\ (overall (confidence r) <= 836 # 1000)%Q.
Proof.
  eexists. split; [vm_compute; reflexivity |].
  split; [discriminate |].
  apply (validateAndScoreTender_overall_threshold scenarioA); [| discriminate].
  vm_compute. reflexivity.
Defined.

Lemma exc_map_cons_inv {A B : Type} (f : A -> Exc B) (x : A) (xs : list A)
    (ys : list B) :
  exc_map f (x :: xs) = Ok ys ->
  exists y ys', ys = y :: ys' /\ f x = Ok y /\ exc_map f xs = Ok ys'.
Proof.
  cbn [exc_map]. destruct (f x) as [y | e]; [| discriminate].
  cbn [exc_bind]. destruct (exc_map f xs) as [ys' | e]; [| discriminate].
  cbn [exc_bind]. intros [= <-]. eauto.
Qed.

(** X9. In the metrics of a learning run over validator results, every
    extraction is counted once, as successful or as failed, and the
    successful ones are exactly those without a validation error. *)
Theorem metrics_counters (candidates : list JsValue)
    (allExtractions : list ExtractionResult)
    (Hscored : exc_map validateAndScoreTender candidates = Ok allExtractions) :
  (successfully_extracted allExtractions + failed_extractions allExtractions
   = List.length allExtractions)%nat
  /\ successfully_extracted allExtractions
     = List.length
         (List.filter (fun e => match errors e with [] => true | _ => false end)
                      allExtractions).
Proof.
  unfold successfully_extracted, failed_extractions.
  revert allExtractions Hscored.
  induction candidates as [| c cs IH]; intros allExtractions Hscored.
  - injection Hscored as <-. split; reflexivity.
  - apply exc_map_cons_inv in Hscored as (r & rs & -> & Hr & Hrs).
    destruct (IH rs Hrs) as [IH1 IH2].
    destruct (validateAndScoreTender_overall c r Hr) as (_ & _ & Hiff & _).
    cbn [List.filter].
    destruct (Qle_bool (overall (confidence r)) (85 # 100)) eqn:Hle; cbn [negb].
    + destruct (errors r) as [| e es].
      * exfalso. apply Qle_bool_iff in Hle.
        apply (Qlt_not_le _ _ (proj1 Hiff eq_refl)), Hle.
      * cbn [List.length]. split; [lia | exact IH2].
    + destruct (errors r) as [| e es].
      * cbn [List.length]. split; [lia | f_equal; exact IH2].
      * exfalso. assert (Hlt : (85 # 100 < overall (confidence r))%Q).
        { apply Qnot_le_lt. intros H. apply Qle_bool_iff in H. congruence. }
        apply Hiff in Hlt. discriminate.
Qed.

Lemma metrics_counters_witness :
  exists allExtractions,
    exc_map validateAndScoreTender [scenarioA; scenarioA_with_daftar "PKK/2024/17"]
    = Ok allExtractions
    /\ successfully_extracted allExtractions = 1%nat
    /\ (successfully_extracted allExtractions + failed_extractions allExtractions
        = List.length allExtractions)%nat.
Proof.
  eexists. split; [vm_compute; reflexivity |].
  split; [reflexivity |].
  eapply (metrics_counters [scenarioA; scenarioA_with_daftar "PKK/2024/17"]).
  vm_compute. reflexivity.
Defined.

(** ** The response parser, continued *)

Lemma exc_map_all_ok (items : list JsValue) :
  Forall (fun x => scorable x = true) items ->
  exists results,
    exc_map validateAndScoreTender items = Ok results
    /\ Forall2 (fun x r => validateAndScoreTender x = Ok r) items results.
Proof.
  induction 1 as [| x xs Hx _ (rs & Hrs & Hall)].
  - exists []. split; [reflexivity | constructor].
  - pose proof (validateAndScoreTender_returns x) as Hr. rewrite Hx in Hr.
    destruct Hr as [r Hr].
    exists (r :: rs). cbn [exc_map]. rewrite Hr. cbn [exc_bind].
    rewrite Hrs. cbn [exc_bind]. split; [reflexivity | constructor; assumption].
Qed.

Lemma exc_map_one_throws (items : list JsValue) :
  Exists (fun x => scorable x = false) items ->
  exists e, exc_map validateAndScoreTender items = Throw e.
Proof.
  induction 1 as [x xs Hx | x xs _ [e He]]; cbn [exc_map].
  - pose proof (validateAndScoreTender_returns x) as Hr. rewrite Hx in Hr.
    rewrite Hr. exists TypeError. reflexivity.
  - destruct (validateAndScoreTender x) as [r | e']; cbn [exc_bind]; [| eauto].
    rewrite He. cbn [exc_bind]. eauto.
Qed.

(** X10. When the response holds a JSON array, the parser returns all
    or nothing: one scored result for each element, in order, if the
    validator can score every element, and the empty list as soon as
    there is one element it cannot score ([null], or a record whose
    date, code or status cannot be coerced to a string), whatever the
    other elements are. *)
Theorem parseGeminiResponse_all_or_nothing (JSON_parse : string -> Exc JsValue)
    (responseText jsonMatch : string) (items : list JsValue)
    (Hmatch : match_json_array responseText = Some jsonMatch)
    (Hparse : JSON_parse jsonMatch = Ok (JArr items)) :
  (Forall (fun x => scorable x = true) items ->
   exists results,
     parseGeminiResponse JSON_parse responseText = Ok results
     /\ Forall2 (fun x r => validateAndScoreTender x = Ok r) items results)
  /\ (Exists (fun x => scorable x = false) items ->
      parseGeminiResponse JSON_parse responseText = Ok []).
Proof.
  unfold parseGeminiResponse, parseGeminiResponse_try.
  rewrite Hmatch. cbn [exc_bind]. rewrite Hparse. cbn [exc_bind]. split.
  - intros Hall. destruct (exc_map_all_ok items Hall) as (rs & Hrs & H2).
    exists rs. rewrite Hrs. split; [reflexivity | exact H2].
  - intros Hone. destruct (exc_map_one_throws items Hone) as [e He].
    rewrite He. reflexivity.
Qed.

Lemma parseGeminiResponse_all_or_nothing_witness :
  match_json_array sample_response = Some "[{...}, {...}]"
  /\ sample_parser "[{...}, {...}]" = Ok (JArr [scenarioA; scenario_code_object])
  /\ scorable scenarioA = true
  /\ scorable scenario_code_object = false
  /\ parseGeminiResponse sample_parser sample_response = Ok [].
Proof.
  split; [reflexivity |]. split; [reflexivity |].
  split; [reflexivity |]. split; [reflexivity |].
  apply (parseGeminiResponse_all_or_nothing sample_parser sample_response
           "[{...}, {...}]" [scenarioA; scenario_code_object]);
    [reflexivity | reflexivity |].
  right. left. reflexivity.
Defined.

(** ** Refinement against a validated tender *)

(** X11. [refineWithValidation] scores exactly the seven tender fields
    and its combined figure, their mean, lies between 0 and 1. *)
Theorem refineWithValidation_range (originalExtraction : ExtractionResult)
    (validatedData : Tender) :
  map fst (snd (refineWithValidation originalExtraction validatedData)) = tender_fields
  /\ (0 <= fst (refineWithValidation originalExtraction validatedData) <= 1)%Q
  /\ (forall k v, In (k, v) (snd (refineWithValidation originalExtraction validatedData)) ->
        v = calculateFieldConfidence (tender_field k (tender originalExtraction))
              (tender_field k validatedData)).
Proof.
  unfold refineWithValidation.
  cbn [fst snd tender_fields fold_left set_key String.eqb Ascii.eqb Bool.eqb].
  split; [reflexivity |]. split.
  - cbn [Object_values map snd mean_or_zero fold_left List.length].
    repeat match goal with
           | |- context [calculateFieldConfidence ?a ?b] =>
               let c := fresh "c" in
               destruct (calculateFieldConfidence_range a b);
               set (c := calculateFieldConfidence a b) in *; clearbody c
           end.
    unfold Q_of_nat. change (inject_Z (Z.of_nat 7)) with 7%Q.
    split.
    + apply Qle_shift_div_l; lra.
    + apply Qle_shift_div_r; lra.
  - intros k v Hin. cbn [In] in Hin.
    repeat (destruct Hin as [Hin | Hin]; [injection Hin as <- <-; reflexivity |]).
    destruct Hin.
Qed.

(** ** Sessions and metrics *)

Lemma update_found_none (sessionId : string) (iteration : LearningIteration)
    (sessions : list LearningSession) :
  update_found sessionId iteration sessions = None
  <-> forall s, In s sessions -> session_id s <> sessionId.
Proof.
  induction sessions as [| s rest IH]; cbn [update_found].
  - split; [intros _ s [] | reflexivity].
  - destruct (String.eqb (session_id s) sessionId) eqn:E.
    + apply String.eqb_eq in E. split; [discriminate |].
      intros H. destruct (H s (or_introl eq_refl) E).
    + apply String.eqb_neq in E.
      destruct (update_found sessionId iteration rest) as [[rest' found] |].
      * split; [discriminate |]. intros H.
        assert (Hnone : Some (rest', found) = None)
          by (apply IH; intros x Hx; apply H; right; exact Hx).
        discriminate Hnone.
      * split; [| reflexivity]. intros _ x [<- | Hx]; [exact E |].
        apply (proj1 IH eq_refl x Hx).
Qed.

Lemma update_found_some (sessionId : string) (iteration : LearningIteration)
    (sessions sessions' : list LearningSession) (found : LearningSession) :
  update_found sessionId iteration sessions = Some (sessions', found) ->
  exists pre s post,
    sessions = pre ++ s :: post
    /\ sessions' = pre ++ found :: post
    /\ (forall p, In p pre -> session_id p <> sessionId)
    /\ session_id s = sessionId
    /\ found = push_iteration iteration s.
Proof.
  revert sessions'. induction sessions as [| s rest IH]; intros sessions';
    cbn [update_found]; [discriminate |].
  destruct (String.eqb (session_id s) sessionId) eqn:E.
  - apply String.eqb_eq in E. intros [= <- <-].
    exists [], s, rest. repeat split; auto; intros p [].
  - apply String.eqb_neq in E.
    destruct (update_found sessionId iteration rest) as [[rest' found'] |];
      [| discriminate].
    intros [= <- <-].
    destruct (IH rest' eq_refl) as (pre & s0 & post & -> & -> & Hpre & Hid & Hf).
    exists (s :: pre), s0, post. repeat split; auto.
    intros p [<- | Hp]; [exact E | apply Hpre, Hp].
Qed.

(** X12. [addIteration] with an id no session has throws "Session not
    found" and leaves the file as it was.  Otherwise it changes the
    first session with that id and no other: the iteration is appended
    to its history, its accuracy becomes the iteration's
    [accuracy_after], and that session is what the call returns. *)
Theorem addIteration_spec (sessionId : string) (iteration : LearningIteration)
    (sessions : list LearningSession) :
  match addIteration sessionId iteration sessions with
  | (sessions', Raised message) =>
      sessions' = sessions
      /\ message = "Session not found: " +:+ sessionId
      /\ forall s, In s sessions -> session_id s <> sessionId
  | (sessions', Done found) =>
      exists pre s post,
        sessions = pre ++ s :: post
        /\ sessions' = pre ++ found :: post
        /\ (forall p, In p pre -> session_id p <> sessionId)
        /\ session_id s = sessionId
        /\ session_id found = sessionId
        /\ iterations found = iterations s ++ [iteration]
        /\ validation_accuracy found = accuracy_after iteration
  end.
Proof.
  unfold addIteration.
  destruct (update_found sessionId iteration sessions) as [[sessions' found] |] eqn:E.
  - destruct (update_found_some _ _ _ _ _ E) as (pre & s & post & H1 & H2 & H3 & H4 & ->).
    exists pre, s, post. repeat split; auto.
  - repeat split. exact (proj1 (update_found_none _ _ _) E).
Qed.

Lemma run_session_op_extends (op : SessionOp) (sessions : list LearningSession)
    (i : nat) (s : LearningSession) :
  sessions !! i = Some s ->
  exists s', run_session_op sessions op !! i = Some s'
             /\ session_id s' = session_id s
             /\ iterations s `prefix_of` iterations s'.
Proof.
  intros Hi. destruct op as [uuid now | sessionId iteration]; cbn [run_session_op].
  - cbn [createSession fst]. exists s. split; [| split; [reflexivity | reflexivity]].
    apply lookup_app_l_Some. exact Hi.
  - unfold addIteration.
    destruct (update_found sessionId iteration sessions) as [[sessions' found] |] eqn:E;
      cbn [fst].
    + destruct (update_found_some _ _ _ _ _ E) as (pre & s0 & post & -> & -> & _ & _ & ->).
      destruct (decide (i = List.length pre)) as [-> | Hne].
      * rewrite list_lookup_middle in Hi by reflexivity. injection Hi as <-.
        exists (push_iteration iteration s0).
        rewrite list_lookup_middle by reflexivity.
        split; [reflexivity |]. split; [reflexivity |].
        cbn [push_iteration iterations]. apply prefix_app_r. reflexivity.
      * exists s. split; [| split; reflexivity].
        destruct (decide (i < List.length pre)%nat) as [Hlt | Hge].
        -- rewrite lookup_app_l in * by exact Hlt. exact Hi.
        -- rewrite lookup_app_r in * by lia.
           destruct (i - List.length pre)%nat as [| j] eqn:Ej; [lia |].
           exact Hi.
    + exists s. split; [exact Hi | split; reflexivity].
Qed.

(** X13. The session history is append-only: whatever sessions are
    created and whatever iterations are added afterwards, a session
    keeps its place and its id, and the iterations it had remain, in
    order, at the front of its history. *)
Theorem session_history_append_only (ops : list SessionOp)
    (sessions : list LearningSession) (i : nat) (s : LearningSession)
    (Hstored : sessions !! i = Some s) :
  exists s', run_session_ops ops sessions !! i = Some s'
             /\ session_id s' = session_id s
             /\ iterations s `prefix_of` iterations s'.
Proof.
  revert sessions s Hstored.
  induction ops as [| op ops IH]; intros sessions s Hstored; cbn [run_session_ops fold_left].
  - exists s. split; [exact Hstored | split; reflexivity].
  - destruct (run_session_op_extends op sessions i s Hstored) as (s1 & H1 & Hid1 & Hp1).
    destruct (IH _ _ H1) as (s2 & H2 & Hid2 & Hp2).
    exists s2. split; [exact H2 |]. split; [congruence |].
    etransitivity; eassumption.
Qed.

(** X14. [saveMetrics] keeps the history at 100 snapshots at most: the
    new snapshot is always the last one, and what is kept is the end of
    the old history followed by it. *)
Theorem saveMetrics_bounded (metrics : ScrapingMetrics)
    (allMetrics : list ScrapingMetrics) :
  List.length (saveMetrics metrics allMetrics)
  = Nat.min (S (List.length allMetrics)) 100
  /\ last_or_null (saveMetrics metrics allMetrics) = Some metrics
  /\ exists dropped, allMetrics ++ [metrics] = dropped ++ saveMetrics metrics allMetrics.
Proof.
  unfold saveMetrics. cbv zeta.
  set (l := allMetrics ++ [metrics]).
  assert (Hlen : List.length l = S (List.length allMetrics))
    by (unfold l; rewrite length_app; cbn; lia).
  destruct (100 <? List.length l)%nat eqn:E.
  - apply Nat.ltb_lt in E. split; [rewrite length_skipn; lia |]. split.
    + unfold last_or_null.
      assert (Hskip : skipn (List.length l - 100) l
                      = skipn (List.length l - 100) allMetrics ++ [metrics]).
      { unfold l. rewrite skipn_app.
        replace (List.length (allMetrics ++ [metrics]) - 100 - List.length allMetrics)%nat
          with 0%nat by (rewrite length_app; cbn; lia).
        reflexivity. }
      rewrite Hskip, rev_app_distr. reflexivity.
    + exists (firstn (List.length l - 100) l). symmetry. apply firstn_skipn.
  - apply Nat.ltb_ge in E. split; [lia |]. split.
    + unfold last_or_null, l. rewrite rev_app_distr. reflexivity.
    + exists []. reflexivity.
Qed.

Lemma session_history_append_only_witness :
  exists s s',
    sample_sessions !! 0%nat = Some s
    /\ run_session_ops sample_session_ops sample_sessions !! 0%nat = Some s'
    /\ iterations s = [sample_iteration 1]
    /\ iterations s' = [sample_iteration 1; sample_iteration 2]
    /\ iterations s `prefix_of` iterations s'.
Proof.
  eexists. eexists. split; [reflexivity |]. split; [reflexivity |].
  split; [reflexivity |]. split; [reflexivity |].
  destruct (session_history_append_only sample_session_ops sample_sessions 0 _ eq_refl)
    as (s' & Hs' & _ & Hprefix).
  injection Hs' as <-. exact Hprefix.
Defined.

(** ** Listing the store *)

Lemma insert_by_iteration_perm (x : TrainingExample) (l : list TrainingExample) :
  Permutation (insert_by_iteration x l) (x :: l).
Proof.
  induction l as [| y rest IH]; cbn [insert_by_iteration]; [reflexivity |].
  destruct (learning_iteration x <=? learning_iteration y)%Z; [reflexivity |].
  rewrite IH. apply perm_swap.
Qed.

Lemma sort_by_iteration_perm (l : list TrainingExample) :
  Permutation (sort_by_iteration l) l.
Proof.
  induction l as [| x rest IH]; cbn [sort_by_iteration fold_right]; [reflexivity |].
  rewrite insert_by_iteration_perm. constructor. exact IH.
Qed.

Lemma insert_by_iteration_sorted (x : TrainingExample) (l : list TrainingExample) :
  Sorted by_iteration l -> Sorted by_iteration (insert_by_iteration x l).
Proof.
  induction 1 as [| y rest Hs IH Hhd]; cbn [insert_by_iteration].
  - repeat constructor.
  - destruct (learning_iteration x <=? learning_iteration y)%Z eqn:E.
    + apply Z.leb_le in E. constructor; [constructor; assumption |].
      constructor. exact E.
    + apply Z.leb_gt in E. constructor; [exact IH |].
      destruct rest as [| z rest']; cbn [insert_by_iteration].
      * constructor. unfold by_iteration. lia.
      * destruct (learning_iteration x <=? learning_iteration z)%Z.
        -- constructor. unfold by_iteration. lia.
        -- constructor. inversion Hhd. assumption.
Qed.

Lemma sort_by_iteration_sorted (l : list TrainingExample) :
  Sorted by_iteration (sort_by_iteration l).
Proof.
  induction l as [| x rest IH]; cbn [sort_by_iteration fold_right]; [constructor |].
  apply insert_by_iteration_sorted, IH.
Qed.

Lemma filter_partition_length {A : Type} (f : A -> bool) (l : list A) :
  (List.length (List.filter f l) + List.length (List.filter (fun x => negb (f x)) l)
   = List.length l)%nat.
Proof.
  induction l as [| x rest IH]; [reflexivity |].
  cbn [List.filter]. destruct (f x); cbn [negb List.length]; lia.
Qed.

Lemma stored_values (st : Store) (example : TrainingExample) :
  In example (map snd (map_to_list (examples st)))
  <-> exists k, examples st !! k = Some example.
Proof.
  rewrite in_map_iff. split.
  - intros ([k x] & <- & Hin). exists k.
    apply elem_of_map_to_list, list_elem_of_In, Hin.
  - intros [k Hk]. exists (k, example). split; [reflexivity |].
    apply list_elem_of_In, elem_of_map_to_list, Hk.
Qed.

(** X15. [getValidatedExamples] returns, sorted by learning iteration,
    exactly the stored examples that are validated and pass the
    iteration filter; a filter of 0 is no filter.  Together with
    [getUnvalidatedExamples] it lists every stored example once, so the
    report's total is the number of examples in the store. *)
Theorem store_listing (st : Store) (iteration : option Z)
    (sessions : list LearningSession) (metrics : list ScrapingMetrics) :
  Sorted by_iteration (getValidatedExamples iteration st)
  /\ (forall example,
        In example (getValidatedExamples iteration st)
        <-> (exists k, examples st !! k = Some example)
            /\ is_validated example = true
            /\ iteration_filter iteration example = true)
  /\ (forall example,
        In example (getUnvalidatedExamples st)
        <-> (exists k, examples st !! k = Some example)
            /\ is_validated example = false)
  /\ getValidatedExamples (Some 0%Z) st = getValidatedExamples None st
  /\ total_examples (generateReport st sessions metrics) = size (examples st).
Proof.
  unfold getValidatedExamples, getUnvalidatedExamples.
  split; [apply sort_by_iteration_sorted |]. split; [| split; [| split]].
  - intros example.
    rewrite (Permutation_in' (eq_refl example) (sort_by_iteration_perm _)).
    rewrite filter_In, stored_values, andb_true_iff. tauto.
  - intros example. rewrite filter_In, stored_values, negb_true_iff. tauto.
  - reflexivity.
  - cbn [generateReport total_examples].
    unfold getValidatedExamples, getUnvalidatedExamples.
    rewrite (Permutation_length (sort_by_iteration_perm _)).
    rewrite <- length_map_to_list, <- (length_map snd (map_to_list (examples st))).
    rewrite <- (filter_partition_length is_validated (map snd (map_to_list (examples st)))).
    f_equal. f_equal. apply filter_ext. intros a.
    cbn [iteration_filter]. apply andb_true_r.
Qed.

(** ** Accuracy, continued *)

Lemma correctCount_perm (l l' : list TrainingExample) :
  Permutation l l' -> correctCount l = correctCount l'.
Proof.
  induction 1 as [| x l l' _ IH | x y l | l l' l'' _ IH1 _ IH2];
    cbn [correctCount].
  - reflexivity.
  - rewrite IH. reflexivity.
  - destruct (manual_validation x) as [vx |], (manual_validation y) as [vy |];
      try reflexivity.
    destruct (fieldsMatch _ vx), (fieldsMatch _ vy); reflexivity.
  - congruence.
Qed.

Lemma toFixed_Qeq (digits : nat) (x y : Q) : (x == y)%Q -> toFixed digits x = toFixed digits y.
Proof.
  intros H. unfold toFixed.
  assert (Hb : Qle_bool 0 x = Qle_bool 0 y).
  { destruct (Qle_bool 0 x) eqn:Ex, (Qle_bool 0 y) eqn:Ey; try reflexivity.
    - apply Qle_bool_iff in Ex. rewrite H in Ex. apply Qle_bool_iff in Ex. congruence.
    - apply Qle_bool_iff in Ey. rewrite <- H in Ey. apply Qle_bool_iff in Ey. congruence. }
  rewrite Hb. destruct (Qle_bool 0 y); f_equal.
  - apply Qfloor_comp. rewrite H. reflexivity.
  - f_equal. apply Qfloor_comp. rewrite H. reflexivity.
Qed.

(** X16. The accuracy percentage lies between 0 and 100; it is 100 when
    every example of a non-empty list is counted and 0 when none is. *)
Theorem calculateAccuracy_on_range (validated : list TrainingExample) :
  (0 <= calculateAccuracy_on validated <= 100)%Q
  /\ (validated <> [] -> correctCount validated = List.length validated ->
      (calculateAccuracy_on validated == 100)%Q)
  /\ (correctCount validated = 0%nat -> (calculateAccuracy_on validated == 0)%Q).
Proof.
  unfold calculateAccuracy_on. split; [| split].
  - destruct (List.length validated =? 0)%nat eqn:E; [split; discriminate |].
    apply Nat.eqb_neq in E. split.
    + apply toFixed_nonneg, accuracy_ratio_nonneg.
    + apply Qle_trans with (toFixed 2 100); [| vm_compute; discriminate].
      apply toFixed_nonneg_mono; [apply accuracy_ratio_nonneg |].
      pose proof (correctCount_le_length validated) as Hle.
      rewrite Q_of_nat_ratio by lia.
      assert (Hn : Z.pos (Pos.of_nat (List.length validated))
                   = Z.of_nat (List.length validated))
        by (rewrite <- positive_nat_Z, Nat2Pos.id by lia; reflexivity).
      unfold Qle, Qmult. cbn [Qnum Qden].
      rewrite Pos.mul_1_r, Hn. nia.
  - intros Hne Hall. destruct validated as [| x rest]; [contradiction |].
    cbn [List.length Nat.eqb] in *. rewrite Hall.
    rewrite (toFixed_Qeq 2 _ 100); [reflexivity |].
    rewrite Q_of_nat_ratio by lia.
    assert (Hn : Z.pos (Pos.of_nat (S (List.length rest)))
                 = Z.of_nat (S (List.length rest)))
      by (rewrite <- positive_nat_Z, Nat2Pos.id by lia; reflexivity).
    unfold Qeq, Qmult. cbn [Qnum Qden]. rewrite Pos.mul_1_r, Hn. lia.
  - intros Hnone. destruct (List.length validated =? 0)%nat; [reflexivity |].
    rewrite Hnone. rewrite (toFixed_Qeq 2 _ 0); [reflexivity |].
    unfold Q_of_nat, Qdiv. cbn [Z.of_nat]. ring.
Qed.

(** X17. The accuracy percentage does not depend on the order in which
    the examples are listed. *)
Theorem calculateAccuracy_on_order (validated validated' : list TrainingExample)
    (Hperm : Permutation validated validated') :
  calculateAccuracy_on validated = calculateAccuracy_on validated'.
Proof.
  unfold calculateAccuracy_on.
  rewrite (correctCount_perm _ _ Hperm), (Permutation_length Hperm). reflexivity.
Qed.

Lemma calculateAccuracy_on_order_witness :
  calculateAccuracy_on [example_exact; example_date_differs]
  = calculateAccuracy_on [example_date_differs; example_exact].
Proof.
  apply (calculateAccuracy_on_order [example_exact; example_date_differs]
           [example_date_differs; example_exact]).
  apply perm_swap.
Defined.

(** ** The validation analyzer *)

Lemma bump_keys (g : string) (m : list (string * nat)) :
  map fst (bump g m) = map fst m.
Proof.
  unfold bump. rewrite map_map. apply map_ext. intros [k n]. cbn.
  destruct (String.eqb k g); reflexivity.
Qed.

Lemma field_count_bump (f g : string) (m : list (string * nat)) :
  In f (map fst m) ->
  field_count f (bump g m)
  = (field_count f m + if String.eqb f g then 1 else 0)%nat.
Proof.
  induction m as [| [k n] rest IH]; intros Hin; [destruct Hin |].
  cbn [bump map fst snd field_count].
  destruct (String.eqb f k) eqn:Efk.
  - apply String.eqb_eq in Efk. subst k.
    destruct (String.eqb f g) eqn:Efg; cbn [field_count fst]; rewrite String.eqb_refl; lia.
  - destruct (String.eqb k g); cbn [field_count fst]; rewrite Efk;
      (apply IH; destruct Hin as [Hin | Hin];
       [cbn in Hin; subst k; rewrite String.eqb_refl in Efk; discriminate | exact Hin]).
Qed.

(** The inner loop over any list of field names. *)
Lemma check_fields_spec (t v : Tender) (fs : list string) :
  forall (acc : Analysis * bool) (f : string),
    let out := fold_left (check_field t v) fs acc in
    map fst (fieldErrors (fst out)) = map fst (fieldErrors (fst acc))
    /\ perfectExtractions (fst out) = perfectExtractions (fst acc)
    /\ snd out
       = snd acc
         || existsb (fun g => strict_ne (tender_field g t) (tender_field g v)) fs
    /\ (In f (map fst (fieldErrors (fst acc))) ->
        field_count f (fieldErrors (fst out))
        = (field_count f (fieldErrors (fst acc))
           + List.length
               (List.filter
                  (fun g => String.eqb f g
                            && strict_ne (tender_field g t) (tender_field g v)) fs))%nat).
Proof.
  induction fs as [| g fs IH]; intros acc f; cbn [fold_left existsb List.filter].
  - rewrite orb_false_r. cbn [List.length]. repeat split. intros _. lia.
  - destruct (strict_ne (tender_field g t) (tender_field g v)) eqn:E.
    + assert (Hstep : check_field t v acc g
                      = ({| fieldErrors := bump g (fieldErrors (fst acc));
                            errorDetails :=
                              push_detail g (error_detail g t v) (errorDetails (fst acc));
                            perfectExtractions := perfectExtractions (fst acc) |},
                         true))
        by (unfold check_field; rewrite E; reflexivity).
      rewrite Hstep.
      match goal with
      | |- context [fold_left _ fs ?acc'] => destruct (IH acc' f) as (Hk & Hp & Hs & Hc)
      end.
      cbn [fst snd fieldErrors perfectExtractions] in *.
      rewrite bump_keys in *. rewrite Hs.
      repeat split; try assumption; [rewrite orb_true_r; reflexivity |].
      intros Hin. rewrite (Hc Hin), field_count_bump by exact Hin.
      rewrite andb_true_r. destruct (String.eqb f g); cbn [List.length]; lia.
    + assert (Hstep : check_field t v acc g = acc)
        by (unfold check_field; rewrite E; reflexivity).
      rewrite Hstep, andb_false_r. cbn [orb]. apply IH.
Qed.

Lemma initial_keys : map fst (fieldErrors initial_analysis) = tender_fields.
Proof. reflexivity. Qed.

(** Over the seven field names, a field is visited once. *)
Lemma one_visit (f : string) (mm : string -> bool) :
  In f tender_fields ->
  List.length (List.filter (fun g => String.eqb f g && mm g) tender_fields)
  = if mm f then 1%nat else 0%nat.
Proof.
  intros Hin. cbn [tender_fields In] in Hin.
  repeat (destruct Hin as [<- | Hin];
          [cbn; destruct (mm _); reflexivity |]).
  destruct Hin.
Qed.

Lemma analyze_example_spec (a : Analysis) (x : TrainingExample) (f : string) :
  map fst (fieldErrors a) = tender_fields ->
  map fst (fieldErrors (analyze_example a x)) = tender_fields
  /\ perfectExtractions (analyze_example a x)
     = (perfectExtractions a + if perfect x then 1 else 0)%nat
  /\ (In f tender_fields ->
      field_count f (fieldErrors (analyze_example a x))
      = (field_count f (fieldErrors a) + if mismatches_on f x then 1 else 0)%nat).
Proof.
  intros Hkeys. unfold analyze_example, perfect, mismatches_on.
  destruct (manual_validation x) as [v |] eqn:Hv.
  - set (t := tender (gemini_extraction x)).
    destruct (check_fields_spec t v tender_fields (a, false) f) as (Hk & Hp & Hs & Hc).
    cbn [fst snd] in *.
    set (out := fold_left (check_field t v) tender_fields (a, false)) in *.
    assert (Hflag : snd out
                    = negb (forallb (fun field =>
                                       negb (strict_ne (tender_field field t)
                                                       (tender_field field v)))
                                    tender_fields)).
    { rewrite Hs. cbn [tender_fields existsb forallb orb].
      repeat match goal with
             | |- context [strict_ne ?p ?q] => destruct (strict_ne p q); cbn; try reflexivity
             end. }
    rewrite Hflag.
    destruct (forallb _ tender_fields); cbn [negb fieldErrors perfectExtractions].
    + split; [congruence |]. split; [lia |].
      intros Hin. rewrite Hkeys in Hc. rewrite (Hc Hin).
      rewrite (one_visit f (fun g => strict_ne (tender_field g t) (tender_field g v)) Hin).
      reflexivity.
    + split; [congruence |]. split; [lia |].
      intros Hin. rewrite Hkeys in Hc. rewrite (Hc Hin).
      rewrite (one_visit f (fun g => strict_ne (tender_field g t) (tender_field g v)) Hin).
      reflexivity.
  - split; [exact Hkeys |]. split; [lia |]. intros _. lia.
Qed.

Lemma analyze_fold_spec (l : list TrainingExample) (f : string) :
  forall a,
    map fst (fieldErrors a) = tender_fields ->
    map fst (fieldErrors (fold_left analyze_example l a)) = tender_fields
    /\ perfectExtractions (fold_left analyze_example l a)
       = (perfectExtractions a + List.length (List.filter perfect l))%nat
    /\ (In f tender_fields ->
        field_count f (fieldErrors (fold_left analyze_example l a))
        = (field_count f (fieldErrors a)
           + List.length (List.filter (mismatches_on f) l))%nat).
Proof.
  induction l as [| x l IH]; intros a Hkeys; cbn [fold_left List.filter].
  - cbn [List.length]. split; [exact Hkeys |]. split; [lia |]. intros _. lia.
  - destruct (analyze_example_spec a x f Hkeys) as (Hk1 & Hp1 & Hc1).
    destruct (IH _ Hk1) as (Hk2 & Hp2 & Hc2).
    split; [exact Hk2 |]. split.
    + rewrite Hp2, Hp1. destruct (perfect x); cbn [List.length]; lia.
    + intros Hin. rewrite (Hc2 Hin), (Hc1 Hin).
      destruct (mismatches_on f x); cbn [List.length]; lia.
Qed.

(** What the counters hold when the analysis is printed. *)
Lemma analyzeValidations_counts (validated : list TrainingExample) (f : string) :
  In f tender_fields ->
  field_count f (fieldErrors (analyzeValidations validated))
  = List.length (List.filter (mismatches_on f) validated)
  /\ perfectExtractions (analyzeValidations validated)
     = List.length (List.filter perfect validated).
Proof.
  intros Hin. unfold analyzeValidations.
  destruct (analyze_fold_spec validated f initial_analysis initial_keys)
    as (_ & Hp & Hc).
  assert (H0 : field_count f (fieldErrors initial_analysis) = 0%nat).
  { cbn [tender_fields In] in Hin.
    repeat (destruct Hin as [<- | Hin]; [reflexivity |]). destruct Hin. }
  split; [rewrite (Hc Hin), H0; reflexivity | rewrite Hp; reflexivity].
Qed.

Lemma filter_length_le {A : Type} (f : A -> bool) (l : list A) :
  (List.length (List.filter f l) <= List.length l)%nat.
Proof.
  induction l as [| x l IH]; cbn [List.filter List.length]; [lia |].
  destruct (f x); cbn [List.length]; lia.
Qed.

Lemma filter_length_mono {A : Type} (f g : A -> bool) (l : list A) :
  (forall x, f x = true -> g x = true) ->
  (List.length (List.filter f l) <= List.length (List.filter g l))%nat.
Proof.
  intros H. induction l as [| x l IH]; cbn [List.filter List.length]; [lia |].
  destruct (f x) eqn:Ef.
  - rewrite (H x Ef). cbn [List.length]. lia.
  - destruct (g x); cbn [List.length]; lia.
Qed.

Lemma filter_length_zero {A : Type} (f : A -> bool) (l : list A) :
  List.length (List.filter f l) = 0%nat <-> forall x, In x l -> f x = false.
Proof.
  induction l as [| x l IH]; cbn [List.filter List.length].
  - split; [intros _ x [] | reflexivity].
  - destruct (f x) eqn:Ef; cbn [List.length].
    + split; [discriminate |]. intros H. specialize (H x (or_introl eq_refl)). congruence.
    + rewrite IH. split.
      * intros H y [<- | Hy]; [exact Ef | apply H, Hy].
      * intros H y Hy. apply H. right. exact Hy.
Qed.

(** X18. When the analysis is printed, the error counter of each field
    is the number of validated examples whose extraction differs from
    the ground truth in that field, and the counter of perfect
    extractions is the number of examples that differ in no field;
    neither exceeds the number of validated examples. *)
Theorem analyzeValidations_counters (validated : list TrainingExample) (f : string)
    (Hfield : In f tender_fields) :
  field_count f (fieldErrors (analyzeValidations validated))
  = List.length (List.filter (mismatches_on f) validated)
  /\ perfectExtractions (analyzeValidations validated)
     = List.length (List.filter perfect validated)
  /\ (field_count f (fieldErrors (analyzeValidations validated))
      <= List.length validated)%nat
  /\ (perfectExtractions (analyzeValidations validated) <= List.length validated)%nat
  /\ map fst (fieldErrors (analyzeValidations validated)) = tender_fields.
Proof.
  destruct (analyzeValidations_counts validated f Hfield) as [Hc Hp].
  rewrite Hc, Hp.
  split; [reflexivity |]. split; [reflexivity |].
  split; [apply filter_length_le |]. split; [apply filter_length_le |].
  apply (analyze_fold_spec validated f initial_analysis initial_keys).
Qed.

Lemma analyzeValidations_counters_witness :
  field_count "tarikh"
    (fieldErrors (analyzeValidations
                    [example_exact; example_date_differs; example_status_date_differ]))
  = 2%nat
  /\ perfectExtractions
       (analyzeValidations
          [example_exact; example_date_differs; example_status_date_differ])
     = 1%nat.
Proof.
  destruct (analyzeValidations_counters
              [example_exact; example_date_differs; example_status_date_differ]
              "tarikh") as (Hc & Hp & _).
  - cbn. tauto.
  - rewrite Hc, Hp. split; reflexivity.
Defined.

Lemma correctCount_filter (l : list TrainingExample) :
  correctCount l = List.length (List.filter counted l).
Proof.
  induction l as [| x l IH]; cbn [correctCount List.filter]; [reflexivity |].
  unfold counted at 1.
  destruct (manual_validation x) as [v |]; [| exact IH].
  destruct (fieldsMatch _ v); cbn [List.length]; rewrite IH; reflexivity.
Qed.

(** An example the failure analysis lists. *)
Lemma analyzeFailures_filter (l : list TrainingExample) :
  List.length (analyzeFailures l)
  = List.length
      (List.filter (fun x => mismatches_on "bil" x || mismatches_on "kod_bidang" x
                             || mismatches_on "status" x) l).
Proof.
  induction l as [| x l IH]; cbn [analyzeFailures List.filter]; [reflexivity |].
  unfold mismatches_on at 1 2 3.
  destruct (manual_validation x) as [v |]; [| exact IH].
  cbn [tender_field String.eqb Ascii.eqb Bool.eqb].
  destruct (strict_ne (bil _) (bil v) || strict_ne (kod_bidang _) (kod_bidang v)
            || strict_ne (status _) (status v));
    cbn [List.length]; rewrite IH; reflexivity.
Qed.

Lemma perfect_counted (x : TrainingExample) : perfect x = true -> counted x = true.
Proof.
  unfold perfect, counted, mismatches_on, fieldsMatch.
  destruct (manual_validation x) as [v |]; [| discriminate].
  cbn [tender_fields forallb tender_field String.eqb Ascii.eqb Bool.eqb].
  unfold strict_ne. rewrite !negb_involutive.
  intros H. repeat (apply andb_prop in H as [? H]).
  repeat match goal with E : strict_eq _ _ = true |- _ => rewrite E; clear E end.
  reflexivity.
Qed.

Lemma counted_not_failure (x : TrainingExample) :
  counted x = true ->
  mismatches_on "bil" x || mismatches_on "kod_bidang" x || mismatches_on "status" x
  = false.
Proof.
  unfold counted, mismatches_on, fieldsMatch.
  destruct (manual_validation x) as [v |]; [| reflexivity].
  cbn [tender_field String.eqb Ascii.eqb Bool.eqb]. unfold strict_ne.
  intros H. repeat (apply andb_prop in H as [H ?]).
  repeat match goal with E : strict_eq _ _ = true |- _ => rewrite E; clear E end.
  reflexivity.
Qed.

(** X19. The three measures are ordered: an extraction the analyzer
    counts as perfect is counted as correct by [calculateAccuracy], and
    an example counted as correct is never in the list of failures the
    trainer works on. *)
Theorem perfect_le_correct_le_not_failed (validated : list TrainingExample) :
  (perfectExtractions (analyzeValidations validated) <= correctCount validated)%nat
  /\ (correctCount validated + List.length (analyzeFailures validated)
      <= List.length validated)%nat.
Proof.
  destruct (analyzeValidations_counts validated "bil") as [_ Hp]; [cbn; tauto |].
  rewrite Hp, correctCount_filter, analyzeFailures_filter. split.
  - apply filter_length_mono, perfect_counted.
  - set (failed := fun x => mismatches_on "bil" x || mismatches_on "kod_bidang" x
                            || mismatches_on "status" x).
    pose proof (filter_partition_length failed validated) as Hpart.
    assert (Hle : (List.length (List.filter counted validated)
                   <= List.length (List.filter (fun x => negb (failed x)) validated))%nat).
    { apply filter_length_mono. intros x Hx. unfold failed.
      rewrite (counted_not_failure x Hx). reflexivity. }
    lia.
Qed.

(** X20. The trainer finds no failure to work on exactly when the
    analyzer's error counters of the item number, the code and the
    status are all 0. *)
Theorem no_failure_iff_critical_counters_zero (validated : list TrainingExample) :
  analyzeFailures validated = []
  <-> field_count "bil" (fieldErrors (analyzeValidations validated)) = 0%nat
      /\ field_count "kod_bidang" (fieldErrors (analyzeValidations validated)) = 0%nat
      /\ field_count "status" (fieldErrors (analyzeValidations validated)) = 0%nat.
Proof.
  destruct (analyzeValidations_counts validated "bil") as [-> _]; [cbn; tauto |].
  destruct (analyzeValidations_counts validated "kod_bidang") as [-> _]; [cbn; tauto |].
  destruct (analyzeValidations_counts validated "status") as [-> _]; [cbn; tauto |].
  rewrite !filter_length_zero.
  rewrite <- length_zero_iff_nil, analyzeFailures_filter, filter_length_zero.
  split.
  - intros H. repeat split; intros x Hx; specialize (H x Hx);
      apply orb_false_elim in H as [H ?]; apply orb_false_elim in H as [? ?]; assumption.
  - intros (Hb & Hk & Hs) x Hx.
    rewrite (Hb x Hx), (Hk x Hx), (Hs x Hx). reflexivity.
Qed.

(** ** Failure patterns, continued *)

Lemma set_add_In (x y : string) (patterns : list string) :
  In y (set_add x patterns) <-> y = x \/ In y patterns.
Proof.
  unfold set_add. destruct (existsb (String.eqb x) patterns) eqn:E.
  - split; [auto |]. intros [-> | H]; [| exact H].
    apply existsb_exists in E as (z & Hz & Heq).
    apply String.eqb_eq in Heq. subst z. exact Hz.
  - rewrite in_app_iff. cbn [In]. split.
    + intros [H | [H | []]]; auto.
    + intros [-> | H]; auto.
Qed.

Lemma NoDup_snoc (x : string) (l : list string) :
  List.NoDup l -> ~ In x l -> List.NoDup (l ++ [x]).
Proof.
  induction 1 as [| y l Hy Hl IH]; intros Hx; cbn [app].
  - constructor; [intros [] | constructor].
  - constructor.
    + rewrite in_app_iff. cbn [In]. intros [H | [<- | []]]; [auto |].
      apply Hx. left. reflexivity.
    + apply IH. intros H. apply Hx. right. exact H.
Qed.

Lemma set_add_NoDup (x : string) (patterns : list string) :
  List.NoDup patterns -> List.NoDup (set_add x patterns).
Proof.
  intros H. unfold set_add. destruct (existsb (String.eqb x) patterns) eqn:E; [exact H |].
  apply NoDup_snoc; [exact H |]. intros Hin.
  assert (Hex : existsb (String.eqb x) patterns = true)
    by (apply existsb_exists; exists x; split; [exact Hin | apply String.eqb_refl]).
  congruence.
Qed.

Lemma add_if_In (cond : bool) (x y : string) (patterns : list string) :
  In y (add_if cond x patterns) <-> (cond = true /\ y = x) \/ In y patterns.
Proof.
  unfold add_if. destruct cond; [rewrite set_add_In |]; intuition congruence.
Qed.

Lemma add_if_NoDup (cond : bool) (x : string) (patterns : list string) :
  List.NoDup patterns -> List.NoDup (add_if cond x patterns).
Proof. unfold add_if. destruct cond; [apply set_add_NoDup | auto]. Qed.

Lemma identifyFailurePatterns_loop_spec (failures : list Failure) :
  forall patterns,
    (List.NoDup patterns -> List.NoDup (identifyFailurePatterns_loop failures patterns))
    /\ forall tag,
         In tag (identifyFailurePatterns_loop failures patterns)
         <-> In tag patterns
             \/ exists failure, In failure failures
                                /\ raises tag (field_mismatches failure) = true.
Proof.
  induction failures as [| f rest IH]; intros patterns;
    cbn [identifyFailurePatterns_loop].
  - split; [auto |]. intros tag. split; [auto |].
    intros [H | (x & [] & _)]. exact H.
  - match goal with
    | |- context [identifyFailurePatterns_loop rest ?p] =>
        destruct (IH p) as [Hnd Hin]
    end.
    split.
    + intros H. apply Hnd. repeat apply add_if_NoDup. exact H.
    + intros tag. rewrite Hin, !add_if_In. unfold raises. split.
      * intros [[[Hc ->] | [[Hc ->] | [[Hc ->] | [[Hc ->] | H]]]] | (x & Hx & Hr)].
        -- right. exists f. split; [left; reflexivity | exact Hc].
        -- right. exists f. split; [left; reflexivity | exact Hc].
        -- right. exists f. split; [left; reflexivity | exact Hc].
        -- right. exists f. split; [left; reflexivity | exact Hc].
        -- left. exact H.
        -- right. exists x. split; [right; exact Hx | exact Hr].
      * intros [H | (x & [<- | Hx] & Hr)].
        -- left. tauto.
        -- left.
           destruct (String.eqb tag "code_format") eqn:E1;
             [apply String.eqb_eq in E1; subst; tauto |].
           destruct (String.eqb tag "status_format") eqn:E2;
             [apply String.eqb_eq in E2; subst; tauto |].
           destruct (String.eqb tag "text_content") eqn:E3;
             [apply String.eqb_eq in E3; subst; tauto |].
           destruct (String.eqb tag "date_format") eqn:E4;
             [apply String.eqb_eq in E4; subst; tauto |].
           discriminate.
        -- right. exists x. split; [exact Hx | exact Hr].
Qed.

(** X21. The tags [identifyFailurePatterns] returns are pairwise
    distinct, and a tag is returned exactly when some failure records
    the mismatch that raises it: the code for code_format, the status
    for status_format, the category or the description for
    text_content, the date for date_format. *)
Theorem identifyFailurePatterns_membership (failures : list Failure) (tag : string) :
  List.NoDup (identifyFailurePatterns failures)
  /\ (In tag (identifyFailurePatterns failures)
      <-> exists failure, In failure failures
                          /\ raises tag (field_mismatches failure) = true).
Proof.
  unfold identifyFailurePatterns.
  destruct (identifyFailurePatterns_loop_spec failures []) as [Hnd Hin].
  split; [apply Hnd; constructor |].
  rewrite Hin. split; [intros [[] | H]; exact H | auto].
Qed.

(** The failures are the failed examples, each with the five mismatches
    [analyzeFailures] writes down. *)
Lemma analyzeFailures_In (validated : list TrainingExample) (failure : Failure) :
  In failure (analyzeFailures validated)
  <-> exists example,
        In example validated
        /\ failed example = true
        /\ failure
           = mkFailure example
               [("bil", mismatches_on "bil" example);
                ("kod_bidang", mismatches_on "kod_bidang" example);
                ("status", mismatches_on "status" example);
                ("tarikh", mismatches_on "tarikh" example);
                ("bidang", mismatches_on "bidang" example)].
Proof.
  induction validated as [| x l IH]; cbn [analyzeFailures].
  - split; [intros [] | intros (e & [] & _)].
  - unfold failed, mismatches_on in *.
    destruct (manual_validation x) as [v |] eqn:Hv.
    + cbn [tender_field String.eqb Ascii.eqb Bool.eqb] in *.
      destruct (strict_ne (bil _) (bil v) || strict_ne (kod_bidang _) (kod_bidang v)
                || strict_ne (status _) (status v)) eqn:Hc.
      * cbn [In]. rewrite IH. split.
        -- intros [<- | (e & He & Hf & Hfl)].
           ++ exists x. split; [left; reflexivity |]. rewrite Hv.
              split; [exact Hc | reflexivity].
           ++ exists e. split; [right; exact He | split; assumption].
        -- intros (e & [<- | He] & Hf & ->).
           ++ left. rewrite Hv. reflexivity.
           ++ right. exists e. split; [exact He | split; [exact Hf | reflexivity]].
      * rewrite IH. split.
        -- intros (e & He & Hf & Hfl). exists e. split; [right; exact He | split; assumption].
        -- intros (e & [<- | He] & Hf & ->).
           ++ rewrite Hv in Hf. congruence.
           ++ exists e. split; [exact He | split; [exact Hf | reflexivity]].
    + rewrite IH. split.
      * intros (e & He & Hf & Hfl). exists e. split; [right; exact He | split; assumption].
      * intros (e & [<- | He] & Hf & ->).
        -- rewrite Hv in Hf. discriminate.
        -- exists e. split; [exact He | split; [exact Hf | reflexivity]].
Qed.

(** X22. On the failures [analyzeFailures] produces, a tag is raised
    exactly when some failed example mismatches on the code
    (code_format), the status (status_format), the category
    (text_content) or the date (date_format): a mismatch of the
    description or of the reference code raises no tag, and no tag is
    raised by an example that is not a failure. *)
Theorem failure_patterns_of_validated (validated : list TrainingExample) (tag : string) :
  In tag (identifyFailurePatterns (analyzeFailures validated))
  <-> exists example,
        In example validated
        /\ failed example = true
        /\ ((tag = "code_format" /\ mismatches_on "kod_bidang" example = true)
            \/ (tag = "status_format" /\ mismatches_on "status" example = true)
            \/ (tag = "text_content" /\ mismatches_on "bidang" example = true)
            \/ (tag = "date_format" /\ mismatches_on "tarikh" example = true)).
Proof.
  unfold identifyFailurePatterns.
  destruct (identifyFailurePatterns_loop_spec (analyzeFailures validated) [])
    as [_ Hin].
  rewrite Hin. clear Hin. split; [intros [[] | H]; revert H | intros H; right; revert H].
  - intros (f & Hf & Hr). apply analyzeFailures_In in Hf as (e & He & Hfail & ->).
    exists e. split; [exact He |]. split; [exact Hfail |].
    unfold raises in Hr. cbn [field_mismatches mismatch String.eqb Ascii.eqb Bool.eqb] in Hr.
    destruct (String.eqb tag "code_format") eqn:E1;
      [apply String.eqb_eq in E1; auto |].
    destruct (String.eqb tag "status_format") eqn:E2;
      [apply String.eqb_eq in E2; auto |].
    destruct (String.eqb tag "text_content") eqn:E3;
      [apply String.eqb_eq in E3; rewrite orb_false_r in Hr; auto |].
    destruct (String.eqb tag "date_format") eqn:E4;
      [apply String.eqb_eq in E4; auto 6 |].
    discriminate.
  - intros (e & He & Hfail & Hcase).
    eexists. split; [apply analyzeFailures_In; exists e; eauto |].
    cbn [field_mismatches].
    destruct Hcase as [[-> H] | [[-> H] | [[-> H] | [-> H]]]];
      unfold raises; cbn [String.eqb Ascii.eqb Bool.eqb mismatch];
      rewrite H; reflexivity.
Qed.

(** ** A round of training *)

Lemma next_iteration_above (validated : list TrainingExample) :
  (1 <= next_iteration validated)%Z
  /\ forall example, In example validated ->
                     (learning_iteration example < next_iteration validated)%Z.
Proof.
  unfold next_iteration.
  induction validated as [| x l [IH1 IH2]]; cbn [map fold_right].
  - split; [lia | intros e []].
  - split; [lia |]. intros e [<- | He]; [lia |].
    specialize (IH2 e He). lia.
Qed.

Lemma addIteration_length (sessionId : string) (iteration : LearningIteration)
    (sessions : list LearningSession) :
  List.length (fst (addIteration sessionId iteration sessions)) = List.length sessions.
Proof.
  unfold addIteration.
  destruct (update_found sessionId iteration sessions) as [[sessions' found] |] eqn:E;
    [| reflexivity].
  destruct (update_found_some _ _ _ _ _ E) as (pre & s & post & -> & -> & _).
  cbn [fst]. rewrite !length_app. reflexivity.
Qed.

(** X23. A round of [train] stops early, leaving the sessions file and
    the extractor as they were, exactly when there is no validated
    example or no failure among them.  Otherwise it builds one iteration
    record: its number is at least 1 and above the learning iteration of
    every validated example, it counts all validated examples, its
    accuracy after equals its accuracy before, and the extractor is left
    with the prompt refined from the failures. *)
Theorem train_round (extract : string -> nat -> string -> Exc (list ExtractionResult))
    (now : Z) (st : Store) (sessions : list LearningSession) (extractor : Extractor) :
  let validated := getValidatedExamples None st in
  let result := train extract now st sessions extractor in
  match iteration_record result with
  | None =>
      (validated = [] \/ analyzeFailures validated = [])
      /\ sessions_after result = sessions
      /\ extractor_after result = extractor
  | Some record =>
      validated <> []
      /\ analyzeFailures validated <> []
      /\ (1 <= iteration_number record)%Z
      /\ (forall example, In example validated ->
            (learning_iteration example < iteration_number record)%Z)
      /\ examples_processed record = List.length validated
      /\ accuracy_before record = calculateAccuracy st
      /\ accuracy_after record = accuracy_before record
      /\ extractionPrompt (extractor_after result)
         = generateImprovedPrompt (analyzeFailures validated)
      /\ iteration_count (extractor_after result) = S (iteration_count extractor)
      /\ List.length (sessions_after result) = List.length sessions
  end.
Proof.
  intros validated result. unfold result, train. fold validated.
  destruct (List.length validated =? 0)%nat eqn:Ev.
  - cbn [iteration_record sessions_after extractor_after].
    apply Nat.eqb_eq, length_zero_iff_nil in Ev. auto.
  - destruct (List.length (analyzeFailures validated) =? 0)%nat eqn:Ef.
    + cbn [iteration_record sessions_after extractor_after].
      apply Nat.eqb_eq, length_zero_iff_nil in Ef. auto.
    + cbn [iteration_record sessions_after extractor_after iteration_number
             examples_processed accuracy_before accuracy_after].
      apply Nat.eqb_neq in Ev, Ef.
      destruct (next_iteration_above validated) as [H1 H2].
      repeat split; try assumption; try reflexivity.
      * intros E. rewrite E in Ev. apply Ev. reflexivity.
      * intros E. rewrite E in Ef. apply Ef. reflexivity.
      * destruct (last_or_null sessions); [apply addIteration_length | reflexivity].
Qed.



Lemma last_or_null_Some {A : Type} (l : list A) (x : A) :
  last_or_null l = Some x -> exists init, l = init ++ [x].
Proof.
  unfold last_or_null. intros H.
  destruct (rev l) as [| y r] eqn:E; [discriminate |].
  injection H as ->. exists (rev r).
  rewrite <- (rev_involutive l), E. reflexivity.
Qed.

(** X25. When a round builds an iteration record, the record is stored
    only if the sessions file holds a session: with no session on file
    the record is dropped; otherwise it is appended to the history of
    the first session that carries the id of the last one (the last
    session itself when the ids are distinct), and no other session
    changes. *)
Theorem train_records_in_last_session
    (extract : string -> nat -> string -> Exc (list ExtractionResult))
    (now : Z) (st : Store) (sessions : list LearningSession) (extractor : Extractor)
    (record : LearningIteration)
    (Hrecord : iteration_record (train extract now st sessions extractor) = Some record) :
  match last_or_null sessions with
  | None =>
      sessions = [] /\ sessions_after (train extract now st sessions extractor) = []
  | Some lastSession =>
      exists pre s post,
        sessions = pre ++ s :: post
        /\ sessions_after (train extract now st sessions extractor)
           = pre ++ push_iteration record s :: post
        /\ session_id s = session_id lastSession
        /\ (forall p, In p pre -> session_id p <> session_id lastSession)
        /\ (List.NoDup (map session_id sessions) -> post = [])
  end.
Proof.
  unfold train in *.
  destruct (List.length (getValidatedExamples None st) =? 0)%nat; [discriminate |].
  destruct (List.length (analyzeFailures (getValidatedExamples None st)) =? 0)%nat;
    [discriminate |].
  cbv zeta in *.
  match type of Hrecord with
  | iteration_record (mkTrainResult _ _ (Some ?r)) = _ => set (built := r) in *
  end.
  cbn [iteration_record sessions_after] in *. injection Hrecord as Hrecord.
  rewrite Hrecord. clear Hrecord built.
  destruct (last_or_null sessions) as [lastSession |] eqn:El.
  - destruct (last_or_null_Some _ _ El) as [init Hinit].
    unfold addIteration.
    destruct (update_found (session_id lastSession) record sessions)
      as [[sessions' found] |] eqn:E.
    + destruct (update_found_some _ _ _ _ _ E) as (pre & s & post & Hs & -> & Hpre & Hid & ->).
      exists pre, s, post. cbn [fst].
      split; [exact Hs |]. split; [reflexivity |]. split; [exact Hid |].
      split; [exact Hpre |].
      intros Hnd. destruct post as [| q post'] using rev_ind; [reflexivity |].
      exfalso. rewrite Hs in Hinit.
      assert (Hq : q = lastSession).
      { change (pre ++ s :: post' ++ [q]) with (pre ++ (s :: post') ++ [q]) in Hinit.
        rewrite app_assoc in Hinit. apply app_inj_tail in Hinit as [_ H]. exact H. }
      subst q. rewrite Hs, map_app in Hnd. cbn [map] in Hnd.
      apply List.NoDup_remove_2 in Hnd. apply Hnd.
      rewrite in_app_iff. right. rewrite map_app, in_app_iff. right.
      cbn [map In]. left. symmetry. exact Hid.
    + exfalso. apply (proj1 (update_found_none _ _ _) E lastSession); [| reflexivity].
      rewrite Hinit, in_app_iff. right. left. reflexivity.
  - split; [| reflexivity || idtac].
    + unfold last_or_null in El. destruct (rev sessions) eqn:E; [| discriminate].
      rewrite <- (rev_involutive sessions), E. reflexivity.
    + unfold last_or_null in El. destruct (rev sessions) eqn:E; [| discriminate].
      rewrite <- (rev_involutive sessions), E. reflexivity.
Qed.

Lemma train_records_in_last_session_witness :
  exists record,
    iteration_record sample_round = Some record
    /\ iteration_number record = 4%Z
    /\ exists pre s post,
         sample_sessions = pre ++ s :: post
         /\ sessions_after sample_round = pre ++ push_iteration record s :: post
         /\ post = [].
Proof.
  destruct (iteration_record sample_round) as [record |] eqn:Hrecord;
    [| vm_compute in Hrecord; discriminate].
  exists record. split; [reflexivity |].
  split; [vm_compute in Hrecord; injection Hrecord as <-; reflexivity |].
  pose proof (train_records_in_last_session sample_extract 1720003000%Z
                sample_training_store sample_sessions (mkExtractor prompt_base 0)
                record Hrecord) as H.
  destruct (last_or_null sample_sessions) as [lastSession |] eqn:El;
    [| vm_compute in El; discriminate].
  destruct H as (pre & s & post & H1 & H2 & _ & _ & Hpost).
  exists pre, s, post. split; [exact H1 |]. split; [exact H2 |].
  apply Hpost. vm_compute. constructor; [intros [] | constructor].
Defined.

(** ** The manual validation loop *)

Lemma unvalidated_listing_replace (m : gmap string TrainingExample) (k : string)
    (old new : TrainingExample) :
  m !! k = Some old ->
  exists others,
    Permutation (map snd (map_to_list m)) (old :: others)
    /\ Permutation (map snd (map_to_list (<[k := new]> m))) (new :: others).
Proof.
  intros Hk. exists (map snd (map_to_list (delete k m))). split.
  - rewrite <- (insert_delete_id m k old Hk) at 1.
    rewrite map_to_list_insert by apply lookup_delete_eq. reflexivity.
  - rewrite <- insert_delete_eq.
    rewrite map_to_list_insert by apply lookup_delete_eq. reflexivity.
Qed.

Lemma filter_length_perm {A : Type} (f : A -> bool) (l l' : list A) :
  Permutation l l' -> List.length (List.filter f l) = List.length (List.filter f l').
Proof.
  induction 1 as [| x l l' _ IH | x y l | l l' l'' _ IH1 _ IH2]; cbn [List.filter].
  - reflexivity.
  - destruct (f x); cbn [List.length]; rewrite IH; reflexivity.
  - destruct (f x), (f y); reflexivity.
  - congruence.
Qed.

Lemma validateExample_effect (now : Z) (exampleId : string) (validatedTender : Tender)
    (st : Store) :
  let st' := fst (validateExample now exampleId validatedTender st) in
  dom (examples st') = dom (examples st)
  /\ (List.length (getUnvalidatedExamples st')
      <= List.length (getUnvalidatedExamples st)
      <= S (List.length (getUnvalidatedExamples st')))%nat.
Proof.
  unfold validateExample.
  destruct (examples st !! exampleId) as [old |] eqn:Hold; cbn [fst examples].
  - split.
    + apply dom_insert_lookup_L. rewrite Hold. eauto.
    + unfold getUnvalidatedExamples. cbn [examples].
      match goal with
      | |- context [<[exampleId := ?new]> (examples st)] =>
          destruct (unvalidated_listing_replace _ _ _ new Hold) as (others & H1 & H2)
      end.
      rewrite (filter_length_perm _ _ _ H1), (filter_length_perm _ _ _ H2).
      cbn [List.filter is_validated negb].
      destruct (negb (is_validated old)); cbn [List.length]; lia.
  - split; [reflexivity | lia].
Qed.

Section ManualValidationProperties.

Variable parseInt : string -> JsValue.
Variable question : nat -> string.
Variable clock : nat -> Z.

Lemma manualValidationLoop_loop_effect (unvalidated : list TrainingExample) :
  forall i index st,
    let st' := manualValidationLoop_loop parseInt question clock unvalidated i index st in
    (store_consistent st -> store_consistent st')
    /\ dom (examples st') = dom (examples st)
    /\ (List.length (getUnvalidatedExamples st')
        <= List.length (getUnvalidatedExamples st)
        <= List.length (getUnvalidatedExamples st') + List.length unvalidated)%nat.
Proof.
  induction unvalidated as [| example rest IH]; intros i index st;
    cbn [manualValidationLoop_loop List.length].
  - cbv zeta. split; [tauto |]. split; [reflexivity | lia].
  - destruct (promptForValidation parseInt question index) as [[validatedTender |] index'].
    + match goal with
      | |- context [manualValidationLoop_loop _ _ _ rest (S i) index' ?s] =>
          specialize (IH (S i) index' s)
      end.
      cbv zeta in IH |- *. destruct IH as (IHc & IHd & IHn).
      destruct (validateExample_effect (clock i) (id example) validatedTender st)
        as [Hd Hn].
      split; [| split].
      * intros Hst. apply IHc.
        apply (proj1 (validateExample_spec _ _ _ _ Hst)).
      * rewrite IHd. exact Hd.
      * lia.
    + specialize (IH (S i) index' st). cbv zeta in IH |- *.
      destruct IH as (IHc & IHd & IHn). split; [exact IHc |]. split; [exact IHd | lia].
Qed.

Lemma manualValidationLoop_loop_idle (unvalidated : list TrainingExample) :
  (forall n, toLowerCase (question n) <> "edit") ->
  forall i index st,
    manualValidationLoop_loop parseInt question clock unvalidated i index st = st.
Proof.
  intros Hq. induction unvalidated as [| example rest IH]; intros i index st;
    cbn [manualValidationLoop_loop]; [reflexivity |].
  unfold promptForValidation.
  destruct (String.eqb (toLowerCase (question index)) "y"); [apply IH |].
  destruct (String.eqb (toLowerCase (question index)) "edit") eqn:E; [| apply IH].
  apply String.eqb_eq in E. destruct (Hq index E).
Qed.

End ManualValidationProperties.

(** X26. In the manual validation loop only the answer [edit], in any
    letter case, leads to a validation: when no line typed reads
    [edit], the store after the loop is the store before it.  Answering
    [y] to every example therefore validates none of them. *)
Theorem manualValidationLoop_only_edit_validates (parseInt : string -> JsValue)
    (question : nat -> string) (clock : nat -> Z) (st : Store)
    (Hanswers : forall n, toLowerCase (question n) <> "edit") :
  manualValidationLoop parseInt question clock st = st.
Proof.
  unfold manualValidationLoop. apply manualValidationLoop_loop_idle, Hanswers.
Qed.

Lemma manualValidationLoop_only_edit_validates_witness :
  manualValidationLoop sample_parseInt (fun _ => "Y") sample_clock sample_unvalidated_store
  = sample_unvalidated_store.
Proof.
  apply (manualValidationLoop_only_edit_validates sample_parseInt (fun _ => "Y")).
  intros n. cbn. discriminate.
Defined.

(** X27. Whatever is typed, the manual validation loop creates and
    deletes no example, validates at most five of them, and keeps the
    rule that an example is marked validated exactly when it carries a
    ground truth. *)
Theorem manualValidationLoop_at_most_five (parseInt : string -> JsValue)
    (question : nat -> string) (clock : nat -> Z) (st : Store) :
  let st' := manualValidationLoop parseInt question clock st in
  dom (examples st') = dom (examples st)
  /\ (List.length (getUnvalidatedExamples st')
      <= List.length (getUnvalidatedExamples st)
      <= List.length (getUnvalidatedExamples st') + 5)%nat
  /\ (store_consistent st -> store_consistent st').
Proof.
  unfold manualValidationLoop.
  pose proof (manualValidationLoop_loop_effect parseInt question clock
                (firstn 5 (getUnvalidatedExamples st)) 0 0 st) as H.
  cbv zeta in H |- *. destruct H as (Hc & Hd & Hn).
  rewrite length_firstn in Hn.
  split; [exact Hd |]. split; [lia | exact Hc].
Qed.

(** ** The layout of the training directory *)

Lemma saveTrainingExample_loop_indexed (uuidv4 : nat -> string) (clock : nat -> Z)
    (pdfPath pdfUrl : string) (iteration : Z) (extraction : list ExtractionResult) :
  forall i st saved,
    store_indexed st ->
    store_indexed (fst (saveTrainingExample_loop uuidv4 clock pdfPath pdfUrl iteration
                          i extraction st saved)).
Proof.
  induction extraction as [| e rest IH]; intros i st saved Hst;
    cbn [saveTrainingExample_loop]; [exact Hst |].
  apply IH. intros k example. cbn [examples validations].
  destruct (decide (uuidv4 i = k)) as [-> | Hne].
  - rewrite lookup_insert_eq. intros [= <-]. cbn [id manual_validation].
    split; [reflexivity | discriminate].
  - rewrite lookup_insert_ne by exact Hne. apply Hst.
Qed.

Lemma validateExample_indexed (now : Z) (exampleId : string) (validatedTender : Tender)
    (st : Store) :
  store_indexed st ->
  store_indexed (fst (validateExample now exampleId validatedTender st)).
Proof.
  intros Hst. unfold validateExample.
  destruct (examples st !! exampleId) as [old |] eqn:Hold; cbn [fst]; [| exact Hst].
  intros k example. cbn [examples validations].
  destruct (decide (exampleId = k)) as [-> | Hne].
  - rewrite !lookup_insert_eq. intros [= <-]. cbn [id manual_validation].
    split; [apply (Hst k old Hold) | intros truth [= <-]; reflexivity].
  - rewrite !lookup_insert_ne by exact Hne. apply Hst.
Qed.

(** X28. After any sequence of saves and validations from the empty
    store, every example is filed under its own id, and the ground truth
    an example carries is the one filed under that id among the
    validations. *)
Theorem store_layout (ops : list StoreOp) (k : string) (example : TrainingExample)
    (Hstored : examples (run_ops ops empty_store) !! k = Some example) :
  id example = k
  /\ forall truth, manual_validation example = Some truth ->
                   validations (run_ops ops empty_store) !! k = Some truth.
Proof.
  assert (Hall : forall l st, store_indexed st -> store_indexed (run_ops l st)).
  { induction l as [| op l IH]; intros st Hst; cbn [run_ops fold_left]; [exact Hst |].
    apply IH. destruct op; cbn [run_op].
    - apply saveTrainingExample_loop_indexed, Hst.
    - apply validateExample_indexed, Hst. }
  apply (Hall ops empty_store); [| exact Hstored].
  intros k' example'. cbn [examples empty_store]. rewrite lookup_empty. discriminate.
Qed.

Lemma store_layout_witness :
  examples (run_ops sample_ops empty_store) !! "example-1"
  = Some sample_example_validated
  /\ id sample_example_validated = "example-1"
  /\ validations (run_ops sample_ops empty_store) !! "example-1" = Some truth_other_date.
Proof.
  assert (H : examples (run_ops sample_ops empty_store) !! "example-1"
              = Some sample_example_validated) by (vm_compute; reflexivity).
  split; [exact H |].
  destruct (store_layout sample_ops "example-1" _ H) as [Hid Htruth].
  split; [exact Hid | apply Htruth; reflexivity].
Defined.
